(** * GD&T extraction engine: a shallow embedding and its properties

    The development follows [GDTExtractor] of [Latestupdatedversion1.0.py]
    (the 8-column engine) function by function.  [try.py] holds an earlier
    state of the same class (the same six methods and the same handler,
    5-column rows, no dimensional extractor).  The 5-column engine of
    [main.py] is embedded where it differs, in [MainPy].

    Text is a Rocq [string].  Input characters are read as ASCII code
    points (the character set of a STEP Part 21 file): [lower], [upper],
    the classes [\d], [\s], [\w] and [splitlines] are Python's behaviour on
    that range, and a character above 127 is left alone by all of them.
    The non-ASCII literals of the source (the glyphs of [gdnt_symbols] and
    the prefix of a tolerance range) are kept as the bytes stored in the
    source file.

    Python exceptions are explicit: a function that can raise returns a
    [result].  [int] follows CPython 3.11 and later, where a digit string of
    more than 4300 characters raises [ValueError].  A [float] is an IEEE 754
    binary64 number built on [SpecFloat]. *)

From Stdlib Require Import String Ascii List ZArith Lia Bool Arith.
From Stdlib Require Import SpecFloat DecimalString.
Import ListNotations.

Set Implicit Arguments.
Open Scope list_scope.
Open Scope string_scope.

(** ** Exceptions *)

Inductive exn : Type :=
| ValueError
| IndexError.

Inductive result (A : Type) : Type :=
| Ok (a : A)
| Raise (e : exn).

Arguments Ok {A} a.
Arguments Raise {A} e.

Definition bind {A B : Type} (x : result A) (f : A -> result B) : result B :=
  match x with
  | Ok a => f a
  | Raise e => Raise e
  end.

Notation "x <- e ;; k" := (bind e (fun x => k))
  (at level 61, e at next level, right associativity).

(** [for x in xs: acc = body(x, acc)], where the body may raise. *)
Fixpoint for_each {A S : Type} (body : A -> S -> result S) (xs : list A) (acc : S)
  : result S :=
  match xs with
  | [] => Ok acc
  | x :: xs' => acc' <- body x acc ;; for_each body xs' acc'
  end.

(** ** Python strings *)

Module Py.

Definition code (c : ascii) : nat := nat_of_ascii c.

Definition in_range (lo hi : nat) (c : ascii) : bool :=
  Nat.leb lo (code c) && Nat.leb (code c) hi.

Definition is_upper : ascii -> bool := in_range 65 90.
Definition is_lower : ascii -> bool := in_range 97 122.
Definition is_digit : ascii -> bool := in_range 48 57.
Definition is_alpha (c : ascii) : bool := is_upper c || is_lower c.

(** [str.isspace] on ASCII: tab, LF, VT, FF, CR, FS, GS, RS, US and space. *)
Definition is_space (c : ascii) : bool :=
  in_range 9 13 c || in_range 28 31 c || Nat.eqb (code c) 32.

(** [\w] on ASCII. *)
Definition is_word (c : ascii) : bool :=
  is_alpha c || is_digit c || Nat.eqb (code c) 95.

Definition lower_char (c : ascii) : ascii :=
  if is_upper c then ascii_of_nat (code c + 32) else c.

Definition upper_char (c : ascii) : ascii :=
  if is_lower c then ascii_of_nat (code c - 32) else c.

Fixpoint map_chars (f : ascii -> ascii) (s : string) : string :=
  match s with
  | EmptyString => EmptyString
  | String c s' => String (f c) (map_chars f s')
  end.

(** [s.lower()], [s.upper()] *)
Definition lower : string -> string := map_chars lower_char.
Definition upper : string -> string := map_chars upper_char.

(** [s.capitalize()] *)
Definition capitalize (s : string) : string :=
  match s with
  | EmptyString => EmptyString
  | String c s' => String (upper_char c) (lower s')
  end.

(** [s.title()]: a letter that follows a non-letter is upper-cased, every
    other letter is lower-cased. *)
Fixpoint title_from (prev_cased : bool) (s : string) : string :=
  match s with
  | EmptyString => EmptyString
  | String c s' =>
      String (if prev_cased then lower_char c else upper_char c)
             (title_from (is_alpha c) s')
  end.

Definition title : string -> string := title_from false.

Fixpoint starts_with (p s : string) : bool :=
  match p, s with
  | EmptyString, _ => true
  | String a p', String b s' => Ascii.eqb a b && starts_with p' s'
  | String _ _, EmptyString => false
  end.

(** [sub in s] *)
Fixpoint contains (sub s : string) : bool :=
  starts_with sub s ||
  match s with
  | EmptyString => false
  | String _ s' => contains sub s'
  end.

(** [any(k in s for k in keys)] *)
Definition any_in (keys : list string) (s : string) : bool :=
  existsb (fun k => contains k s) keys.

Fixpoint all_chars (p : ascii -> bool) (s : string) : bool :=
  match s with
  | EmptyString => true
  | String c s' => p c && all_chars p s'
  end.

Fixpoint lstrip (s : string) : string :=
  match s with
  | String c s' => if is_space c then lstrip s' else s
  | EmptyString => EmptyString
  end.

Fixpoint rstrip (s : string) : string :=
  match s with
  | EmptyString => EmptyString
  | String c s' =>
      match rstrip s' with
      | EmptyString => if is_space c then EmptyString else String c EmptyString
      | t => String c t
      end
  end.

(** [s.strip()] *)
Definition strip (s : string) : string := rstrip (lstrip s).

(** The ASCII line boundaries of [str.splitlines]: LF, VT, FF, CR, FS, GS,
    RS. *)
Definition is_linebreak (c : ascii) : bool :=
  in_range 10 13 c || in_range 28 30 c.

(** [s.splitlines()]: CR LF is one boundary, a final boundary opens no
    empty last line. *)
Fixpoint splitlines (s : string) : list string :=
  match s with
  | EmptyString => []
  | String c s' =>
      if is_linebreak c then
        EmptyString ::
          (if Nat.eqb (code c) 13 then
             match s' with
             | String d s'' => if Nat.eqb (code d) 10 then splitlines s'' else splitlines s'
             | EmptyString => splitlines s'
             end
           else splitlines s')
      else
        match splitlines s' with
        | [] => [String c EmptyString]
        | l :: ls => String c l :: ls
        end
  end.

(** Truth value of a string, and of a string-or-None. *)
Definition truthy (s : string) : bool :=
  match s with EmptyString => false | _ => true end.

Definition truthy_opt (o : option string) : bool :=
  match o with Some s => truthy s | None => false end.

(** [str(x)] for [x] a string or [None]. *)
Definition str_opt (o : option string) : string :=
  match o with Some s => s | None => "None" end.

Fixpoint digits_value (s : string) (acc : Z) : Z :=
  match s with
  | EmptyString => acc
  | String c s' => digits_value s' (10 * acc + Z.of_nat (code c - 48))
  end.

Definition int_max_str_digits : nat := 4300.

(** [int(s)] for [s] a non-empty run of ASCII digits (what [\d+] captures
    here). *)
Definition int (s : string) : result Z :=
  if Nat.ltb int_max_str_digits (String.length s) then Raise ValueError
  else Ok (digits_value s 0).

End Py.

(** ** The fragment of Python's [re] that the engine uses

    A backtracking matcher in continuation-passing style, with Python's
    priorities: a greedy repetition tries the longest run first, a lazy one
    the shortest, an alternation its branches from left to right, an
    optional item is tried before it is skipped.  Every repetition in the
    source patterns ranges over a single character class. *)

Module Re.

(** A character class: a set of characters, or the complement of one. *)
Inductive cclass : Type :=
| OneOf (p : ascii -> bool)
| NoneOf (p : ascii -> bool).

Inductive regex : Type :=
| Lit (lit : string)                         (* literal text *)
| Cls (p : cclass)                           (* one character of a class *)
| Rep (greedy : bool) (lo : nat) (p : cclass) (* p{lo,} or p{lo,}? *)
| Opt (r : regex)                            (* r? *)
| Alt (r1 r2 : regex)                        (* r1|r2 *)
| Cat (r1 r2 : regex)                        (* r1 r2 *)
| Grp (n : nat) (r : regex).                 (* capturing group number n *)

(** Captures: the most recent binding of a group comes first. *)
Definition caps := list (nat * string).

Fixpoint group (c : caps) (n : nat) : option string :=
  match c with
  | [] => None
  | (i, v) :: c' => if Nat.eqb i n then Some v else group c' n
  end.

(** [m.group(n)] of a group that took part in the match; [''] stands for a
    group that did not (as [findall] reports it). *)
Definition group_str (c : caps) (n : nat) : string :=
  match group c n with Some v => v | None => "" end.

Fixpoint take (n : nat) (s : string) : string :=
  match n, s with
  | S n', String c s' => String c (take n' s')
  | _, _ => EmptyString
  end.

(** The text consumed between position [s] and the later position [s']. *)
Definition consumed (s s' : string) : string :=
  take (String.length s - String.length s') s.

Section Matcher.

(** [re.IGNORECASE], on ASCII text: the letters A-Z and a-z are matched
    without regard to case.  (On other text Python also lets s match
    U+017F and k match U+212A; such characters are outside the character
    set read here.) *)
Variable ic : bool.

Definition char_eq (a b : ascii) : bool :=
  Ascii.eqb a b || (ic && Ascii.eqb (Py.lower_char a) (Py.lower_char b)).

Definition in_set (p : ascii -> bool) (c : ascii) : bool :=
  p c || (ic && (p (Py.lower_char c) || p (Py.upper_char c))).

Definition cls_ok (p : cclass) (c : ascii) : bool :=
  match p with
  | OneOf q => in_set q c
  | NoneOf q => negb (in_set q c)
  end.

(** The rest of [s] after the literal [l], when [s] starts with it. *)
Fixpoint lit_rest (l s : string) : option string :=
  match l, s with
  | EmptyString, _ => Some s
  | String a l', String b s' => if char_eq a b then lit_rest l' s' else None
  | String _ _, EmptyString => None
  end.

Section Run.

Variable A : Type.

Definition cont := string -> caps -> option A.

Definition or_else (x : option A) (y : option A) : option A :=
  match x with Some _ => x | None => y end.

Fixpoint rep_greedy (p : cclass) (lo : nat) (s : string) (c : caps) (k : cont)
  : option A :=
  match s with
  | String a s' =>
      if cls_ok p a then
        or_else (rep_greedy p (pred lo) s' c k)
                (if Nat.eqb lo 0 then k s c else None)
      else if Nat.eqb lo 0 then k s c else None
  | EmptyString => if Nat.eqb lo 0 then k s c else None
  end.

Fixpoint rep_lazy (p : cclass) (lo : nat) (s : string) (c : caps) (k : cont)
  : option A :=
  or_else (if Nat.eqb lo 0 then k s c else None)
          match s with
          | String a s' => if cls_ok p a then rep_lazy p (pred lo) s' c k else None
          | EmptyString => None
          end.

Fixpoint run (r : regex) (s : string) (c : caps) (k : cont) : option A :=
  match r with
  | Lit l => match lit_rest l s with Some s' => k s' c | None => None end
  | Cls p =>
      match s with
      | String a s' => if cls_ok p a then k s' c else None
      | EmptyString => None
      end
  | Rep g lo p => if g then rep_greedy p lo s c k else rep_lazy p lo s c k
  | Opt r1 => or_else (run r1 s c k) (k s c)
  | Alt r1 r2 => or_else (run r1 s c k) (run r2 s c k)
  | Cat r1 r2 => run r1 s c (fun s1 c1 => run r2 s1 c1 k)
  | Grp n r1 => run r1 s c (fun s1 c1 => k s1 ((n, consumed s s1) :: c1))
  end.

End Run.

(** A match object: the groups and the text after the match. *)
Record match_obj : Type := { groups : caps; after : string }.

Definition match_at (r : regex) (s : string) : option match_obj :=
  run r s [] (fun s' c => Some {| groups := c; after := s' |}).

(** [re.match(r, s)] *)
Definition re_match (r : regex) (s : string) : option caps :=
  option_map groups (match_at r s).

(** [re.search(r, s)]: the match at the leftmost position that has one. *)
Fixpoint search_obj (r : regex) (s : string) : option match_obj :=
  match match_at r s with
  | Some x => Some x
  | None =>
      match s with
      | String _ s' => search_obj r s'
      | EmptyString => None
      end
  end.

Definition search (r : regex) (s : string) : option caps :=
  option_map groups (search_obj r s).

(** [re.finditer(r, s)]: successive non-overlapping matches, left to right.
    [skip] counts the characters still covered by the last match. *)
Fixpoint finditer_from (r : regex) (skip : nat) (s : string) : list caps :=
  match skip with
  | S skip' =>
      match s with
      | String _ s' => finditer_from r skip' s'
      | EmptyString => []
      end
  | O =>
      match match_at r s with
      | Some x =>
          groups x ::
          match s with
          | String _ s' =>
              finditer_from r (pred (String.length s - String.length (after x))) s'
          | EmptyString => []
          end
      | None =>
          match s with
          | String _ s' => finditer_from r 0 s'
          | EmptyString => []
          end
      end
  end.

Definition finditer (r : regex) (s : string) : list caps := finditer_from r 0 s.

End Matcher.

(** Character classes of the source patterns. *)
Definition digit : cclass := OneOf Py.is_digit.      (* \d *)
Definition space : cclass := OneOf Py.is_space.      (* \s *)
Definition word : cclass := OneOf Py.is_word.        (* \w *)
Definition upper_AZ : cclass := OneOf Py.is_upper.   (* [A-Z] *)
Definition dot : cclass :=                           (* . *)
  NoneOf (fun c => Nat.eqb (Py.code c) 10).
Definition none_of (cs : string) : cclass :=         (* [^...] *)
  NoneOf (fun c => Py.contains (String c EmptyString) cs).
Definition digit_or_dot : cclass :=                  (* [\d.] *)
  OneOf (fun c => Py.is_digit c || Nat.eqb (Py.code c) 46).

(** Concatenation of a list of items. *)
Fixpoint seq (rs : list regex) : regex :=
  match rs with
  | [] => Lit EmptyString
  | [r] => r
  | r :: rs' => Cat r (seq rs')
  end.

Definition star (p : cclass) : regex := Rep true 0 p.
Definition plus (p : cclass) : regex := Rep true 1 p.
Definition star_lazy (p : cclass) : regex := Rep false 0 p.

End Re.

(** ** Python dictionaries

    Keys are strings.  Iteration follows insertion order, and assigning to a
    key that is present keeps its place. *)

Module Dict.

Definition dict (V : Type) : Type := list (string * V).

Fixpoint get {V : Type} (d : dict V) (k : string) : option V :=
  match d with
  | [] => None
  | (k', v) :: d' => if String.eqb k' k then Some v else get d' k
  end.

(** [d[k] = v] *)
Fixpoint set {V : Type} (d : dict V) (k : string) (v : V) : dict V :=
  match d with
  | [] => [(k, v)]
  | (k', v') :: d' =>
      if String.eqb k' k then (k', v) :: d' else (k', v') :: set d' k v
  end.

(** [list(d.keys())] *)
Definition keys {V : Type} (d : dict V) : list string := map fst d.

(** [k in d] *)
Definition mem {V : Type} (k : string) (d : dict V) : bool :=
  match get d k with Some _ => true | None => false end.

(** [d.get(k, default)] *)
Definition get_default {V : Type} (d : dict V) (k : string) (default : V) : V :=
  match get d k with Some v => v | None => default end.

End Dict.

Import Re.

(** [x in [a, b, ...]] for strings *)
Definition in_list (x : string) (xs : list string) : bool :=
  existsb (String.eqb x) xs.

(** ** The surface and position classifier *)

(** The word plane followed by digits (line 120). *)
Definition plane_number_re : regex := seq [Lit "plane"; Grp 1 (plus digit)].

(** Lines 94-117: the branch on the datum letter and, when no letter is
    given, the two [elif]s on ["plane1"] and ["plane2"].  [None] means that
    no [return] was reached. *)
Definition datum_letter_tier (fname : string) (datum_letter : option string)
  : option string :=
  if Py.truthy_opt datum_letter then
    let datum_upper := Py.upper (Py.str_opt datum_letter) in
    if String.eqb datum_upper "A" then
      if Py.any_in ["top"; "upper"] fname then Some "top face"
      else Some "bottom face"
    else if in_list datum_upper ["B"; "C"] then Some "cylindrical side"
    else if String.eqb datum_upper "D" then Some "top face"
    else if in_list datum_upper ["E"; "F"; "G"; "H"] then
      Some (if in_list datum_upper ["E"; "G"] then "top face" else "bottom face")
    else None
  else if Py.contains "plane1" fname then Some "bottom face"
  else if Py.contains "plane2" fname then Some "top face"
  else None.

(** Lines 119-126: the first number that follows ["plane"]. *)
Definition plane_number_tier (fname : string) : result (option string) :=
  match finditer false plane_number_re fname with
  | m :: _ =>
      plane_num <- Py.int (group_str m 1) ;;
      if Z.eqb plane_num 1 then Ok (Some "bottom face")
      else if Z.leb 2 plane_num then Ok (Some "top face")
      else Ok None
  | [] => Ok None
  end.

(** Lines 128-139: the axis keywords of a plane, else the name itself. *)
Definition plane_keyword_tier (feature_name : option string) (fname : string)
  : string :=
  if Py.contains "plane" fname then
    if Py.any_in ["+z"; "positive"; "high"] fname then "top face"
    else if Py.any_in ["-z"; "negative"; "low"] fname then "bottom face"
    else "planar surface"
  else Py.str_opt feature_name.

(** [GDTExtractor.determine_plane_position(feature_name, datum_letter=None)];
    the third parameter of the source, [plane_data], is never read. *)
Definition determine_plane_position (feature_name datum_letter : option string)
  : result string :=
  if negb (Py.truthy_opt feature_name) then Ok "surface"
  else
    let fname := Py.lower (Py.str_opt feature_name) in
    if Py.any_in ["top"; "upper"; "above"] fname then Ok "top face"
    else if Py.any_in ["bottom"; "lower"; "below"; "base"] fname then
      Ok "bottom face"
    else
      match datum_letter_tier fname datum_letter with
      | Some loc => Ok loc
      | None =>
          by_number <- plane_number_tier fname ;;
          match by_number with
          | Some loc => Ok loc
          | None => Ok (plane_keyword_tier feature_name fname)
          end
      end.

(** ** Patterns of [extract_tolerance_data] *)

Definition entity_ref : regex := seq [Lit "#"; plus digit].

(** The entity identifier at the head of a line (line 564). *)
Definition entity_id_re : regex := seq [Grp 1 entity_ref; star space; Lit "="].

(** [tol_pattern] (lines 569-572), compiled with [re.IGNORECASE]. *)
Definition tol_pattern : regex :=
  seq [Grp 1 entity_ref; star space; Lit "="; star space;
       Grp 2 (Alt (Lit "CYLINDRICITY")
             (Alt (Lit "FLATNESS") (Alt (Lit "STRAIGHTNESS") (Lit "ROUNDNESS"))));
       Lit "_TOLERANCE("; star space; Lit "'"; Grp 3 (star (none_of "'"));
       Lit "'"; star space; Lit ","; star space; Lit "''"; star space;
       Lit ","; star space; Grp 4 entity_ref].

(** The DATUM line of lines 595-596, case-sensitive: groups are the entity
    number, the quoted name and the quoted letter. *)
Definition datum_line_re : regex :=
  seq [Lit "#"; Grp 1 (plus digit); Lit "=DATUM('"; Grp 2 (star (none_of "'"));
       Lit "',$,#"; plus digit; Lit ",.F.,'"; Grp 3 (Cls upper_AZ); Lit "');"].

(** The token after the at-sign, up to the next opening parenthesis
    (line 604). *)
Definition at_feature_re : regex := seq [Lit "@"; Grp 1 (plus (none_of "("))].

(** [shape_aspect_pattern] (lines 579-581), case-sensitive. *)
Definition shape_aspect_pattern : regex :=
  seq [Lit "#"; plus digit; star space; Lit "="; star space;
       Lit "SHAPE_ASPECT('"; Grp 1 (star_lazy (none_of "'")); Lit "(";
       Opt (Grp 2 (Cls word)); Opt (Lit "'"); Lit ","; star_lazy dot;
       Lit "#"; Grp 3 (plus digit); Lit ")"].

(** The number after LENGTH_MEASURE or VALUE_REPRESENTATION_ITEM
    (lines 647-650). *)
Definition value_re : regex :=
  seq [Alt (Lit "LENGTH_MEASURE") (Lit "VALUE_REPRESENTATION_ITEM");
       star space; Lit "("; star space; Grp 1 (plus digit_or_dot)].

(** An upper-case letter between parentheses (line 660). *)
Definition paren_letter_re : regex := seq [Lit "("; Grp 1 (Cls upper_AZ); Lit ")"].

(** A number sign and digits (line 677). *)
Definition hash_number_re : regex := seq [Lit "#"; Grp 1 (plus digit)].

(** The letter at the end of the quoted name of a DATUM_FEATURE
    (line 685). *)
Definition datum_feature_re : regex :=
  seq [Lit "DATUM_FEATURE("; star (none_of "'"); Lit "'"; star (none_of "'");
       Lit "("; Grp 1 (Cls upper_AZ); Lit ")'"].

(** ** The entity index (lines 561-566) *)

Definition index_line (line : string) (line_dict : Dict.dict string)
  : Dict.dict string :=
  match re_match false entity_id_re line with
  | Some m => Dict.set line_dict (group_str m 1) (Py.strip line)
  | None => line_dict
  end.

Definition build_line_dict (lines : list string) : Dict.dict string :=
  fold_left (fun d line => index_line line d) lines [].

(** ** The datum scan (lines 593-619) *)

(** Lines 607-616: the location of the token that follows ["@"], already
    lower-cased. *)
Definition geometric_feature_location (geometric_feature datum_letter : string)
  : result string :=
  if Py.contains "boss" geometric_feature then Ok "cylindrical side"
  else if Py.contains "plane1" geometric_feature then Ok "bottom face"
  else if Py.contains "plane2" geometric_feature then Ok "top face"
  else if Py.contains "plane" geometric_feature then
    determine_plane_position (Some geometric_feature) (Some datum_letter)
  else Ok geometric_feature.

(** Lines 604-619. *)
Definition datum_location (feature_name datum_letter : string) : result string :=
  match search false at_feature_re feature_name with
  | Some feature_match =>
      geometric_feature_location (Py.lower (group_str feature_match 1)) datum_letter
  | None => determine_plane_position (Some feature_name) (Some datum_letter)
  end.

(** The two maps that the datum scan fills: [datum_results] (letter to
    location) and [datum_letter_to_feature] (letter to raw name).  The third
    map of the source, [datum_id_to_letter], is written and never read. *)
Record datum_maps : Type :=
  { datum_results : Dict.dict string;
    datum_letter_to_feature : Dict.dict string }.

(** One turn of the loop of lines 593-619. *)
Definition scan_datum_line (line : string) (maps : datum_maps) : result datum_maps :=
  match re_match false datum_line_re line with
  | Some datum_match =>
      let feature_name := group_str datum_match 2 in
      let datum_letter := group_str datum_match 3 in
      location <- datum_location feature_name datum_letter ;;
      Ok {| datum_results := Dict.set (datum_results maps) datum_letter location;
            datum_letter_to_feature :=
              Dict.set (datum_letter_to_feature maps) datum_letter feature_name |}
  | None => Ok maps
  end.

Definition scan_datums (lines : list string) : result datum_maps :=
  for_each scan_datum_line lines
           {| datum_results := []; datum_letter_to_feature := [] |}.

(** ** The shape-aspect scan (lines 622-642) *)

Definition shape_location (shape_name : string) : string :=
  if Py.contains "plane1" shape_name then "Plane1"
  else if Py.contains "plane2" shape_name then "Plane2"
  else if Py.contains "boss1" shape_name then "Boss1"
  else if Py.contains "torus" shape_name then "torus side"
  else if Py.contains "top" shape_name then "top face"
  else if Py.contains "bottom" shape_name then "bottom face"
  else if Py.contains "cylindrical" shape_name || Py.contains "side" shape_name
  then "cylindrical side"
  else "".

(** One turn of the loop; the map [face_to_plane] of the source is written
    and never read. *)
Definition scan_shape_aspect (datum_results : Dict.dict string) (m : caps)
  : Dict.dict string :=
  let location := shape_location (Py.lower (group_str m 1)) in
  if Py.truthy_opt (group m 2)
  then Dict.set datum_results (group_str m 2) location
  else datum_results.

Definition scan_shape_aspects (text : string) (datum_results : Dict.dict string)
  : Dict.dict string :=
  fold_left scan_shape_aspect (finditer false shape_aspect_pattern text)
            datum_results.

(** ** The geometric tolerance extractor (lines 645-767) *)

(** An entry of [tol_results]: the 7-tuple of line 767. *)
Record tol_result : Type :=
  { tr_label : string;
    tr_value : string;
    tr_datum : string;
    tr_location : string;
    tr_tolerance_value : string;
    tr_upper_limit : string;
    tr_lower_limit : string }.

(** The first element on which [f] answers. *)
Fixpoint first_some {A B : Type} (f : A -> option B) (xs : list A) : option B :=
  match xs with
  | [] => None
  | x :: xs' => match f x with Some b => Some b | None => first_some f xs' end
  end.

(** The local variables [datum_letter] and [location] of the loop body. *)
Definition resolution : Type := (string * string)%type.

(** Method 1 (lines 658-663). *)
Definition method1 (datum_results : Dict.dict string) (tol_name : string)
  : resolution :=
  match search false paren_letter_re tol_name with
  | Some datum_match =>
      let datum_letter := group_str datum_match 1 in
      (datum_letter, Dict.get_default datum_results datum_letter "")
  | None => ("", "")
  end.

(** Method 2 (lines 665-671). *)
Definition method2 (datum_results : Dict.dict string) (tol_name : string)
           (r : resolution) : resolution :=
  if negb (Py.truthy (fst r)) then
    match
      find (fun kv =>
              Py.contains ("(" ++ Py.lower (fst kv) ++ ")") (Py.lower tol_name)
              || Py.contains ("(" ++ Py.upper (fst kv) ++ ")") tol_name)
           datum_results
    with
    | Some (d_letter, d_location) => (d_letter, d_location)
    | None => r
    end
  else r.

(** Lines 682-689: the first DATUM_FEATURE line that mentions the entity
    and carries a letter. *)
Definition datum_feature_letter (lines : list string) (entity : string)
  : option string :=
  first_some
    (fun line =>
       if Py.contains "DATUM_FEATURE" line && Py.contains ("#" ++ entity) line
       then option_map (fun df_match => group_str df_match 1)
                       (search false datum_feature_re line)
       else None)
    lines.

(** Method 3 (lines 673-691). *)
Definition method3 (datum_results line_dict : Dict.dict string)
           (lines : list string) (tol_id : string) (r : resolution) : resolution :=
  if negb (Py.truthy (fst r)) then
    let tol_line := Dict.get_default line_dict tol_id "" in
    let entity_refs :=
      map (fun m => group_str m 1) (finditer false hash_number_re tol_line) in
    match first_some (datum_feature_letter lines) entity_refs with
    | Some datum_letter =>
        (datum_letter, Dict.get_default datum_results datum_letter "")
    | None => r
    end
  else r.

(** The loops of lines 699-702, 706-709 and 713-716: the first datum whose
    raw feature name contains [key], unless a letter is already set. *)
Definition datum_of_feature (datum_letter_to_feature : Dict.dict string)
           (key : string) (datum_letter : string) : string :=
  if Py.truthy datum_letter then datum_letter
  else
    match find (fun kv => Py.contains key (Py.lower (snd kv)))
               datum_letter_to_feature with
    | Some (d_letter, _) => d_letter
    | None => datum_letter
    end.

(** Method 4 (lines 693-718). *)
Definition method4 (datum_letter_to_feature : Dict.dict string)
           (tol_name : string) (r : resolution) : resolution :=
  let tol_name_lower := Py.lower tol_name in
  if negb (Py.truthy (snd r)) then
    if Py.contains "boss" tol_name_lower then
      (datum_of_feature datum_letter_to_feature "boss" (fst r), "cylindrical side")
    else if Py.contains "plane1" tol_name_lower then
      (datum_of_feature datum_letter_to_feature "plane1" (fst r), "bottom face")
    else if Py.contains "plane2" tol_name_lower then
      (datum_of_feature datum_letter_to_feature "plane2" (fst r), "top face")
    else if Py.contains "plane" tol_name_lower then (fst r, "planar surface")
    else r
  else r.

Definition planar_locations : list string :=
  ["bottom face"; "top face"; "planar surface"].

(** Method 5 (lines 720-729). *)
Definition method5 (datum_results : Dict.dict string) (r : resolution)
  : resolution :=
  let location := snd r in
  if negb (Py.truthy (fst r)) && Py.truthy location then
    match
      find (fun kv =>
              (String.eqb location "cylindrical side"
               && String.eqb (snd kv) "cylindrical side")
              || (in_list location planar_locations
                  && in_list (snd kv) planar_locations))
           datum_results
    with
    | Some (d_letter, _) => (d_letter, location)
    | None => r
    end
  else r.

(** Lines 751-760: the choice of a datum for a straightness tolerance.
    [current_count] is [len(tol_results)]. *)
Definition straightness_datum (datum_results : Dict.dict string)
           (current_count : nat) (r : resolution) : resolution :=
  let available_datums := Dict.keys datum_results in
  match available_datums with
  | [] => r
  | first :: _ =>
      let datum_letter :=
        if Nat.ltb current_count (length available_datums)
        then nth (Nat.modulo current_count (length available_datums))
                 available_datums ""
        else first in
      (datum_letter, Dict.get_default datum_results datum_letter "")
  end.

(** Method 6 (lines 731-760). *)
Definition method6 (datum_results : Dict.dict string) (label : string)
           (current_count : nat) (r : resolution) : resolution :=
  if negb (Py.truthy (snd r)) then
    if in_list (Py.lower label) ["cylindricity"; "circularity"] then
      match find (fun kv => String.eqb (snd kv) "cylindrical side") datum_results with
      | Some (d_letter, _) => (d_letter, "cylindrical side")
      | None => (fst r, "cylindrical side")
      end
    else if in_list (Py.lower label) ["flatness"] then
      match find (fun kv => Py.contains "face" (snd kv)) datum_results with
      | Some (d_letter, d_location) => (d_letter, d_location)
      | None => (fst r, "planar surface")
      end
    else if in_list (Py.lower label) ["straightness"] then
      straightness_datum datum_results current_count r
    else r
  else r.

(** The six methods in order. *)
Definition resolve_datum (maps : datum_maps) (line_dict : Dict.dict string)
           (lines : list string) (tol_id tol_name label : string)
           (current_count : nat) : resolution :=
  let dr := datum_results maps in
  method6 dr label current_count
    (method5 dr
       (method4 (datum_letter_to_feature maps) tol_name
          (method3 dr line_dict lines tol_id
             (method2 dr tol_name (method1 dr tol_name))))).

(** The body of the loop of line 645 for one match of [tol_pattern]. *)
Definition extract_tolerance (maps : datum_maps) (line_dict : Dict.dict string)
           (lines : list string) (tol_results : list tol_result) (m : caps)
  : list tol_result :=
  let tol_id := group_str m 1 in
  let tol_type := group_str m 2 in
  let tol_name := group_str m 3 in
  let ref_id := group_str m 4 in
  let definition := Dict.get_default line_dict ref_id "" in
  let value :=
    match search false value_re definition with
    | Some value_match => group_str value_match 1
    | None => "N/A"
    end in
  let label :=
    if String.eqb (Py.upper tol_type) "ROUNDNESS" then "Circularity"
    else Py.capitalize tol_type in
  let r := resolve_datum maps line_dict lines tol_id tol_name label
                         (length tol_results) in
  tol_results ++
    [{| tr_label := label; tr_value := value; tr_datum := fst r;
        tr_location := snd r; tr_tolerance_value := "";
        tr_upper_limit := ""; tr_lower_limit := "" |}]%list.

Definition extract_tolerances (text : string) (maps : datum_maps)
           (line_dict : Dict.dict string) (lines : list string)
  : list tol_result :=
  fold_left (extract_tolerance maps line_dict lines)
            (finditer true tol_pattern text) [].

(** ** Python floats

    A [float] is an IEEE 754 binary64 number: [spec_float] with 53 bits of
    precision and exponents up to 1024.  Conversions from and to decimal
    text are exact and round to nearest, ties to even, as CPython's are. *)

Module F64.

Definition float : Type := spec_float.

Definition prec : Z := 53.
Definition emax : Z := 1024.

Definition add : float -> float -> float := SFadd prec emax.
Definition sub : float -> float -> float := SFsub prec emax.
Definition div : float -> float -> float := SFdiv prec emax.

(** [abs(x)] *)
Definition abs : float -> float := SFabs.

Definition two : float := S754_finite false 1 1.
Definition zero : float := S754_zero false.

(** Truth value: every float but the two zeros. *)
Definition truthy (x : float) : bool :=
  match x with S754_zero _ => false | _ => true end.

(** The float nearest to [(-1)^sign * m * 10^e10]. *)
Definition of_decimal (sign : bool) (m : Z) (e10 : Z) : float :=
  match m with
  | Zpos p =>
      if Z.leb 0 e10 then
        match Z.mul m (Z.pow 10 e10) with
        | Zpos q => binary_round prec emax sign q 0
        | _ => S754_zero sign
        end
      else
        let '(mz, ez, lz) :=
          SFdiv_core_binary prec emax m 0 (Z.pow 10 (Z.opp e10)) 0 in
        binary_round_aux prec emax sign mz ez lz
  | _ => S754_zero sign
  end.

(** A maximal run [digit (["_"] digit)*] at the head of [s]: its digits
    and the rest of [s]. *)
Fixpoint read_digits (after_digit : bool) (s : string) : string * string :=
  match s with
  | String c s' =>
      if Py.is_digit c then
        let (ds, rest) := read_digits true s' in (String c ds, rest)
      else if after_digit && Nat.eqb (Py.code c) 95 then
        match s' with
        | String d _ =>
            if Py.is_digit d then read_digits false s' else (EmptyString, s)
        | EmptyString => (EmptyString, s)
        end
      else (EmptyString, s)
  | EmptyString => (EmptyString, EmptyString)
  end.

Definition read_sign (s : string) : bool * string :=
  match s with
  | String c s' =>
      if Nat.eqb (Py.code c) 45 then (true, s')
      else if Nat.eqb (Py.code c) 43 then (false, s')
      else (false, s)
  | EmptyString => (false, s)
  end.

(** The exponent part: [None] when the text is not an exponent. *)
Definition read_exponent (s : string) : option Z :=
  match s with
  | EmptyString => Some 0%Z
  | String c s' =>
      if Nat.eqb (Py.code (Py.lower_char c)) 101 then
        let (neg, s1) := read_sign s' in
        match read_digits false s1 with
        | (String d ds, EmptyString) =>
            let e := Py.digits_value (String d ds) 0 in
            Some (if neg then Z.opp e else e)
        | _ => None
        end
      else None
  end.

(** The white space that [float] skips at both ends of an ASCII text: tab,
    LF, VT, FF, CR and the space.  The separators FS, GS, RS and US, which
    [str.strip] removes, are not skipped. *)
Definition is_blank (c : ascii) : bool :=
  Py.in_range 9 13 c || Nat.eqb (Py.code c) 32.

Fixpoint skip_blanks (s : string) : string :=
  match s with
  | String c s' => if is_blank c then skip_blanks s' else s
  | EmptyString => EmptyString
  end.

Fixpoint drop_blanks (s : string) : string :=
  match s with
  | EmptyString => EmptyString
  | String c s' =>
      match drop_blanks s' with
      | EmptyString => if is_blank c then EmptyString else String c EmptyString
      | t => String c t
      end
  end.

Definition trim (s : string) : string := drop_blanks (skip_blanks s).

(** [float(s)] for a string [s]. *)
Definition of_string (s : string) : result float :=
  let (neg, body) := read_sign (trim s) in
  let word := Py.lower body in
  if String.eqb word "inf" || String.eqb word "infinity" then
    Ok (S754_infinity neg)
  else if String.eqb word "nan" then Ok S754_nan
  else
    let (int_part, s1) := read_digits false body in
    let (frac_part, s2) :=
      match s1 with
      | String c s1' =>
          if Nat.eqb (Py.code c) 46 then read_digits false s1'
          else (EmptyString, s1)
      | EmptyString => (EmptyString, s1)
      end in
    if Py.truthy (int_part ++ frac_part) then
      match read_exponent s2 with
      | Some e =>
          Ok (of_decimal neg (Py.digits_value (int_part ++ frac_part) 0)
                         (e - Z.of_nat (String.length frac_part)))
      | None => Raise ValueError
      end
    else Raise ValueError.

(** Decimal digits of a natural number. *)
Definition digits_of (n : Z) : string :=
  NilZero.string_of_uint (N.to_uint (Z.to_N n)).

Fixpoint zeros (n : nat) : string :=
  match n with O => EmptyString | S n' => String "0" (zeros n') end.

(** [digits_of n], padded with zeros on the left to [width] characters. *)
Definition pad_left (width : nat) (n : Z) : string :=
  let ds := digits_of n in zeros (width - String.length ds) ++ ds.

(** [num / den] rounded to the nearest integer, ties to even. *)
Definition div_nearest_even (num den : Z) : Z :=
  let q := Z.div num den in
  let r := Z.modulo num den in
  match Z.compare (2 * r) den with
  | Lt => q
  | Gt => q + 1
  | Eq => if Z.even q then q else q + 1
  end.

Definition sign_text (s : bool) : string := if s then "-" else "".

(** The value of a finite float as a fraction [num / den]. *)
Definition fraction (m : positive) (e : Z) : Z * Z :=
  if Z.leb 0 e then (Zpos m * Z.pow 2 e, 1)%Z else (Zpos m, Z.pow 2 (Z.opp e)).

(** [format(x, ".3f")] *)
Definition format_3f (x : float) : string :=
  match x with
  | S754_nan => "nan"
  | S754_infinity s => sign_text s ++ "inf"
  | S754_zero s => sign_text s ++ "0.000"
  | S754_finite s m e =>
      let (num, den) := fraction m e in
      let n := div_nearest_even (1000 * num) den in
      sign_text s ++ digits_of (Z.div n 1000) ++ "." ++ pad_left 3 (Z.modulo n 1000)
  end.

(** [10^t <= num / den] *)
Definition pow10_le (t num den : Z) : bool :=
  if Z.leb 0 t then Z.leb (Z.pow 10 t * den) num
  else Z.leb den (num * Z.pow 10 (Z.opp t)).

Fixpoint raise_exponent (fuel : nat) (t num den : Z) : Z :=
  match fuel with
  | O => t
  | S fuel' =>
      if pow10_le (t + 1) num den then raise_exponent fuel' (t + 1) num den else t
  end.

(** The integer [t] with [10^t <= num / den < 10^(t+1)]; the first guess,
    from the binary logarithms, is at most three too small. *)
Definition decimal_exponent (num den : Z) : Z :=
  raise_exponent 6 (Z.div ((Z.log2 num - Z.log2 den) * 30103) 100000 - 2) num den.

Fixpoint strip_zeros (s : string) : string :=
  match s with
  | EmptyString => EmptyString
  | String c s' =>
      match strip_zeros s' with
      | EmptyString => if Ascii.eqb c "0" then EmptyString else String c EmptyString
      | t => String c t
      end
  end.

(** The shortest decimal [digits * 10^(decpt - length digits)] that
    converts back to [x = m * 2^e], tried with 1, 2, ... significant digits;
    of two candidates of one length the nearer to [x] is taken. *)
Fixpoint shortest_digits (fuel : nat) (p : Z) (m : positive) (e : Z) (t : Z)
  : string * Z :=
  let (num, den) := fraction m e in
  let k := (t - (p - 1))%Z in
  let n := if Z.leb 0 k then num else (num * Z.pow 10 (Z.opp k))%Z in
  let d := if Z.leb 0 k then (den * Z.pow 10 k)%Z else den in
  let low := Z.div n d in
  let back c := SFeqb (of_decimal false c k) (S754_finite false m e) in
  let answer c := (strip_zeros (digits_of c),
                   (Z.of_nat (String.length (digits_of c)) + k)%Z) in
  let low_nearer :=
    match Z.compare (n - low * d) ((low + 1) * d - n) with
    | Lt => true
    | Gt => false
    | Eq => Z.even low
    end in
  match fuel with
  | O => answer low
  | S fuel' =>
      match back low, back (low + 1)%Z with
      | true, true => answer (if low_nearer then low else (low + 1)%Z)
      | true, false => answer low
      | false, true => answer (low + 1)%Z
      | false, false => shortest_digits fuel' (p + 1) m e t
      end
  end.

Fixpoint drop (n : nat) (s : string) : string :=
  match n, s with
  | S n', String _ s' => drop n' s'
  | _, _ => s
  end.

(** [repr(x)], which is also [str(x)]. *)
Definition repr (x : float) : string :=
  match x with
  | S754_nan => "nan"
  | S754_infinity s => sign_text s ++ "inf"
  | S754_zero s => sign_text s ++ "0.0"
  | S754_finite s m e =>
      let (num, den) := fraction m e in
      let (ds, decpt) := shortest_digits 17 1 m e (decimal_exponent num den) in
      let len := Z.of_nat (String.length ds) in
      sign_text s ++
      if Z.leb decpt (-4) || Z.ltb 16 decpt then
        let x10 := (decpt - 1)%Z in
        Re.take 1 ds ++ (if Z.ltb 1 len then "." ++ drop 1 ds else "") ++ "e"
        ++ (if Z.ltb x10 0 then "-" else "+") ++ pad_left 2 (Z.abs x10)
      else if Z.leb decpt 0 then
        "0." ++ zeros (Z.to_nat (Z.opp decpt)) ++ ds
      else if Z.leb len decpt then
        ds ++ zeros (Z.to_nat (decpt - len)) ++ ".0"
      else Re.take (Z.to_nat decpt) ds ++ "." ++ drop (Z.to_nat decpt) ds
  end.

End F64.

(** ** The symbol table (lines 23-31)

    The glyphs are the literals of the source file, byte for byte. *)

Definition gdnt_symbols : Dict.dict string :=
  [("Straightness", "‚îÄ");
   ("Flatness", "‚òê");
   ("Circularity", "‚óã");
   ("Cylindricity", "‚åÄ");
   ("Diameter", "‚åÄ");
   ("Length", "‚Üî");
   ("Linear Distance", "‚Üî")].

(** ** Datum matching for dimensional tolerances (lines 210-294) *)

(** The pattern of line 219: datum, digits, an at-sign, text without an
    opening parenthesis, then an upper-case letter between parentheses. *)
Definition datum_at_letter_re : regex :=
  seq [Lit "datum"; plus digit; Lit "@"; star (none_of "(");
       Lit "("; Grp 1 (Cls upper_AZ); Lit ")"].

Fixpoint insert_sorted (x : string) (xs : list string) : list string :=
  match xs with
  | [] => [x]
  | y :: ys => if String.leb x y then x :: xs else y :: insert_sorted x ys
  end.

(** [sorted(xs)] *)
Definition sorted (xs : list string) : list string :=
  fold_right insert_sorted [] xs.

(** [xs[i]]: a negative index counts from the end. *)
Definition list_index {A : Type} (xs : list A) (i : Z) : result A :=
  let j := if Z.ltb i 0 then (i + Z.of_nat (length xs))%Z else i in
  if Z.ltb j 0 then Raise IndexError
  else match nth_error xs (Z.to_nat j) with
       | Some x => Ok x
       | None => Raise IndexError
       end.

(** The first letter whose location, lower-cased, contains one of [keys]. *)
Definition first_located (datum_results : Dict.dict string) (keys : list string)
  : option string :=
  option_map fst
    (find (fun kv => Py.any_in keys (Py.lower (snd kv))) datum_results).

(** [list(datum_results.keys())[0]], asked only of a non-empty map. *)
Definition first_key (datum_results : Dict.dict string) : result string :=
  list_index (Dict.keys datum_results) 0.

(** Method 3 (lines 230-253); [None] means that no [return] was reached. *)
Definition dim_method3 (fname : string) (datum_results : Dict.dict string)
  : result (option string) :=
  if Py.contains "boss" fname || Py.contains "cylinder" fname then
    match first_located datum_results ["cylindrical"] with
    | Some datum_letter => Ok (Some datum_letter)
    | None =>
        match datum_results with
        | [] => Ok None
        | _ => k <- first_key datum_results ;; Ok (Some k)
        end
    end
  else if Py.contains "plane" fname then
    by_number <-
      match search false plane_number_re fname with
      | Some plane_num_match =>
          plane_num <- Py.int (group_str plane_num_match 1) ;;
          let datum_letters := sorted (Dict.keys datum_results) in
          if Z.leb plane_num (Z.of_nat (length datum_letters)) then
            k <- list_index datum_letters (plane_num - 1) ;; Ok (Some k)
          else Ok None
      | None => Ok None
      end ;;
    match by_number with
    | Some k => Ok (Some k)
    | None => Ok (first_located datum_results ["face"; "plane"])
    end
  else Ok None.

(** Method 4 (lines 255-267). *)
Definition dim_method4 (fname : string) (datum_letter_to_feature : Dict.dict string)
  : option string :=
  option_map fst
    (find (fun kv =>
             let datum_feature_lower := Py.lower (snd kv) in
             (Py.contains "boss" fname && Py.contains "boss" datum_feature_lower)
             || (Py.contains "plane1" fname
                 && Py.contains "plane1" datum_feature_lower)
             || (Py.contains "plane2" fname
                 && Py.contains "plane2" datum_feature_lower)
             || (Py.contains "plane" fname
                 && Py.contains "plane" datum_feature_lower))
          datum_letter_to_feature).

(** Method 5 and the last resort (lines 269-294). *)
Definition dim_method5 (fname : string) (datum_results : Dict.dict string)
  : result string :=
  match datum_results with
  | [] => Ok ""
  | _ =>
      let preferred :=
        if Py.any_in ["boss"; "cylinder"; "diameter"] fname then
          if Dict.mem "A" datum_results then Some "A"
          else first_located datum_results ["cylindrical"]
        else if Py.any_in ["plane"; "length"; "distance"] fname then
          if Dict.mem "A" datum_results then Some "A"
          else first_located datum_results ["face"; "plane"]
        else None in
      match preferred with
      | Some k => Ok k
      | None => first_key datum_results
      end
  end.

(** [GDTExtractor.find_datum_for_dimensional_tolerance] *)
Definition find_datum_for_dimensional_tolerance
           (feature_name : string) (datum_results : Dict.dict string)
           (datum_letter_to_feature : Dict.dict string) : result string :=
  if negb (Py.truthy feature_name) then Ok ""
  else
    let fname := Py.lower feature_name in
    match search false datum_at_letter_re fname with
    | Some datum_match => Ok (group_str datum_match 1)
    | None =>
        let candidate :=
          match search false paren_letter_re fname with
          | Some paren_match =>
              let candidate_datum := group_str paren_match 1 in
              if Dict.mem candidate_datum datum_results
              then Some candidate_datum else None
          | None => None
          end in
        match candidate with
        | Some candidate_datum => Ok candidate_datum
        | None =>
            by_type <- dim_method3 fname datum_results ;;
            match by_type with
            | Some k => Ok k
            | None =>
                match dim_method4 fname datum_letter_to_feature with
                | Some k => Ok k
                | None => dim_method5 fname datum_results
                end
            end
        end
    end.

(** ** The dimensional tolerance extractor (lines 296-554) *)

(** [dimensional_size_pattern] (lines 308-310), with [re.IGNORECASE]. *)
Definition dimensional_size_pattern : regex :=
  seq [Grp 1 entity_ref; star space; Lit "="; star space;
       Lit "DIMENSIONAL_SIZE"; star space; Lit "("; star space;
       Grp 2 entity_ref; star space; Lit ","; star space; Lit "'";
       Grp 3 (star (none_of "'")); Lit "'"; star space; Lit ")"].

(** [dimensional_location_pattern] (lines 313-315), with [re.IGNORECASE]. *)
Definition dimensional_location_pattern : regex :=
  seq [Grp 1 entity_ref; star space; Lit "="; star space;
       Lit "DIMENSIONAL_LOCATION"; star space; Lit "("; star space; Lit "'";
       Grp 2 (star (none_of "'")); Lit "'"; star (none_of "#"); Lit "#";
       Grp 3 (plus digit); star (none_of "#"); Lit "#"; Grp 4 (plus digit)].

(** An entity with two references as arguments: the shape of
    [plus_minus_tolerance_pattern] and [tolerance_value_pattern]
    (lines 318-325), with [re.IGNORECASE]. *)
Definition two_refs_pattern (keyword : string) : regex :=
  seq [Grp 1 entity_ref; star space; Lit "="; star space; Lit keyword;
       star space; Lit "("; star space; Grp 2 entity_ref; star space;
       Lit ","; star space; Grp 3 entity_ref; star space; Lit ")"].

Definition plus_minus_tolerance_pattern : regex :=
  two_refs_pattern "PLUS_MINUS_TOLERANCE".

Definition tolerance_value_pattern : regex :=
  two_refs_pattern "TOLERANCE_VALUE".

(** [length_measure_pattern] (lines 328-330), with [re.IGNORECASE]. *)
Definition length_measure_pattern : regex :=
  seq [Grp 1 entity_ref; star space; Lit "="; star_lazy dot;
       Lit "LENGTH_MEASURE("; Grp 2 (plus (none_of ")")); Lit ")"].

(** [nominal_value_pattern] (lines 333-335), with [re.IGNORECASE]. *)
Definition nominal_value_pattern : regex :=
  seq [Lit "POSITIVE_LENGTH_MEASURE("; Grp 1 (plus (none_of ")")); Lit ")"].

(** The quoted name of a SHAPE_ASPECT (lines 392, 466, 467). *)
Definition shape_aspect_name_re : regex :=
  seq [Lit "SHAPE_ASPECT"; star space; Lit "("; star space; Lit "'";
       Grp 1 (star (none_of "'")); Lit "'"].

(** A reference that closes a parenthesis (lines 400, 481). *)
Definition closing_ref_re : regex := seq [Lit "#"; Grp 1 (plus digit); Lit ")"].

(** A reference alone between parentheses (lines 404, 484). *)
Definition lone_ref_re : regex :=
  seq [Lit "(#"; Grp 1 (plus digit); Lit ")"].

(** A row of the result table: the 8-tuple of the source. *)
Record row : Type :=
  { col_type : string;
    col_value : string;
    col_datum : string;
    col_location : string;
    col_surface : string;
    col_tolerance : string;
    col_upper_limit : string;
    col_lower_limit : string }.

(** An entry of [tolerance_values]. *)
Record tol_data : Type :=
  { td_lower : F64.float; td_upper : F64.float; td_range : F64.float }.

(** Lines 345-350; a text that is not a number is skipped. *)
Definition add_length_measure (length_measures : Dict.dict F64.float) (m : caps)
  : Dict.dict F64.float :=
  match F64.of_string (group_str m 2) with
  | Ok x => Dict.set length_measures (group_str m 1) x
  | Raise _ => length_measures
  end.

(** Lines 353-361. *)
Definition add_nominal_value (nominal_values : Dict.dict F64.float) (line : string)
  : Dict.dict F64.float :=
  match search true nominal_value_pattern line with
  | Some nominal_match =>
      match re_match false entity_id_re line with
      | Some entity_match =>
          match F64.of_string (group_str nominal_match 1) with
          | Ok x => Dict.set nominal_values (group_str entity_match 1) x
          | Raise _ => nominal_values
          end
      | None => nominal_values
      end
  | None => nominal_values
  end.

(** Lines 364-372.  The default of [length_measures.get] is the integer 0,
    which the arithmetic that follows treats as the float 0.0. *)
Definition add_tolerance_value (length_measures : Dict.dict F64.float)
           (tolerance_values : Dict.dict tol_data) (m : caps)
  : Dict.dict tol_data :=
  let lower_value := Dict.get_default length_measures (group_str m 2) F64.zero in
  let upper_value := Dict.get_default length_measures (group_str m 3) F64.zero in
  Dict.set tolerance_values (group_str m 1)
           {| td_lower := lower_value; td_upper := upper_value;
              td_range := F64.abs (F64.sub upper_value lower_value) |}.

(** Lines 375-380: the dimension is the key, the entry holds
    ['tolerance_id'] and ['pm_tolerance_id']. *)
Definition add_plus_minus (dimension_to_tolerance : Dict.dict (string * string))
           (m : caps) : Dict.dict (string * string) :=
  Dict.set dimension_to_tolerance (group_str m 3) (group_str m 2, group_str m 1).

(** The tables built by lines 338-380. *)
Record link_tables : Type :=
  { nominal_values : Dict.dict F64.float;
    tolerance_values : Dict.dict tol_data;
    dimension_to_tolerance : Dict.dict (string * string) }.

Definition build_link_tables (text : string) : link_tables :=
  let length_measures :=
    fold_left add_length_measure (finditer true length_measure_pattern text) [] in
  {| nominal_values := fold_left add_nominal_value (Py.splitlines text) [];
     tolerance_values :=
       fold_left (add_tolerance_value length_measures)
                 (finditer true tolerance_value_pattern text) [];
     dimension_to_tolerance :=
       fold_left add_plus_minus
                 (finditer true plus_minus_tolerance_pattern text) [] |}.

(** The name in the SHAPE_ASPECT line of an entity, [""] without one. *)
Definition shape_aspect_name (line_dict : Dict.dict string) (ref : string)
  : string :=
  match search false shape_aspect_name_re (Dict.get_default line_dict ref "") with
  | Some shape_aspect_match => group_str shape_aspect_match 1
  | None => ""
  end.

(** One turn of the loops of lines 397-407 and 479-487.  The value is
    [None] for the empty string of the source and [Some x] for a float. *)
Definition nominal_step (dim_id : string) (line_dict : Dict.dict string)
           (nominal_values : Dict.dict F64.float)
           (value : option F64.float) (line : string) : option F64.float :=
  if Py.contains dim_id line
     && Py.contains "DIMENSIONAL_CHARACTERISTIC_REPRESENTATION" line then
    match search false closing_ref_re line with
    | Some repr_match =>
        let repr_line :=
          Dict.get_default line_dict ("#" ++ group_str repr_match 1) "" in
        match search false lone_ref_re repr_line with
        | Some nominal_ref_match =>
            Dict.get nominal_values ("#" ++ group_str nominal_ref_match 1)
        | None => value
        end
    | None => value
    end
  else value.

Definition nominal_value_of (text dim_id : string) (line_dict : Dict.dict string)
           (nominal_values : Dict.dict F64.float) : option F64.float :=
  fold_left (nominal_step dim_id line_dict nominal_values)
            (Py.splitlines text) None.

(** Truth value of a nominal value. *)
Definition has_value (value : option F64.float) : bool :=
  match value with Some x => F64.truthy x | None => false end.

(** [str(value) if value else "N/A"] *)
Definition value_text (value : option F64.float) : string :=
  match value with
  | Some x => if F64.truthy x then F64.repr x else "N/A"
  | None => "N/A"
  end.

(** The prefix of a tolerance range, as lines 419 and 499 spell it. *)
Definition range_prefix : string := "¬±".

(** Lines 409-426 and 489-506: the tolerance range and the two limits. *)
Definition tolerance_columns (tables : link_tables) (dim_id : string)
           (value : option F64.float) : string * string * string :=
  match Dict.get (dimension_to_tolerance tables) dim_id with
  | Some (tol_val_id, _) =>
      match Dict.get (tolerance_values tables) tol_val_id with
      | Some data =>
          let tolerance_range :=
            range_prefix ++ F64.format_3f (F64.div (td_range data) F64.two) in
          match value with
          | Some nom_val =>
              if F64.truthy nom_val then
                (tolerance_range,
                 F64.format_3f (F64.add nom_val (td_upper data)),
                 F64.format_3f (F64.add nom_val (td_lower data)))
              else (tolerance_range, "", "")
          | None => (tolerance_range, "", "")
          end
      | None => ("", "", "")
      end
  | None => ("", "", "")
  end.

(** [self.gdnt_symbols.get(key, default)]: the default of line 779 is the
    empty string, and lines 441 and 536 ask for keys that the table holds. *)
Definition symbol_of (key : string) : string :=
  Dict.get_default gdnt_symbols key "".

(** One turn of the loop of lines 383-453, for a match of
    [dimensional_size_pattern]. *)
Definition size_row (text : string) (line_dict : Dict.dict string)
           (maps : datum_maps) (tables : link_tables) (m : caps) : result row :=
  let dim_size_id := group_str m 1 in
  let feature_name := shape_aspect_name line_dict (group_str m 2) in
  let diameter_value :=
    nominal_value_of text dim_size_id line_dict (nominal_values tables) in
  let '(tolerance_range, upper_limit, lower_limit) :=
    tolerance_columns tables dim_size_id diameter_value in
  datum_letter <-
    find_datum_for_dimensional_tolerance
      feature_name (datum_results maps) (datum_letter_to_feature maps) ;;
  Ok {| col_type := symbol_of "Diameter" ++ " Diameter";
        col_value := value_text diameter_value;
        col_datum := datum_letter;
        col_location :=
          if Py.contains "boss" (Py.lower feature_name)
          then "cylindrical side" else "cylindrical surface";
        col_surface := "curved side of the cylinder";
        col_tolerance := tolerance_range;
        col_upper_limit := upper_limit;
        col_lower_limit := lower_limit |}.

(** Lines 508-524: the datum of a distance, from the first name, the second
    name, then both names joined. *)
Definition location_datum (maps : datum_maps) (feature_name1 feature_name2 : string)
  : result string :=
  let find name :=
    find_datum_for_dimensional_tolerance
      name (datum_results maps) (datum_letter_to_feature maps) in
  d1 <- (if Py.truthy feature_name1 then find feature_name1 else Ok "") ;;
  d2 <- (if negb (Py.truthy d1) && Py.truthy feature_name2
         then find feature_name2 else Ok d1) ;;
  if negb (Py.truthy d2) then find (feature_name1 ++ " to " ++ feature_name2)
  else Ok d2.

(** One turn of the loop of lines 456-548, for a match of
    [dimensional_location_pattern]. *)
Definition location_row (text : string) (line_dict : Dict.dict string)
           (maps : datum_maps) (tables : link_tables) (m : caps) : result row :=
  let dim_loc_id := group_str m 1 in
  let distance_type := group_str m 2 in
  let feature_name1 := shape_aspect_name line_dict ("#" ++ group_str m 3) in
  let feature_name2 := shape_aspect_name line_dict ("#" ++ group_str m 4) in
  let distance_value :=
    nominal_value_of text dim_loc_id line_dict (nominal_values tables) in
  let '(tolerance_range, upper_limit, lower_limit) :=
    tolerance_columns tables dim_loc_id distance_value in
  datum_letter <- location_datum maps feature_name1 feature_name2 ;;
  let planes :=
    Py.truthy feature_name1 && Py.truthy feature_name2
    && Py.contains "plane" (Py.lower feature_name1)
    && Py.contains "plane" (Py.lower feature_name2) in
  Ok {| col_type :=
          symbol_of "Linear Distance" ++ " " ++
          (if Py.truthy distance_type then Py.title distance_type else "Length");
        col_value := value_text distance_value;
        col_datum := datum_letter;
        col_location := if planes then "between planes" else "between surfaces";
        col_surface := if planes then "planar faces" else "linear distance";
        col_tolerance := tolerance_range;
        col_upper_limit := upper_limit;
        col_lower_limit := lower_limit |}.

(** [for x in xs: rows.append(f(x))], where [f] may raise. *)
Definition append_rows {A : Type} (f : A -> result row) (xs : list A)
           (rows : list row) : result (list row) :=
  for_each (fun x acc => r <- f x ;; Ok (acc ++ [r])%list) xs rows.

(** The body of the [try] of lines 306-550. *)
Definition dimensional_rows (text : string) (line_dict : Dict.dict string)
           (maps : datum_maps) : result (list row) :=
  let tables := build_link_tables text in
  sizes <- append_rows (size_row text line_dict maps tables)
                       (finditer true dimensional_size_pattern text) [] ;;
  append_rows (location_row text line_dict maps tables)
              (finditer true dimensional_location_pattern text) sizes.

(** [GDTExtractor.extract_dimensional_tolerances]: an exception raised in
    the body is logged and answered with the empty list. *)
Definition extract_dimensional_tolerances (text : string)
           (line_dict : Dict.dict string) (maps : datum_maps) : list row :=
  match dimensional_rows text line_dict maps with
  | Ok rows => rows
  | Raise _ => []
  end.

(** ** The patterns as the source spells them

    Each regular expression of the source, with the flag it is compiled
    or used with ([true] for [re.IGNORECASE]), next to its syntax tree. *)

Definition pattern_sources : list (string * bool * regex) :=
  [("(#\d+)\s*=", false, entity_id_re);
   ("(#\d+)\s*=\s*(CYLINDRICITY|FLATNESS|STRAIGHTNESS|ROUNDNESS)_TOLERANCE\(\s*'([^']*)'\s*,\s*''\s*,\s*(#\d+)",
    true, tol_pattern);
   ("#(\d+)=DATUM\('([^']*)',\$,#\d+,\.F\.,'([A-Z])'\);", false, datum_line_re);
   ("@([^(]+)", false, at_feature_re);
   ("#\d+\s*=\s*SHAPE_ASPECT\('([^']*?)\((\w)?'?,.*?#(\d+)\)", false,
    shape_aspect_pattern);
   ("(?:LENGTH_MEASURE|VALUE_REPRESENTATION_ITEM)\s*\(\s*([\d.]+)", false, value_re);
   ("\(([A-Z])\)", false, paren_letter_re);
   ("#(\d+)", false, hash_number_re);
   ("DATUM_FEATURE\([^']*'[^']*\(([A-Z])\)'", false, datum_feature_re);
   ("plane(\d+)", false, plane_number_re);
   ("datum\d+@[^(]*\(([A-Z])\)", false, datum_at_letter_re);
   ("(#\d+)\s*=\s*DIMENSIONAL_SIZE\s*\(\s*(#\d+)\s*,\s*'([^']*)'\s*\)", true,
    dimensional_size_pattern);
   ("(#\d+)\s*=\s*DIMENSIONAL_LOCATION\s*\(\s*'([^']*)'[^#]*#(\d+)[^#]*#(\d+)", true,
    dimensional_location_pattern);
   ("(#\d+)\s*=\s*PLUS_MINUS_TOLERANCE\s*\(\s*(#\d+)\s*,\s*(#\d+)\s*\)", true,
    plus_minus_tolerance_pattern);
   ("(#\d+)\s*=\s*TOLERANCE_VALUE\s*\(\s*(#\d+)\s*,\s*(#\d+)\s*\)", true,
    tolerance_value_pattern);
   ("(#\d+)\s*=.*?LENGTH_MEASURE\(([^)]+)\)", true, length_measure_pattern);
   ("POSITIVE_LENGTH_MEASURE\(([^)]+)\)", true, nominal_value_pattern);
   ("SHAPE_ASPECT\s*\(\s*'([^']*)'", false, shape_aspect_name_re);
   ("#(\d+)\)", false, closing_ref_re);
   ("\(#(\d+)\)", false, lone_ref_re)].

(** ** The result assembler (lines 774-811) *)

(** Lines 778-797: the table row of a geometric tolerance. *)
Definition tolerance_row (t : tol_result) : row :=
  let symbol := symbol_of (tr_label t) in
  let loc := tr_location t in
  {| col_type :=
       if Py.truthy symbol then symbol ++ " " ++ tr_label t else tr_label t;
     col_value := tr_value t;
     col_datum := tr_datum t;
     col_location := if Py.truthy loc then loc else "surface";
     col_surface :=
       if String.eqb loc "cylindrical side" then "curved side of the cylinder"
       else if String.eqb loc "bottom face" then "bottom face"
       else if String.eqb loc "top face" then "top face"
       else if String.eqb loc "planar surface" then "planar face"
       else if Py.truthy loc then loc else "surface";
     col_tolerance := tr_tolerance_value t;
     col_upper_limit := tr_upper_limit t;
     col_lower_limit := tr_lower_limit t |}.

(** Lines 804-809: the row of a datum. *)
Definition datum_row (datum_results : Dict.dict string) (entry : string * string)
  : row :=
  let d_letter := fst entry in
  let location_str := Dict.get_default datum_results d_letter "surface" in
  {| col_type := "Datum"; col_value := d_letter; col_datum := d_letter;
     col_location := location_str; col_surface := location_str;
     col_tolerance := ""; col_upper_limit := ""; col_lower_limit := "" |}.

(** ** The entry point *)

(** What one run computes: the datum maps as they stand after the
    shape-aspect scan, the geometric tolerances, the dimensional rows. *)
Record run_state : Type :=
  { run_maps : datum_maps;
    run_tolerances : list tol_result;
    run_dimensional : list row }.

(** Lines 559-772. *)
Definition run_extraction (text : string) : result run_state :=
  let lines := Py.splitlines text in
  let line_dict := build_line_dict lines in
  scanned <- scan_datums lines ;;
  let maps :=
    {| datum_results := scan_shape_aspects text (datum_results scanned);
       datum_letter_to_feature := datum_letter_to_feature scanned |} in
  Ok {| run_maps := maps;
        run_tolerances := extract_tolerances text maps line_dict lines;
        run_dimensional := extract_dimensional_tolerances text line_dict maps |}.

(** Lines 774-811. *)
Definition table_rows (st : run_state) : list row :=
  (map tolerance_row (run_tolerances st)
   ++ run_dimensional st
   ++ map (datum_row (datum_results (run_maps st)))
          (datum_letter_to_feature (run_maps st)))%list.

(** The body of the [try] of [extract_tolerance_data]. *)
Definition extraction_body (text : string) : result (list row) :=
  st <- run_extraction text ;; Ok (table_rows st).

(** [GDTExtractor.extract_tolerance_data]: an exception raised in the body
    is logged and answered with the empty list. *)
Definition extract_tolerance_data (text : string) : list row :=
  match extraction_body text with
  | Ok rows => rows
  | Raise _ => []
  end.

(** ** What a pattern matches

    [matches ic r w c c'] says that [r] matches exactly the text [w] and
    turns the captures [c] into [c'].  The matcher is sound for it
    ([run_sound] below), which is how facts about captured groups are
    obtained for every input. *)

Fixpoint matches (ic : bool) (r : regex) (w : string) (c c' : caps) : Prop :=
  match r with
  | Lit l => c' = c /\ lit_rest ic l w = Some EmptyString
  | Cls p => c' = c /\ exists a, w = String a EmptyString /\ cls_ok ic p a = true
  | Rep _ lo p =>
      c' = c /\ Py.all_chars (cls_ok ic p) w = true /\ lo <= String.length w
  | Opt r1 => matches ic r1 w c c' \/ (w = EmptyString /\ c' = c)
  | Alt r1 r2 => matches ic r1 w c c' \/ matches ic r2 w c c'
  | Cat r1 r2 =>
      exists w1 w2 c1,
        w = w1 ++ w2 /\ matches ic r1 w1 c c1 /\ matches ic r2 w2 c1 c'
  | Grp n r1 => exists c1, matches ic r1 w c c1 /\ c' = (n, w) :: c1
  end.

(** [s] occurs in [t]. *)
Definition occurs_in (s t : string) : Prop :=
  exists pre post, t = pre ++ s ++ post.

(** A single character of a class, as a string. *)
Definition single (p : ascii -> bool) (s : string) : Prop :=
  exists a, s = String a EmptyString /\ p a = true.

(** ** The 5-column engine of [main.py]

  [extract_tolerance_table] of [main.py] (lines 331-585) shares the
  classifier, the entity index, the datum scan and the shape-aspect scan
  with the engine above, line for line.  It differs in the resolution of a
  tolerance (four methods), in the rows (five columns, the location of a
  row with a datum reads "at datum" and the letter), and in having no
  [try]: an exception leaves the function. *)

Module MainPy.

(** [gdnt_symbols] (lines 465-470). *)
Definition gdnt_symbols : Dict.dict string :=
  [("Straightness", "─");
   ("Flatness", "☐");
   ("Circularity", "○");
   ("Cylindricity", "⌀")].

(** A 5-tuple of the table. *)
Record row : Type :=
  { col_type : string;
    col_value : string;
    col_datum : string;
    col_location : string;
    col_surface : string }.

(** Method 3 (lines 440-451). *)
Definition method3 (tol_name : string) (r : resolution) : resolution :=
  let tol_name_lower := Py.lower tol_name in
  if negb (Py.truthy (snd r)) then
    if Py.contains "boss1" tol_name_lower then (fst r, "cylindrical side")
    else if Py.contains "plane1" tol_name_lower then (fst r, "bottom face")
    else if Py.contains "plane2" tol_name_lower then (fst r, "top face")
    else if Py.contains "plane" tol_name_lower then (fst r, "planar surface")
    else r
  else r.

(** Method 4 (lines 453-460). *)
Definition method4 (label : string) (r : resolution) : resolution :=
  if negb (Py.truthy (snd r)) then
    if in_list (Py.lower label) ["cylindricity"; "circularity"]
    then (fst r, "cylindrical side")
    else if in_list (Py.lower label) ["flatness"] then (fst r, "planar surface")
    else if in_list (Py.lower label) ["straightness"] then (fst r, "surface")
    else r
  else r.

(** The body of the loop of line 413; methods 1 and 2 are those of the
    8-column engine. *)
Definition extract_tolerance (datum_results line_dict : Dict.dict string)
           (m : caps) : row :=
  let tol_type := group_str m 2 in
  let tol_name := group_str m 3 in
  let definition := Dict.get_default line_dict (group_str m 4) "" in
  let value :=
    match search false value_re definition with
    | Some value_match => group_str value_match 1
    | None => "N/A"
    end in
  let label :=
    if String.eqb (Py.upper tol_type) "ROUNDNESS" then "Circularity"
    else Py.capitalize tol_type in
  let r :=
    method4 label
      (method3 tol_name
         (method2 datum_results tol_name (method1 datum_results tol_name))) in
  let symbol := Dict.get_default gdnt_symbols label "" in
  let datum := fst r in
  let loc := snd r in
  {| col_type := if Py.truthy symbol then symbol ++ " " ++ label else label;
     col_value := value;
     col_datum := datum;
     col_location :=
       if Py.truthy datum then "at datum " ++ datum
       else if Py.truthy loc then loc else "surface";
     col_surface :=
       if String.eqb loc "cylindrical side" then "curved side of the cylinder"
       else if String.eqb loc "bottom face" then "bottom face"
       else if String.eqb loc "top face" then "top face"
       else if String.eqb loc "planar surface" then "planar face"
       else if Py.truthy loc then loc else "surface" |}.

(** Lines 577-583. *)
Definition datum_row (datum_results : Dict.dict string)
           (entry : string * string) : row :=
  let d_letter := fst entry in
  let location_str := Dict.get_default datum_results d_letter "surface" in
  {| col_type := "Datum"; col_value := d_letter; col_datum := d_letter;
     col_location := location_str; col_surface := location_str |}.

(** [extract_tolerance_table(text)] *)
Definition extract_tolerance_table (text : string) : result (list row) :=
  let lines := Py.splitlines text in
  let line_dict := build_line_dict lines in
  scanned <- scan_datums lines ;;
  let datum_results := scan_shape_aspects text (datum_results scanned) in
  Ok (map (extract_tolerance datum_results line_dict)
          (finditer true tol_pattern text)
      ++ map (datum_row datum_results) (datum_letter_to_feature scanned))%list.

End MainPy.

(** ** Vocabulary of the properties *)

(** The letters of the datum map, as a run leaves it. *)
Definition datum_letters (st : run_state) : list string :=
  Dict.keys (datum_results (run_maps st)).

(** The geometric and the dimensional rows of a run, in table order. *)
Definition geometric_rows (st : run_state) : list row :=
  map tolerance_row (run_tolerances st).

Definition dimensional_rows_of (st : run_state) : list row := run_dimensional st.

(** Referential integrity of one run: the datum letter of every geometric
    or dimensional row is empty or a key of the datum map. *)
Definition referential_integrity (text : string) : Prop :=
  forall st : run_state,
    run_extraction text = Ok st ->
    forall r : row,
      In r (geometric_rows st ++ dimensional_rows_of st)%list ->
      col_datum r <> "" ->
      In (col_datum r) (datum_letters st).

(** Every key of the datum map of a run is a single upper-case letter. *)
Definition keys_are_upper_letters (text : string) : Prop :=
  forall st : run_state,
    run_extraction text = Ok st ->
    Forall (single Py.is_upper) (datum_letters st).

(** Every raw name of [datum_letter_to_feature] is filed under a key of
    [datum_results]. *)
Definition maps_agree (maps : datum_maps) : Prop :=
  incl (Dict.keys (datum_letter_to_feature maps)) (Dict.keys (datum_results maps)).

(** A key that the shape-aspect scan may write: the single word character
    captured by some match of [shape_aspect_pattern] in [text]. *)
Definition shape_aspect_key (text k : string) : Prop :=
  single Py.is_word k
  /\ exists m, In m (finditer false shape_aspect_pattern text)
               /\ group m 2 = Some k.

Definition letter_known (keys : list string) (letter : string) : Prop :=
  letter = "" \/ In letter keys.

(** ** Well-formed DATUM lines *)

(** No character of [s] is one of [cs]. *)
Definition free_of (cs s : string) : bool :=
  Py.all_chars (fun a => negb (Py.contains (String a "") cs)) s.

(** A non-empty run of digits. *)
Definition is_number (s : string) : bool :=
  Py.truthy s && Py.all_chars Py.is_digit s.

(** The quoted name of a datum: prefix, at-sign, feature token, letter. *)
Definition datum_name (X Y L : string) : string :=
  X ++ "@" ++ Y ++ "(" ++ L ++ ")".

(** The line of entity [id] that defines datum [L] on entity [n]. *)
Definition datum_line (id X Y L n : string) : string :=
  "#" ++ id ++ "=DATUM('" ++ datum_name X Y L ++ "',$,#" ++ n
      ++ ",.F.,'" ++ L ++ "');".

Record well_formed (id X Y L n : string) : Prop :=
  { wf_id : is_number id = true;
    wf_ref : is_number n = true;
    wf_prefix : free_of "'@" X = true;
    wf_token : Py.truthy Y && free_of "'(" Y = true;
    wf_letter : single Py.is_upper L }.



(** The text [s] is empty or starts with a character outside [p]. *)
Definition stops_at (ic : bool) (p : cclass) (s : string) : bool :=
  match s with
  | EmptyString => true
  | String a _ => negb (cls_ok ic p a)
  end.

(** ** The letter of a geometric tolerance *)

(** What method 1 reads: a capital letter that stands between parentheses
    in the name of the tolerance. *)
Definition read_in_name (tol_name letter : string) : Prop :=
  single Py.is_upper letter /\ occurs_in ("(" ++ letter ++ ")") tol_name.

(** What method 3 reads: a capital letter that closes, between
    parentheses, the quoted name of a DATUM_FEATURE line of the text, where
    that line mentions an entity to which the line of the tolerance
    refers. *)
Definition read_in_datum_feature (line_dict : Dict.dict string)
           (lines : list string) (tol_id letter : string) : Prop :=
  single Py.is_upper letter
  /\ exists line entity,
      In line lines
      /\ is_number entity = true
      /\ occurs_in ("#" ++ entity) (Dict.get_default line_dict tol_id "")
      /\ Py.contains "DATUM_FEATURE" line = true
      /\ Py.contains ("#" ++ entity) line = true
      /\ occurs_in ("(" ++ letter ++ ")'") line.

(** What the datum letter of the geometric tolerance [tol_id], named
    [tol_name], can be: nothing, a key of the datum map, the letter that
    method 1 read in its name, or the letter that method 3 read in a
    DATUM_FEATURE line. *)
Definition letter_known_or_read (keys : list string)
           (line_dict : Dict.dict string) (lines : list string)
           (tol_id tol_name letter : string) : Prop :=
  letter = ""
  \/ In letter keys
  \/ read_in_name tol_name letter
  \/ read_in_datum_feature line_dict lines tol_id letter.

(** The invariant of the six methods on the letter they hold. *)
Definition resolved_ok (maps : datum_maps) (line_dict : Dict.dict string)
           (lines : list string) (tol_id tol_name : string) (r : resolution)
  : Prop :=
  letter_known_or_read (Dict.keys (datum_results maps)) line_dict lines
                       tol_id tol_name (fst r).

(** ** Entry points and exceptions *)

(** No exception leaves the entry point [entry], whatever the text. *)
Definition never_raises {R : Type} (entry : string -> result R) : Prop :=
  forall text : string, exists rows, entry text = Ok rows.

(** Every entry point catches what its body raises: that of the 8-column
    engine, which returns a list, and [extract_tolerance_table] of
    [main.py]. *)
Definition exceptions_are_caught : Prop :=
  never_raises (fun text => Ok (extract_tolerance_data text))
  /\ never_raises MainPy.extract_tolerance_table.

(** ** Scenarios *)

Definition LF : string := String (ascii_of_nat 10) "".

(** A text made of the given lines. *)
Definition unlines (lines : list string) : string := String.concat LF lines.

Fixpoint repeat_text (n : nat) (s : string) : string :=
  match n with
  | O => ""
  | S n' => s ++ repeat_text n' s
  end.

Definition datum_A_line : string := "#10=DATUM('Datum1@Boss1(A)',$,#1,.F.,'A');".

Definition cylindricity_line : string :=
  "#20=CYLINDRICITY_TOLERANCE('Tol(A)','',#30);".

(** Two shapes of the line that defines entity 30. *)
Definition measure_line : string :=
  "#30=LENGTH_MEASURE_WITH_UNIT(LENGTH_MEASURE(0.05),#31);".

Definition bare_measure_line : string := "#30=LENGTH_MEASURE(0.05);".

(** The three lines of the cylindricity scenario, in every order, with
    either shape of the measure line. *)
Definition cylindricity_scenarios : list (list string) :=
  flat_map
    (fun m =>
       [[datum_A_line; cylindricity_line; m]; [datum_A_line; m; cylindricity_line];
        [cylindricity_line; datum_A_line; m]; [cylindricity_line; m; datum_A_line];
        [m; datum_A_line; cylindricity_line]; [m; cylindricity_line; datum_A_line]])
    [measure_line; bare_measure_line].

(** The diameter sign, U+2300, in UTF-8: the glyph of a cylindricity. *)
Definition diameter_sign : string := "⌀".

(** The row that the 8-column engine returns for the tolerance of the
    scenario; its type is the text that the table shows, character for
    character. *)
Definition cylindricity_row : row :=
  {| col_type := "‚åÄ Cylindricity";
     col_value := "0.05";
     col_datum := "A";
     col_location := "cylindrical side";
     col_surface := "curved side of the cylinder";
     col_tolerance := ""; col_upper_limit := ""; col_lower_limit := "" |}.

Definition datum_A_row : row :=
  {| col_type := "Datum"; col_value := "A"; col_datum := "A";
     col_location := "cylindrical side"; col_surface := "cylindrical side";
     col_tolerance := ""; col_upper_limit := ""; col_lower_limit := "" |}.

(** A diameter of nominal value 10.0 on a Boss feature, with a tolerance
    value whose lower bound is -0.1 and whose upper bound is 0.1. *)
Definition diameter_scenario : string :=
  unlines
    ["#10=DATUM('Datum1@Boss1(A)',$,#1,.F.,'A');";
     "#49=SHAPE_ASPECT('Boss1','',#5,.T.);";
     "#50=DIMENSIONAL_SIZE(#49,'diameter');";
     "#40=TOLERANCE_VALUE(#41,#42);";
     "#41=LENGTH_MEASURE_WITH_UNIT(LENGTH_MEASURE(-0.1),#90);";
     "#42=LENGTH_MEASURE_WITH_UNIT(LENGTH_MEASURE(0.1),#90);";
     "#45=PLUS_MINUS_TOLERANCE(#40,#50);";
     "#60=DIMENSIONAL_CHARACTERISTIC_REPRESENTATION(#50,#61);";
     "#61=SHAPE_DIMENSION_REPRESENTATION('',(#62),#99);";
     "#62=MEASURE_REPRESENTATION_ITEM('',POSITIVE_LENGTH_MEASURE(10.0),#90);"].

(** The plus-minus sign, U+00B1, in UTF-8. *)
Definition plus_minus_sign : string := "±".

(** A tolerance whose name carries a letter that no DATUM line defines. *)
Definition orphan_letter_text : string :=
  "#20=CYLINDRICITY_TOLERANCE('Tol(A)','',#30);".

(** A shape aspect with a lower-case letter after the parenthesis. *)
Definition lower_case_aspect_text : string := "#5=SHAPE_ASPECT('plane1(x',#7)".

(** Two datums and four straightness tolerances without any hint. *)
Definition straightness_text : string :=
  unlines
    ["#10=DATUM('Datum1@Boss1(A)',$,#1,.F.,'A');";
     "#11=DATUM('Datum2@Plane2(B)',$,#2,.F.,'B');";
     "#21=STRAIGHTNESS_TOLERANCE('s1','',#30);";
     "#22=STRAIGHTNESS_TOLERANCE('s2','',#30);";
     "#23=STRAIGHTNESS_TOLERANCE('s3','',#30);";
     "#24=STRAIGHTNESS_TOLERANCE('s4','',#30);"].

(** A datum whose plane number has 4301 digits: [int] refuses it. *)
Definition long_number_text : string :=
  "#1=DATUM('plane" ++ repeat_text 4301 "1" ++ "',$,#2,.F.,'Z');".


(** ** The limit and format helpers (lines 33-78)

    Both are given text arguments here, as the rows of the engine hold
    them; [None] for [nominal_value] is the default argument, the integer
    0. *)

(** [round(x, ndigits)] for a float: the decimal nearest to [x] with
    [ndigits] digits after the point, ties to even, converted back; a
    number that is not finite is returned as it is. *)
Definition float_round (ndigits : nat) (x : F64.float) : F64.float :=
  match x with
  | S754_finite s m e =>
      let (num, den) := F64.fraction m e in
      F64.of_decimal
        s (F64.div_nearest_even (Z.pow 10 (Z.of_nat ndigits) * num) den)
        (Z.opp (Z.of_nat ndigits))
  | _ => x
  end.

Definition form_tolerances : list string :=
  ["flatness"; "straightness"; "circularity"; "cylindricity"].

Definition location_tolerances : list string :=
  ["position"; "concentricity"; "symmetry"].

(** Lines 36-37: the two conversions; [ValueError] leaves the [try]. *)
Definition limit_operands (tolerance_value : string) (nominal_value : option string)
  : result (F64.float * F64.float) :=
  tol_val <- (if negb (String.eqb tolerance_value "N/A")
              then F64.of_string tolerance_value else Ok F64.zero) ;;
  nominal <- match nominal_value with
             | Some text => F64.of_string text
             | None => Ok F64.zero
             end ;;
  Ok (tol_val, nominal).

(** [GDTExtractor.calculate_tolerance_limits] *)
Definition calculate_tolerance_limits
           (tolerance_type tolerance_value : string) (nominal_value : option string)
  : string * string :=
  match limit_operands tolerance_value nominal_value with
  | Ok (tol_val, nominal) =>
      let tolerance_type_lower := Py.lower tolerance_type in
      let half := F64.div tol_val F64.two in
      let limits :=
        if in_list tolerance_type_lower form_tolerances
        then Some (F64.add nominal tol_val, nominal)
        else if in_list tolerance_type_lower location_tolerances
        then Some (F64.add nominal half, F64.sub nominal half)
        else if String.eqb tolerance_type_lower "datum" then None
        else Some (F64.add nominal half, F64.sub nominal half) in
      match limits with
      | Some (upper_limit, lower_limit) =>
          (F64.repr (float_round 4 upper_limit),
           F64.repr (float_round 4 lower_limit))
      | None => ("REF", "REF")
      end
  | Raise _ => ("N/A", "N/A")
  end.

(** [GDTExtractor.format_tolerance_value]; the prefix of line 76 is the
    literal of lines 419 and 499. *)
Definition format_tolerance_value (value : string) : string :=
  if String.eqb value "N/A" || negb (Py.truthy value) then "N/A"
  else
    match F64.of_string value with
    | Ok _ => range_prefix ++ value
    | Raise _ => value
    end.

(** ** The surface mappers (lines 141-208) *)

(** [re.sub(r, '', s)]: the text without the successive non-overlapping
    matches of [r].  [skip] counts the characters still covered by the last
    match. *)
Fixpoint remove_matches (ic : bool) (r : regex) (skip : nat) (s : string) : string :=
  match s with
  | EmptyString => EmptyString
  | String a s' =>
      match skip with
      | S skip' => remove_matches ic r skip' s'
      | O =>
          match match_at ic r s with
          | Some x =>
              match String.length s - String.length (after x) with
              | O => String a (remove_matches ic r 0 s')
              | S covered => remove_matches ic r covered s'
              end
          | None => String a (remove_matches ic r 0 s')
          end
      end
  end.

(** The datum reference of line 147: datum, digits, an at-sign. *)
Definition datum_reference_re : regex := seq [Lit "datum"; plus digit; Lit "@"].

Definition feature_types : list string :=
  ["torus"; "plane"; "boss"; "cylinder"; "cone"; "sphere"].

(** [GDTExtractor.clean_feature_name] *)
Definition clean_feature_name (feature_name : option string) : string :=
  if negb (Py.truthy_opt feature_name) then ""
  else
    let fname :=
      remove_matches false datum_reference_re 0
                     (Py.lower (Py.str_opt feature_name)) in
    match find (fun ftype => Py.contains ftype fname) feature_types with
    | Some ftype => ftype
    | None => Py.str_opt feature_name
    end.

(** [GDTExtractor.get_surface_type(feature_name, datum_letter=None)] *)
Definition get_surface_type (feature_name datum_letter : option string)
  : result string :=
  if negb (Py.truthy_opt feature_name) then Ok "surface"
  else
    let fname := Py.lower (Py.str_opt feature_name) in
    if Py.contains "torus" fname then Ok "torus side"
    else if String.eqb (clean_feature_name feature_name) "torus" then Ok "torus side"
    else if Py.contains "plane" fname then
      determine_plane_position feature_name datum_letter
    else if Py.contains "cone" fname || Py.contains "conical" fname then
      Ok "conical side of the part"
    else if Py.contains "boss1" fname || Py.contains "cylindrical" fname
            || Py.contains "side" fname then Ok "cylindrical side"
    else Ok (Py.str_opt feature_name).

(** [GDTExtractor.get_likely_location(label, feature_name)] *)
Definition get_likely_location (label : string) (feature_name : option string)
  : result string :=
  if negb (Py.truthy_opt feature_name) then Ok "surface"
  else
    let fname := Py.lower (Py.str_opt feature_name) in
    if Py.contains "torus" fname then Ok "torus side"
    else if String.eqb (clean_feature_name feature_name) "torus" then Ok "torus side"
    else if Py.contains "plane" fname then
      determine_plane_position feature_name None
    else if Py.contains "cone" fname || Py.contains "conical" fname then
      Ok "conical side of the part"
    else if Py.contains "boss1" fname || Py.contains "cylindrical" fname
            || Py.contains "side" fname then Ok "curved side of the cylinder"
    else if Py.contains "face" fname then Ok "planar face"
    else Ok (Py.str_opt feature_name).

(** ** The counts and tags of the caller (lines 1062-1065, 1084-1091) *)

(** The two marks by which [upload_and_process] and [show_table] tell a
    dimensional row, as the source spells them. *)
Definition dimensional_marks : list string := ["‚åÄ Diameter"; "‚Üî"].

(** [any(symbol in r[0] for symbol in [...])] *)
Definition is_dimensional (r : row) : bool :=
  existsb (fun symbol => Py.contains symbol (col_type r)) dimensional_marks.

Definition is_datum (r : row) : bool := String.eqb (col_type r) "Datum".

(** The three counts of the status line. *)
Definition geometric_count (result_data : list row) : nat :=
  length (filter (fun r => negb (is_dimensional r) && negb (is_datum r)) result_data).

Definition dimensional_count (result_data : list row) : nat :=
  length (filter is_dimensional result_data).

Definition datum_count (result_data : list row) : nat :=
  length (filter is_datum result_data).

(** The tag that [show_table] gives to the row at position [idx]. *)
Definition row_tag (idx : nat) (line : row) : string :=
  if is_datum line then "datum"
  else if is_dimensional line then "dimensional"
  else if Nat.eqb (Nat.modulo idx 2) 0 then "even" else "odd".

(** ** The 5-column engine of [try.py]

    [extract_tolerance_data] of [try.py] (lines 160-406) is that of the
    8-column engine line for line, up to the entry it appends for a
    tolerance, which has the first four fields only, and up to the
    dimensional extractor, which it does not have.  Its rows have five
    columns, and the location of a row with a datum reads "at datum" and
    the letter.  The classifier and the surface mappers of [try.py]
    (lines 30-158) are those of the 8-column engine, character for
    character. *)

Module TryPy.

(** [gdnt_symbols] (lines 23-28). *)
Definition gdnt_symbols : Dict.dict string :=
  [("Straightness", "‚îÄ");
   ("Flatness", "‚òê");
   ("Circularity", "‚óã");
   ("Cylindricity", "‚åÄ")].

(** Lines 371-391: the row of a tolerance, from the four fields of its
    entry. *)
Definition tolerance_row (t : tol_result) : MainPy.row :=
  let symbol := Dict.get_default gdnt_symbols (tr_label t) "" in
  let datum := tr_datum t in
  let loc := tr_location t in
  {| MainPy.col_type :=
       if Py.truthy symbol then symbol ++ " " ++ tr_label t else tr_label t;
     MainPy.col_value := tr_value t;
     MainPy.col_datum := datum;
     MainPy.col_location :=
       if Py.truthy datum then "at datum " ++ datum
       else if Py.truthy loc then loc else "surface";
     MainPy.col_surface :=
       if String.eqb loc "cylindrical side" then "curved side of the cylinder"
       else if String.eqb loc "bottom face" then "bottom face"
       else if String.eqb loc "top face" then "top face"
       else if String.eqb loc "planar surface" then "planar face"
       else if Py.truthy loc then loc else "surface" |}.

(** Lines 394-399: the row of a datum. *)
Definition datum_row (datum_results : Dict.dict string) (entry : string * string)
  : MainPy.row :=
  let d_letter := fst entry in
  let location_str := Dict.get_default datum_results d_letter "surface" in
  {| MainPy.col_type := "Datum"; MainPy.col_value := d_letter;
     MainPy.col_datum := d_letter;
     MainPy.col_location := location_str; MainPy.col_surface := location_str |}.

(** The body of the [try] (lines 162-401). *)
Definition extraction_body (text : string) : result (list MainPy.row) :=
  let lines := Py.splitlines text in
  let line_dict := build_line_dict lines in
  scanned <- scan_datums lines ;;
  let maps :=
    {| datum_results := scan_shape_aspects text (datum_results scanned);
       datum_letter_to_feature := datum_letter_to_feature scanned |} in
  Ok (map tolerance_row (extract_tolerances text maps line_dict lines)
      ++ map (datum_row (datum_results maps)) (datum_letter_to_feature maps))%list.

(** [GDTExtractor.extract_tolerance_data] of [try.py]. *)
Definition extract_tolerance_data (text : string) : list MainPy.row :=
  match extraction_body text with
  | Ok rows => rows
  | Raise _ => []
  end.

(** The tag that [show_table] gives to the row at position [idx]
    (line 630). *)
Definition row_tag (idx : nat) (line : MainPy.row) : string :=
  if String.eqb (MainPy.col_type line) "Datum" then "datum"
  else if Nat.eqb (Nat.modulo idx 2) 0 then "even" else "odd".

End TryPy.

(** ** Vocabulary of the further properties *)

(** The labels that a geometric tolerance can carry, and the row types
    that [tolerance_row] makes of them. *)
Definition tolerance_labels : list string :=
  ["Cylindricity"; "Flatness"; "Straightness"; "Circularity"].

Definition geometric_types : list string :=
  map (fun label => symbol_of label ++ " " ++ label) tolerance_labels.

(** A digit or a full stop: the characters of a captured value. *)
Definition is_digit_or_dot (c : ascii) : bool :=
  Py.is_digit c || Nat.eqb (Py.code c) 46.

(** The columns that the extractor of geometric tolerances leaves empty. *)
Definition no_limits (r : row) : Prop :=
  col_tolerance r = "" /\ col_upper_limit r = "" /\ col_lower_limit r = "".

(** What [extract_tolerance] appends, whatever the maps hold. *)
Definition tolerance_entry_ok (t : tol_result) : Prop :=
  In (tr_label t) tolerance_labels
  /\ (tr_value t = "N/A"
      \/ (Py.truthy (tr_value t) = true
          /\ Py.all_chars is_digit_or_dot (tr_value t) = true))
  /\ tr_tolerance_value t = "" /\ tr_upper_limit t = "" /\ tr_lower_limit t = "".

(** The shape of a geometric row of the table. *)
Definition geometric_row_ok (r : row) : Prop :=
  In (col_type r) geometric_types
  /\ (col_value r = "N/A"
      \/ (Py.truthy (col_value r) = true
          /\ Py.all_chars is_digit_or_dot (col_value r) = true))
  /\ col_location r <> "" /\ col_surface r <> ""
  /\ no_limits r.

(** The tag of the row at position [idx] of a table that begins with
    [geometric] geometric rows followed by [dimensional] dimensional rows. *)
Definition tag_at (geometric dimensional idx : nat) : string :=
  if Nat.ltb idx geometric then
    if Nat.eqb (Nat.modulo idx 2) 0 then "even" else "odd"
  else if Nat.ltb idx (geometric + dimensional) then "dimensional"
  else "datum".

(** The datum rows of a run, in table order. *)
Definition datum_rows (st : run_state) : list row :=
  map (datum_row (datum_results (run_maps st)))
      (datum_letter_to_feature (run_maps st)).

(** The shape of a datum row: the letter twice, and twice the location
    that the datum map holds for it. *)
Definition datum_row_ok (datum_results : Dict.dict string) (r : row) : Prop :=
  col_type r = "Datum"
  /\ single Py.is_upper (col_datum r)
  /\ col_value r = col_datum r
  /\ Dict.get datum_results (col_datum r) = Some (col_location r)
  /\ col_surface r = col_location r
  /\ no_limits r.

(** The fixed answers of the classifier. *)
Definition position_words : list string :=
  ["surface"; "top face"; "bottom face"; "cylindrical side"; "planar surface"].

(** Neither a full stop nor the letter e. *)
Definition plain_char (c : ascii) : bool :=
  negb (Ascii.eqb c "." || Ascii.eqb c "e").

(** The shape of a diameter row and of a distance row. *)
Definition size_row_ok (r : row) : Prop :=
  col_type r = symbol_of "Diameter" ++ " Diameter"
  /\ In (col_location r) ["cylindrical side"; "cylindrical surface"]
  /\ col_surface r = "curved side of the cylinder".

Definition distance_row_ok (r : row) : Prop :=
  (exists kind, kind <> "" /\ col_type r = symbol_of "Linear Distance" ++ " " ++ kind)
  /\ In (col_location r, col_surface r)
        [("between planes", "planar faces"); ("between surfaces", "linear distance")].

(** The value and the last three columns of a dimensional row: limits
    are shown only next to a tolerance range and a nominal value. *)
Definition measured_ok (r : row) : Prop :=
  col_value r <> ""
  /\ (no_limits r
      \/ ((exists t, t <> "" /\ col_tolerance r = range_prefix ++ t)
          /\ ((col_upper_limit r = "" /\ col_lower_limit r = "")
              \/ (col_value r <> "N/A"
                  /\ col_upper_limit r <> "" /\ col_lower_limit r <> "")))).

(** The first five columns of a row, as a row of [main.py]. *)
Definition five_columns (r : row) : MainPy.row :=
  {| MainPy.col_type := col_type r; MainPy.col_value := col_value r;
     MainPy.col_datum := col_datum r; MainPy.col_location := col_location r;
     MainPy.col_surface := col_surface r |}.

(** No line of the text has more characters than [int] accepts digits. *)
Definition short_lines (text : string) : bool :=
  forallb (fun line => Nat.leb (String.length line) Py.int_max_str_digits)
          (Py.splitlines text).

(** A geometric row as [try.py] shows it: the first five columns, with
    the datum in place of the location when there is one. *)
Definition at_datum (r : row) : MainPy.row :=
  {| MainPy.col_type := col_type r; MainPy.col_value := col_value r;
     MainPy.col_datum := col_datum r;
     MainPy.col_location :=
       if Py.truthy (col_datum r) then "at datum " ++ col_datum r
       else col_location r;
     MainPy.col_surface := col_surface r |}.

(** The three labels for which method 6 always has a location. *)
Definition located_labels : list string :=
  ["Cylindricity"; "Circularity"; "Flatness"].

(** A tolerance entry that has a location when its label is one of the
    three. *)
Definition located_when_labelled (t : tol_result) : Prop :=
  In (tr_label t) located_labels -> tr_location t <> "".

(** * Properties *)

(** ** Strings *)

Lemma append_assoc (a b c : string) : (a ++ b) ++ c = a ++ (b ++ c).
Proof. induction a as [|x a IH]; simpl; [reflexivity | now rewrite IH]. Qed.

Lemma append_nil_r (a : string) : a ++ "" = a.
Proof. induction a as [|x a IH]; simpl; [reflexivity | now rewrite IH]. Qed.

Lemma length_append (a b : string) :
  String.length (a ++ b) = String.length a + String.length b.
Proof. induction a as [|x a IH]; simpl; [reflexivity | now rewrite IH]. Qed.

Lemma all_chars_append (p : ascii -> bool) (a b : string) :
  Py.all_chars p (a ++ b) = Py.all_chars p a && Py.all_chars p b.
Proof.
  induction a as [|x a IH]; simpl; [reflexivity |].
  now rewrite IH, andb_assoc.
Qed.

Lemma take_append (w s : string) : take (String.length w) (w ++ s) = w.
Proof. induction w as [|x w IH]; simpl; [now destruct s | now rewrite IH]. Qed.

Lemma consumed_append (w s : string) : consumed (w ++ s) s = w.
Proof.
  unfold consumed. rewrite length_append.
  replace (String.length w + String.length s - String.length s)
    with (String.length w) by lia.
  apply take_append.
Qed.

(** ** Soundness of the matcher *)

Section Soundness.

Variable ic : bool.

Lemma lit_rest_sound (l s s' : string) :
  lit_rest ic l s = Some s' ->
  exists w, s = w ++ s' /\ lit_rest ic l w = Some "".
Proof.
  revert s. induction l as [|a l IH]; intros s H; simpl in H.
  - injection H as <-. now exists "".
  - destruct s as [|b s]; [discriminate |].
    destruct (char_eq ic a b) eqn:E; [| discriminate].
    destruct (IH _ H) as (w & -> & Hw).
    exists (String b w). split; [reflexivity |]. simpl. now rewrite E.
Qed.

Lemma rep_greedy_sound (A : Type) (p : cclass) (k : cont A) (c : caps) (x : A) :
  forall (s : string) (lo : nat),
    rep_greedy ic p lo s c k = Some x ->
    exists w s', s = w ++ s'
                 /\ Py.all_chars (cls_ok ic p) w = true
                 /\ lo <= String.length w
                 /\ k s' c = Some x.
Proof.
  assert (stop : forall s lo,
             (if Nat.eqb lo 0 then k s c else None) = Some x ->
             exists w s', s = w ++ s'
                          /\ Py.all_chars (cls_ok ic p) w = true
                          /\ lo <= String.length w /\ k s' c = Some x).
  { intros s lo H. destruct (Nat.eqb lo 0) eqn:E; [| discriminate].
    apply Nat.eqb_eq in E. subst lo. exists "", s. simpl. auto. }
  induction s as [|a s IH]; intros lo H; simpl in H.
  - now apply stop.
  - destruct (cls_ok ic p a) eqn:Ea; [| now apply stop].
    unfold or_else in H.
    destruct (rep_greedy ic p (pred lo) s c k) eqn:Er.
    + injection H as ->. destruct (IH _ Er) as (w & s' & -> & Hw & Hlo & Hk).
      exists (String a w), s'. simpl. rewrite Ea, Hw. repeat split; auto. lia.
    + now apply stop.
Qed.

Lemma rep_lazy_sound (A : Type) (p : cclass) (k : cont A) (c : caps) (x : A) :
  forall (s : string) (lo : nat),
    rep_lazy ic p lo s c k = Some x ->
    exists w s', s = w ++ s'
                 /\ Py.all_chars (cls_ok ic p) w = true
                 /\ lo <= String.length w
                 /\ k s' c = Some x.
Proof.
  induction s as [|a s IH]; intros lo H; simpl in H; unfold or_else in H.
  - destruct (Nat.eqb lo 0) eqn:E; [| discriminate].
    apply Nat.eqb_eq in E. subst lo.
    destruct (k "" c) eqn:Ek; [| discriminate]. injection H as ->.
    exists "", "". simpl. auto.
  - destruct (if Nat.eqb lo 0 then k (String a s) c else None) eqn:Ek.
    + injection H as ->.
      destruct (Nat.eqb lo 0) eqn:E; [| discriminate].
      apply Nat.eqb_eq in E. subst lo.
      exists "", (String a s). simpl. auto.
    + destruct (cls_ok ic p a) eqn:Ea; [| discriminate].
      destruct (IH _ H) as (w & s' & -> & Hw & Hlo & Hk).
      exists (String a w), s'. simpl. rewrite Ea, Hw. repeat split; auto. lia.
Qed.

Theorem run_sound (A : Type) (r : regex) :
  forall (s : string) (c : caps) (k : cont A) (x : A),
    run ic r s c k = Some x ->
    exists w s' c', s = w ++ s' /\ matches ic r w c c' /\ k s' c' = Some x.
Proof.
  induction r as [l | p | g lo p | r IH | r1 IH1 r2 IH2 | r1 IH1 r2 IH2 | n r IH];
    intros s c k x H; simpl in H.
  - destruct (lit_rest ic l s) as [s'|] eqn:El; [| discriminate].
    destruct (lit_rest_sound _ _ El) as (w & -> & Hw).
    exists w, s', c. simpl. auto.
  - destruct s as [|a s]; [discriminate |].
    destruct (cls_ok ic p a) eqn:Ea; [| discriminate].
    exists (String a ""), s, c. simpl. repeat split; auto. now exists a.
  - assert (exists w s', s = w ++ s'
                          /\ Py.all_chars (cls_ok ic p) w = true
                          /\ lo <= String.length w /\ k s' c = Some x)
      as (w & s' & -> & Hw & Hlo & Hk)
        by (destruct g; [eapply rep_greedy_sound | eapply rep_lazy_sound]; eauto).
    exists w, s', c. simpl. auto.
  - unfold or_else in H. destruct (run ic r s c k) eqn:Er.
    + injection H as ->. destruct (IH _ _ _ _ Er) as (w & s' & c' & -> & Hm & Hk).
      exists w, s', c'. simpl. auto.
    + exists "", s, c. simpl. auto.
  - unfold or_else in H. destruct (run ic r1 s c k) eqn:Er.
    + injection H as ->. destruct (IH1 _ _ _ _ Er) as (w & s' & c' & -> & Hm & Hk).
      exists w, s', c'. simpl. auto.
    + destruct (IH2 _ _ _ _ H) as (w & s' & c' & -> & Hm & Hk).
      exists w, s', c'. simpl. auto.
  - destruct (IH1 _ _ _ _ H) as (w1 & s1 & c1 & -> & Hm1 & H1).
    destruct (IH2 _ _ _ _ H1) as (w2 & s2 & c2 & -> & Hm2 & H2).
    exists (w1 ++ w2), s2, c2. rewrite append_assoc. simpl.
    repeat split; auto. now exists w1, w2, c1.
  - destruct (IH _ _ _ _ H) as (w & s' & c' & -> & Hm & Hk).
    rewrite consumed_append in Hk.
    exists w, s', ((n, w) :: c'). simpl. repeat split; auto. now exists c'.
Qed.

Lemma match_at_sound (r : regex) (s : string) (x : match_obj) :
  match_at ic r s = Some x ->
  exists w, s = w ++ after x /\ matches ic r w [] (groups x).
Proof.
  intros H. destruct (run_sound _ _ _ _ H) as (w & s' & c' & -> & Hm & Hk).
  injection Hk as <-. now exists w.
Qed.

Lemma re_match_sound (r : regex) (s : string) (c : caps) :
  re_match ic r s = Some c ->
  exists w post, s = w ++ post /\ matches ic r w [] c.
Proof.
  unfold re_match. destruct (match_at ic r s) as [x|] eqn:E; [| discriminate].
  intros [= <-]. destruct (match_at_sound _ _ E) as (w & Hs & Hm).
  now exists w, (after x).
Qed.

Lemma search_obj_sound (r : regex) (s : string) (x : match_obj) :
  search_obj ic r s = Some x ->
  exists w, occurs_in w s /\ matches ic r w [] (groups x).
Proof.
  induction s as [|a s IH]; simpl; intros H.
  - destruct (match_at ic r "") eqn:E; [| discriminate]. injection H as ->.
    destruct (match_at_sound _ _ E) as (w & Hs & Hm).
    exists w. split; [| assumption]. now exists "", (after x).
  - destruct (match_at ic r (String a s)) eqn:E.
    + injection H as ->. destruct (match_at_sound _ _ E) as (w & Hs & Hm).
      exists w. split; [| assumption]. now exists "", (after x).
    + destruct (IH H) as (w & (pre & post & ->) & Hm).
      exists w. split; [| assumption]. now exists (String a pre), post.
Qed.

Lemma search_sound (r : regex) (s : string) (c : caps) :
  search ic r s = Some c ->
  exists w, occurs_in w s /\ matches ic r w [] c.
Proof.
  unfold search. destruct (search_obj ic r s) as [x|] eqn:E; [| discriminate].
  intros [= <-]. now apply search_obj_sound.
Qed.

Lemma finditer_from_sound (r : regex) (c : caps) :
  forall (s : string) (skip : nat),
    In c (finditer_from ic r skip s) ->
    exists w, occurs_in w s /\ matches ic r w [] c.
Proof.
  assert (shift : forall a s,
             (exists w, occurs_in w s /\ matches ic r w [] c) ->
             exists w, occurs_in w (String a s) /\ matches ic r w [] c).
  { intros a s (w & (pre & post & ->) & Hm). exists w. split; [| assumption].
    now exists (String a pre), post. }
  induction s as [|a s IH]; intros skip H.
  - destruct skip; simpl in H; [| contradiction].
    destruct (match_at ic r "") as [x|] eqn:E; [| contradiction].
    destruct H as [<- | []]. destruct (match_at_sound _ _ E) as (w & Hs & Hm).
    exists w. split; [| assumption]. now exists "", (after x).
  - destruct skip as [|skip]; simpl in H.
    + destruct (match_at ic r (String a s)) as [x|] eqn:E.
      * destruct H as [<- | H].
        -- destruct (match_at_sound _ _ E) as (w & Hs & Hm).
           exists w. split; [| assumption]. now exists "", (after x).
        -- apply shift. eapply IH; eauto.
      * apply shift. eapply IH; eauto.
    + apply shift. eapply IH; eauto.
Qed.

Lemma finditer_sound (r : regex) (s : string) (c : caps) :
  In c (finditer ic r s) ->
  exists w, occurs_in w s /\ matches ic r w [] c.
Proof. apply finditer_from_sound. Qed.

End Soundness.

(** ** The primitives on small inputs

    The expected values are those of CPython 3.11. *)

Example splitlines_example :
  Py.splitlines ("a" ++ LF ++ LF ++ "b" ++ String (ascii_of_nat 13) LF ++ "c" ++ LF)
  = ["a"; ""; "b"; "c"].
Proof. reflexivity. Qed.

Example title_example : Py.title "aB-cd e1f" = "Ab-Cd E1F".
Proof. reflexivity. Qed.

Example capitalize_example : Py.capitalize "rOUNDNESS" = "Roundness".
Proof. reflexivity. Qed.

Example strip_example : Py.strip "  #1 = X ;  " = "#1 = X ;".
Proof. reflexivity. Qed.

Example datum_line_example :
  re_match false datum_line_re "#522=DATUM('Datum29@Boss1(A)',$,#23,.F.,'A');"
  = Some [(3, "A"); (2, "Datum29@Boss1(A)"); (1, "522")].
Proof. vm_compute. reflexivity. Qed.

Example datum_line_must_start_the_line :
  re_match false datum_line_re " #522=DATUM('Datum29@Boss1(A)',$,#23,.F.,'A');"
  = None.
Proof. vm_compute. reflexivity. Qed.

Example shape_aspect_example :
  map (fun m => (group m 1, group m 2, group m 3))
      (finditer false shape_aspect_pattern
                "#5=SHAPE_ASPECT('plane1(x',#7) #6 = SHAPE_ASPECT('a(b(',$,#12,#3)")
  = [(Some "plane1", Some "x", Some "7"); (Some "a(b", None, Some "3")].
Proof. vm_compute. reflexivity. Qed.

Example tol_pattern_ignores_case :
  map (fun m => (group_str m 1, group_str m 2, group_str m 3, group_str m 4))
      (finditer true tol_pattern
                "#21 = roundness_tolerance( 'x' , '' , #3 #20=FLATNESS_TOLERANCE('','',#1")
  = [("#21", "roundness", "x", "#3"); ("#20", "FLATNESS", "", "#1")].
Proof. vm_compute. reflexivity. Qed.

Example datum_feature_example :
  option_map (fun m => group_str m 1)
             (search false datum_feature_re "#1=DATUM_FEATURE('a(b)(C)',#2)")
  = Some "C".
Proof. vm_compute. reflexivity. Qed.

Example value_example :
  option_map (fun m => group_str m 1)
             (search false value_re
                     "#30=LENGTH_MEASURE_WITH_UNIT(LENGTH_MEASURE(0.05),#2);")
  = Some "0.05".
Proof. vm_compute. reflexivity. Qed.

(** 0.1 is 0x1.999999999999ap-4. *)
Example float_of_string_example :
  F64.of_string "0.1" = Ok (S754_finite false 7205759403792794 (-56)).
Proof. vm_compute. reflexivity. Qed.

Example float_of_string_rejects :
  map F64.of_string ["1_"; "_1"; "1__0"; "."; "e5"; "1e"; "+ 1"; "0x10"; ""]
  = repeat (Raise ValueError) 9.
Proof. vm_compute. reflexivity. Qed.

(** [float] does not skip the separators FS to US, which [strip] removes. *)
Example float_keeps_separators :
  map (fun c => F64.of_string (String (ascii_of_nat c) "1.0")) [28; 29; 30; 31]
  = repeat (Raise ValueError) 4
  /\ map (fun c => Py.strip (String (ascii_of_nat c) "1.0")) [28; 29; 30; 31]
     = repeat "1.0" 4
  /\ F64.of_string (String (ascii_of_nat 12) " 1.0 ") = F64.of_string "1.0".
Proof. repeat split; vm_compute; reflexivity. Qed.

Example format_3f_example :
  map (fun s => match F64.of_string s with
                | Ok x => F64.format_3f x
                | Raise _ => "ValueError"
                end)
      ["0.1"; "-0.1"; "10.0"; "1.E-3"; "0.0005"; "0.0015"; "2.675"; " 1_0.5e-1 ";
       "-0.0001"; "1e400"; "-Infinity"; "nan"; "123456789.123456789"]
  = ["0.100"; "-0.100"; "10.000"; "0.001"; "0.001"; "0.002"; "2.675"; "1.050";
     "-0.000"; "inf"; "-inf"; "nan"; "123456789.123"].
Proof. vm_compute. reflexivity. Qed.

Example repr_example :
  map (fun s => match F64.of_string s with
                | Ok x => F64.repr x
                | Raise _ => "ValueError"
                end)
      ["0.1"; "10.0"; "1e3"; "1e16"; "1234567890123456"; "0.0001"; "0.00001";
       "123456789.123456789"; "5e-324"; "1.7976931348623157e308";
       "9007199254740993"; "0.30000000000000004"; "1e23"; "9.5367431640625e-07"]
  = ["0.1"; "10.0"; "1000.0"; "1e+16"; "1234567890123456.0"; "0.0001"; "1e-05";
     "123456789.12345679"; "5e-324"; "1.7976931348623157e+308";
     "9007199254740992.0"; "0.30000000000000004"; "1e+23"; "9.5367431640625e-07"].
Proof. vm_compute. reflexivity. Qed.

Example int_limit_example :
  Py.int (repeat_text 4300 "9") <> Raise ValueError
  /\ Py.int (repeat_text 4301 "0") = Raise ValueError.
Proof. split; [vm_compute; discriminate | vm_compute; reflexivity]. Qed.

(** Unfolds [matches] along the items of a pattern; [H] has its pattern
    unfolded to a [seq]. *)
Ltac open_matches H :=
  cbn [matches seq star plus star_lazy] in H;
  repeat match goal with
         | X : exists _, _ |- _ => destruct X
         | X : _ /\ _ |- _ => destruct X
         | X : _ \/ _ |- _ => destruct X
         end;
  subst.

(** ** What the source patterns capture *)

Lemma single_of_cls (p : ascii -> bool) (a : ascii) :
  cls_ok false (OneOf p) a = true -> single p (String a "").
Proof.
  simpl. unfold in_set. simpl. rewrite orb_false_r. intros H. now exists a.
Qed.

Lemma datum_line_letter (line : string) (m : caps) :
  re_match false datum_line_re line = Some m ->
  single Py.is_upper (group_str m 3).
Proof.
  intros H. apply re_match_sound in H. destruct H as (w & post & -> & H).
  unfold datum_line_re in H. open_matches H.
  cbn. now apply single_of_cls.
Qed.

Lemma shape_aspect_letter (text : string) (m : caps) :
  In m (finditer false shape_aspect_pattern text) ->
  Py.truthy_opt (group m 2) = true ->
  single Py.is_word (group_str m 2).
Proof.
  intros H. apply finditer_sound in H. destruct H as (w & _ & H).
  unfold shape_aspect_pattern in H. open_matches H; cbn; try discriminate;
    intros _; now apply single_of_cls.
Qed.

Lemma paren_letter_upper (s : string) (m : caps) :
  search false paren_letter_re s = Some m ->
  single Py.is_upper (group_str m 1).
Proof.
  intros H. apply search_sound in H. destruct H as (w & _ & H).
  unfold paren_letter_re in H. open_matches H.
  cbn. now apply single_of_cls.
Qed.

Lemma datum_feature_upper (s : string) (m : caps) :
  search false datum_feature_re s = Some m ->
  single Py.is_upper (group_str m 1).
Proof.
  intros H. apply search_sound in H. destruct H as (w & _ & H).
  unfold datum_feature_re in H. open_matches H.
  cbn. now apply single_of_cls.
Qed.

(** ** A lower-cased text holds no upper-case letter *)

Lemma lower_char_not_upper (a : ascii) : Py.is_upper (Py.lower_char a) = false.
Proof. destruct a as [[] [] [] [] [] [] [] []]; reflexivity. Qed.

Lemma lower_no_upper (s : string) :
  Py.all_chars (fun a => negb (Py.is_upper a)) (Py.lower s) = true.
Proof.
  induction s as [|a s IH]; [reflexivity |].
  cbn. fold (Py.lower s). now rewrite lower_char_not_upper, IH.
Qed.

Lemma occurs_in_head (x z : string) : occurs_in x (x ++ z).
Proof. now exists "", z. Qed.

Lemma occurs_in_append_r (x y z : string) : occurs_in x z -> occurs_in x (y ++ z).
Proof.
  intros (u & v & ->). exists (y ++ u), v. now rewrite append_assoc.
Qed.

Lemma no_upper_inside (pre w post : string) (a : ascii) :
  Py.all_chars (fun a => negb (Py.is_upper a)) (pre ++ w ++ post) = true ->
  occurs_in (String a "") w ->
  Py.is_upper a = false.
Proof.
  intros H (u & v & ->).
  rewrite !all_chars_append in H. cbn in H.
  repeat (apply andb_prop in H; destruct H as [? H]).
  repeat match goal with X : _ && _ = true |- _ => apply andb_prop in X; destruct X end.
  now destruct (Py.is_upper a).
Qed.

(** Methods 1 and 2 of [find_datum_for_dimensional_tolerance] look for an
    upper-case letter in a name that line 215 has lower-cased: they never
    find one. *)
Lemma paren_letter_never_in_lower (s : string) :
  search false paren_letter_re (Py.lower s) = None.
Proof.
  destruct (search false paren_letter_re (Py.lower s)) as [m|] eqn:E; [| reflexivity].
  exfalso. apply search_sound in E. destruct E as (w & (pre & post & E) & H).
  unfold paren_letter_re in H. open_matches H.
  match goal with X : cls_ok false upper_AZ ?a = true |- _ =>
    assert (Py.is_upper a = false) as Hn
  end.
  { eapply no_upper_inside; [rewrite <- E; apply lower_no_upper |].
    repeat first [apply occurs_in_head | apply occurs_in_append_r]. }
  match goal with X : cls_ok false upper_AZ _ = true |- _ =>
    cbn in X; unfold in_set in X; simpl in X; rewrite orb_false_r in X;
    congruence
  end.
Qed.

Lemma datum_at_letter_never_in_lower (s : string) :
  search false datum_at_letter_re (Py.lower s) = None.
Proof.
  destruct (search false datum_at_letter_re (Py.lower s)) as [m|] eqn:E;
    [| reflexivity].
  exfalso. apply search_sound in E. destruct E as (w & (pre & post & E) & H).
  unfold datum_at_letter_re in H. open_matches H.
  match goal with X : cls_ok false upper_AZ ?a = true |- _ =>
    assert (Py.is_upper a = false) as Hn
  end.
  { eapply no_upper_inside; [rewrite <- E; apply lower_no_upper |].
    repeat first [apply occurs_in_head | apply occurs_in_append_r]. }
  match goal with X : cls_ok false upper_AZ _ = true |- _ =>
    cbn in X; unfold in_set in X; simpl in X; rewrite orb_false_r in X;
    congruence
  end.
Qed.

(** ** Dictionaries *)

Lemma keys_set (V : Type) (d : Dict.dict V) (k : string) (v : V) (k' : string) :
  In k' (Dict.keys (Dict.set d k v)) <-> k' = k \/ In k' (Dict.keys d).
Proof.
  induction d as [|[k0 v0] d IH]; simpl.
  - intuition.
  - destruct (String.eqb_spec k0 k) as [-> |]; simpl; [intuition | ].
    rewrite IH. intuition.
Qed.

Lemma get_set_same (V : Type) (d : Dict.dict V) (k : string) (v : V) :
  Dict.get (Dict.set d k v) k = Some v.
Proof.
  induction d as [|[k0 v0] d IH]; simpl.
  - now rewrite String.eqb_refl.
  - destruct (String.eqb_spec k0 k) as [-> | Hn]; simpl.
    + now rewrite String.eqb_refl.
    + apply String.eqb_neq in Hn. now rewrite Hn.
Qed.

Lemma get_in_keys (V : Type) (d : Dict.dict V) (k : string) (v : V) :
  Dict.get d k = Some v -> In k (Dict.keys d).
Proof.
  induction d as [|[k0 v0] d IH]; simpl; [discriminate |].
  destruct (String.eqb_spec k0 k) as [-> |]; auto.
Qed.

Lemma mem_in_keys (V : Type) (d : Dict.dict V) (k : string) :
  Dict.mem k d = true -> In k (Dict.keys d).
Proof.
  unfold Dict.mem. destruct (Dict.get d k) eqn:E; [| discriminate].
  intros _. eapply get_in_keys; eauto.
Qed.

Lemma find_in_keys (V : Type) (f : string * V -> bool) (d : Dict.dict V)
      (kv : string * V) :
  find f d = Some kv -> In (fst kv) (Dict.keys d).
Proof.
  intros H. apply find_some in H. destruct H as [H _].
  unfold Dict.keys. now apply in_map.
Qed.

Lemma first_some_found (A B : Type) (f : A -> option B) (xs : list A) (b : B) :
  first_some f xs = Some b -> exists x, In x xs /\ f x = Some b.
Proof.
  induction xs as [|x xs IH]; simpl; [discriminate |].
  destruct (f x) eqn:E.
  - intros [= <-]. exists x. auto.
  - intros H. destruct (IH H) as (y & ? & ?). exists y. auto.
Qed.

(** ** The two datum maps agree on their keys *)

Lemma scan_datum_line_agree (line : string) (maps maps' : datum_maps) :
  maps_agree maps -> scan_datum_line line maps = Ok maps' -> maps_agree maps'.
Proof.
  unfold scan_datum_line, maps_agree. intros Hm H.
  destruct (re_match false datum_line_re line) as [m|]; [| now injection H as <-].
  destruct (datum_location (group_str m 2) (group_str m 3)); simpl in H;
    [| discriminate].
  injection H as <-. simpl. intros k Hk.
  apply keys_set in Hk. apply keys_set. destruct Hk; auto.
Qed.

Lemma for_each_invariant (A S : Type) (body : A -> S -> result S) (P : S -> Prop) :
  (forall x acc acc', P acc -> body x acc = Ok acc' -> P acc') ->
  forall xs acc acc', P acc -> for_each body xs acc = Ok acc' -> P acc'.
Proof.
  intros step. induction xs as [|x xs IH]; simpl; intros acc acc' Hp H.
  - now injection H as <-.
  - destruct (body x acc) eqn:E; simpl in H; [| discriminate]. eauto.
Qed.

Lemma fold_left_invariant (A S : Type) (f : S -> A -> S) (P : S -> Prop) :
  (forall acc x, P acc -> P (f acc x)) ->
  forall xs acc, P acc -> P (fold_left f xs acc).
Proof.
  intros step. induction xs as [|x xs IH]; simpl; auto.
Qed.

Lemma scan_datums_agree (lines : list string) (maps : datum_maps) :
  scan_datums lines = Ok maps -> maps_agree maps.
Proof.
  unfold scan_datums. apply for_each_invariant.
  - intros x acc acc' Ha Hb. eapply scan_datum_line_agree; eauto.
  - unfold maps_agree. simpl. intros k [].
Qed.

Lemma scan_shape_aspects_keeps_keys (text : string) (d : Dict.dict string) :
  incl (Dict.keys d) (Dict.keys (scan_shape_aspects text d)).
Proof.
  unfold scan_shape_aspects.
  apply fold_left_invariant with (P := fun d' => incl (Dict.keys d) (Dict.keys d')).
  - intros acc m Hacc. unfold scan_shape_aspect.
    destruct (Py.truthy_opt (group m 2)); [| assumption].
    intros k Hk. apply keys_set. auto.
  - apply incl_refl.
Qed.

Lemma run_extraction_inv (text : string) (st : run_state) :
  run_extraction text = Ok st ->
  exists scanned,
    scan_datums (Py.splitlines text) = Ok scanned
    /\ run_maps st =
       {| datum_results := scan_shape_aspects text (datum_results scanned);
          datum_letter_to_feature := datum_letter_to_feature scanned |}
    /\ run_tolerances st =
       extract_tolerances text (run_maps st)
                          (build_line_dict (Py.splitlines text)) (Py.splitlines text)
    /\ run_dimensional st =
       extract_dimensional_tolerances
         text (build_line_dict (Py.splitlines text)) (run_maps st).
Proof.
  unfold run_extraction. destruct (scan_datums (Py.splitlines text)) as [scanned|];
    simpl; [| discriminate].
  intros [= <-]. exists scanned. simpl. auto.
Qed.

Lemma run_maps_agree (text : string) (st : run_state) :
  run_extraction text = Ok st -> maps_agree (run_maps st).
Proof.
  intros H. destruct (run_extraction_inv _ H) as (scanned & Hs & -> & _).
  unfold maps_agree. simpl. eapply incl_tran.
  - eapply scan_datums_agree; eauto.
  - apply scan_shape_aspects_keeps_keys.
Qed.

Lemma fold_left_invariant_in (A S : Type) (f : S -> A -> S) (P : S -> Prop)
      (xs : list A) :
  (forall acc x, In x xs -> P acc -> P (f acc x)) ->
  forall acc, P acc -> P (fold_left f xs acc).
Proof.
  induction xs as [|x xs IH]; simpl; intros step acc Hp; [assumption |].
  apply IH; auto.
Qed.

Lemma Forall_keys_set (P : string -> Prop) (d : Dict.dict string) (k v : string) :
  P k -> Forall P (Dict.keys d) -> Forall P (Dict.keys (Dict.set d k v)).
Proof.
  rewrite !Forall_forall. intros Hk Hd x Hx.
  apply keys_set in Hx. destruct Hx as [-> |]; auto.
Qed.

(** ** The keys of the datum map *)

Lemma scan_datums_keys (lines : list string) (maps : datum_maps) :
  scan_datums lines = Ok maps ->
  Forall (single Py.is_upper) (Dict.keys (datum_results maps))
  /\ Forall (single Py.is_upper) (Dict.keys (datum_letter_to_feature maps)).
Proof.
  unfold scan_datums.
  apply for_each_invariant
    with (P := fun maps =>
                 Forall (single Py.is_upper) (Dict.keys (datum_results maps))
                 /\ Forall (single Py.is_upper)
                           (Dict.keys (datum_letter_to_feature maps))).
  - intros line acc acc' [Hr Hf] H. unfold scan_datum_line in H.
    destruct (re_match false datum_line_re line) as [m|] eqn:E;
      [| now injection H as <-].
    destruct (datum_location (group_str m 2) (group_str m 3)); simpl in H;
      [| discriminate].
    injection H as <-. simpl.
    split; apply Forall_keys_set; auto; eapply datum_line_letter; eauto.
  - simpl. split; constructor.
Qed.


Lemma scan_shape_aspects_keys (text : string) (d : Dict.dict string) :
  Forall (single Py.is_upper) (Dict.keys d) ->
  Forall (fun k => single Py.is_upper k \/ shape_aspect_key text k)
         (Dict.keys (scan_shape_aspects text d)).
Proof.
  intros Hd. unfold scan_shape_aspects.
  apply fold_left_invariant_in
    with (P := fun d' =>
                 Forall (fun k => single Py.is_upper k \/ shape_aspect_key text k)
                        (Dict.keys d')).
  - intros acc m Hin Hacc. unfold scan_shape_aspect.
    destruct (Py.truthy_opt (group m 2)) eqn:E; [| assumption].
    apply Forall_keys_set; [| assumption].
    right. split.
    + eapply shape_aspect_letter; eauto.
    + exists m. split; [assumption |]. unfold group_str.
      destruct (group m 2); [reflexivity | discriminate].
  - eapply Forall_impl; [| exact Hd]. auto.
Qed.

(** ** The datum letter of a geometric tolerance *)

Lemma char_eq_exact (a b : ascii) : char_eq false a b = true -> b = a.
Proof.
  unfold char_eq. rewrite orb_false_r. intros H. apply Ascii.eqb_eq in H. now subst.
Qed.

(** A text that matches a literal with regard to case is the literal. *)
Lemma lit_rest_exact (l w : string) : lit_rest false l w = Some "" -> w = l.
Proof.
  revert w. induction l as [|a l IH]; intros [|b w] H; simpl in H;
    try discriminate; [reflexivity |].
  destruct (char_eq false a b) eqn:E; [| discriminate].
  apply char_eq_exact in E. subst b. f_equal. now apply IH.
Qed.

Lemma digits_of_class (s : string) :
  Py.all_chars (cls_ok false digit) s = true -> 1 <= String.length s ->
  is_number s = true.
Proof.
  intros H Hl. unfold is_number.
  replace (Py.truthy s) with true by (destruct s; [simpl in Hl; lia | reflexivity]).
  cbn [andb]. revert H. clear. induction s as [|a s IH]; simpl; [reflexivity |].
  unfold in_set. simpl. rewrite orb_false_r. intros H.
  apply andb_prop in H. destruct H as [-> H]. now apply IH.
Qed.

Lemma occurs_in_tail (x y s : string) : occurs_in (x ++ y) s -> occurs_in y s.
Proof.
  intros (pre & post & ->). exists (pre ++ x), post. now rewrite !append_assoc.
Qed.

(** What the three patterns of methods 1 and 3 find, in terms of the text
    they are given. *)
Lemma paren_letter_read (s : string) (m : caps) :
  search false paren_letter_re s = Some m -> read_in_name s (group_str m 1).
Proof.
  intros H. split; [eapply paren_letter_upper; eauto |].
  apply search_sound in H. destruct H as (w & Hw & H).
  unfold paren_letter_re in H. open_matches H.
  repeat match goal with
         | X : lit_rest false _ _ = Some "" |- _ => apply lit_rest_exact in X; subst
         end.
  exact Hw.
Qed.

Lemma datum_feature_read (line : string) (m : caps) :
  search false datum_feature_re line = Some m ->
  single Py.is_upper (group_str m 1)
  /\ occurs_in ("(" ++ group_str m 1 ++ ")'") line.
Proof.
  intros H. split; [eapply datum_feature_upper; eauto |].
  apply search_sound in H. destruct H as (w & Hw & H).
  unfold datum_feature_re in H. open_matches H.
  repeat match goal with
         | X : lit_rest false _ _ = Some "" |- _ => apply lit_rest_exact in X; subst
         end.
  cbn [group_str group Nat.eqb].
  do 4 apply occurs_in_tail in Hw. exact Hw.
Qed.

Lemma hash_number_read (s : string) (m : caps) :
  In m (finditer false hash_number_re s) ->
  is_number (group_str m 1) = true /\ occurs_in ("#" ++ group_str m 1) s.
Proof.
  intros H. apply finditer_sound in H. destruct H as (w & Hw & H).
  unfold hash_number_re in H. open_matches H.
  repeat match goal with
         | X : lit_rest false _ _ = Some "" |- _ => apply lit_rest_exact in X; subst
         end.
  cbn [group_str group Nat.eqb]. split; [now apply digits_of_class | exact Hw].
Qed.

Lemma datum_feature_letter_read (lines : list string) (entity letter : string) :
  datum_feature_letter lines entity = Some letter ->
  single Py.is_upper letter
  /\ exists line,
      In line lines
      /\ Py.contains "DATUM_FEATURE" line = true
      /\ Py.contains ("#" ++ entity) line = true
      /\ occurs_in ("(" ++ letter ++ ")'") line.
Proof.
  unfold datum_feature_letter. intros H.
  apply first_some_found in H. destruct H as (line & Hin & H).
  destruct (Py.contains "DATUM_FEATURE" line) eqn:Ed; [| discriminate].
  destruct (Py.contains ("#" ++ entity) line) eqn:Ee; [| discriminate].
  cbn [andb] in H.
  destruct (search false datum_feature_re line) as [m|] eqn:E; [| discriminate].
  injection H as <-. destruct (datum_feature_read _ E) as [Hs Ho].
  split; [assumption |]. exists line. auto.
Qed.

Section Resolution.

Variable maps : datum_maps.
Hypothesis agree : maps_agree maps.
Variable line_dict : Dict.dict string.
Variable lines : list string.

Section OneTolerance.

Variables tol_id tol_name : string.

Lemma method1_letter :
  resolved_ok maps line_dict lines tol_id tol_name
              (method1 (datum_results maps) tol_name).
Proof.
  unfold resolved_ok, method1, letter_known_or_read.
  destruct (search false paren_letter_re tol_name) as [m|] eqn:E; cbn [fst].
  - right. right. left. now apply paren_letter_read.
  - now left.
Qed.

Lemma method2_letter (r : resolution) :
  resolved_ok maps line_dict lines tol_id tol_name r ->
  resolved_ok maps line_dict lines tol_id tol_name
              (method2 (datum_results maps) tol_name r).
Proof.
  unfold resolved_ok, method2, letter_known_or_read. intros H.
  destruct (negb (Py.truthy (fst r))); [| assumption].
  match goal with |- context [find ?f ?d] => destruct (find f d) as [[k v]|] eqn:E end;
    [| assumption].
  right. left. apply (find_in_keys _ _ E).
Qed.

Lemma method3_letter (r : resolution) :
  resolved_ok maps line_dict lines tol_id tol_name r ->
  resolved_ok maps line_dict lines tol_id tol_name
              (method3 (datum_results maps) line_dict lines tol_id r).
Proof.
  unfold resolved_ok, method3, letter_known_or_read. intros H.
  destruct (negb (Py.truthy (fst r))); [| assumption].
  match goal with |- context [first_some ?f ?d] => destruct (first_some f d) eqn:E end;
    [| assumption].
  right. right. right. cbn [fst].
  apply first_some_found in E. destruct E as (entity & Hin & E).
  apply in_map_iff in Hin. destruct Hin as (m & <- & Hm).
  destruct (hash_number_read _ _ Hm) as [Hn Ho].
  destruct (datum_feature_letter_read _ _ E) as (Hs & line & Hl & Hd & He & Hp).
  split; [assumption |]. exists line, (group_str m 1). auto 7.
Qed.

Lemma datum_of_feature_letter (key letter : string) :
  letter_known_or_read (Dict.keys (datum_results maps)) line_dict lines
                       tol_id tol_name letter ->
  letter_known_or_read
    (Dict.keys (datum_results maps)) line_dict lines tol_id tol_name
    (datum_of_feature (datum_letter_to_feature maps) key letter).
Proof.
  unfold datum_of_feature. intros H.
  destruct (Py.truthy letter); [assumption |].
  match goal with |- context [find ?f ?d] => destruct (find f d) as [[k v]|] eqn:E end;
    [| assumption].
  right. left. apply agree. apply (find_in_keys _ _ E).
Qed.

Lemma method4_letter (r : resolution) :
  resolved_ok maps line_dict lines tol_id tol_name r ->
  resolved_ok maps line_dict lines tol_id tol_name
              (method4 (datum_letter_to_feature maps) tol_name r).
Proof.
  unfold resolved_ok, method4. intros H.
  destruct (negb (Py.truthy (snd r))); [| assumption].
  repeat match goal with
         | |- context [if ?b then _ else _] => destruct b
         end; cbn [fst]; auto using datum_of_feature_letter.
Qed.

Lemma method5_letter (r : resolution) :
  resolved_ok maps line_dict lines tol_id tol_name r ->
  resolved_ok maps line_dict lines tol_id tol_name
              (method5 (datum_results maps) r).
Proof.
  unfold resolved_ok, method5, letter_known_or_read. intros H.
  destruct (negb (Py.truthy (fst r)) && Py.truthy (snd r)); [| assumption].
  match goal with |- context [find ?f ?d] => destruct (find f d) as [[k v]|] eqn:E end;
    [| assumption].
  right. left. apply (find_in_keys _ _ E).
Qed.

Lemma straightness_datum_letter (current_count : nat) (r : resolution) :
  resolved_ok maps line_dict lines tol_id tol_name r ->
  resolved_ok maps line_dict lines tol_id tol_name
              (straightness_datum (datum_results maps) current_count r).
Proof.
  unfold resolved_ok, straightness_datum, letter_known_or_read. intros H.
  destruct (Dict.keys (datum_results maps)) as [|k0 ks] eqn:Ek; [assumption |].
  right. left. cbn [fst].
  destruct (Nat.ltb current_count (length (k0 :: ks))) eqn:El.
  - apply nth_In. apply Nat.mod_upper_bound. discriminate.
  - now left.
Qed.

Lemma method6_letter (label : string) (current_count : nat) (r : resolution) :
  resolved_ok maps line_dict lines tol_id tol_name r ->
  resolved_ok maps line_dict lines tol_id tol_name
              (method6 (datum_results maps) label current_count r).
Proof.
  unfold method6. intros H.
  destruct (negb (Py.truthy (snd r))); [| assumption].
  destruct (in_list (Py.lower label) ["cylindricity"; "circularity"]).
  { match goal with |- context [find ?f ?d] => destruct (find f d) as [[k v]|] eqn:E end;
      [| assumption].
    right. left. apply (find_in_keys _ _ E). }
  destruct (in_list (Py.lower label) ["flatness"]).
  { match goal with |- context [find ?f ?d] => destruct (find f d) as [[k v]|] eqn:E end;
      [| assumption].
    right. left. apply (find_in_keys _ _ E). }
  destruct (in_list (Py.lower label) ["straightness"]); [| assumption].
  now apply straightness_datum_letter.
Qed.

Lemma resolve_datum_letter (label : string) (current_count : nat) :
  letter_known_or_read
    (Dict.keys (datum_results maps)) line_dict lines tol_id tol_name
    (fst (resolve_datum maps line_dict lines tol_id tol_name label current_count)).
Proof.
  unfold resolve_datum.
  apply method6_letter, method5_letter, method4_letter, method3_letter,
    method2_letter, method1_letter.
Qed.

End OneTolerance.

(** The entries that the loop appends, each next to the match it comes
    from. *)
Lemma extract_tolerances_letters (text : string) :
  Forall2 (fun m t =>
             letter_known_or_read
               (Dict.keys (datum_results maps)) line_dict lines
               (group_str m 1) (group_str m 3) (tr_datum t))
          (finditer true tol_pattern text)
          (extract_tolerances text maps line_dict lines).
Proof.
  unfold extract_tolerances.
  assert (H : forall ms acc,
             exists added,
               fold_left (extract_tolerance maps line_dict lines) ms acc
               = (acc ++ added)%list
               /\ Forall2 (fun m t =>
                             letter_known_or_read
                               (Dict.keys (datum_results maps)) line_dict lines
                               (group_str m 1) (group_str m 3) (tr_datum t))
                          ms added).
  { induction ms as [|m ms IH]; intros acc; cbn [fold_left].
    - exists []. rewrite app_nil_r. split; [reflexivity | constructor].
    - destruct (IH (extract_tolerance maps line_dict lines acc m))
        as (added & -> & Hf).
      unfold extract_tolerance at 1. rewrite <- app_assoc. cbn [app].
      eexists. split; [reflexivity |].
      constructor; [| exact Hf]. cbn [tr_datum]. apply resolve_datum_letter. }
  destruct (H (finditer true tol_pattern text) []) as (added & -> & Hf).
  exact Hf.
Qed.

End Resolution.

(** ** The datum letter of a dimensional row *)

Lemma insert_sorted_in (x y : string) (xs : list string) :
  In y (insert_sorted x xs) -> y = x \/ In y xs.
Proof.
  induction xs as [|z xs IH]; simpl.
  - intuition.
  - destruct (String.leb x z); simpl; intuition.
Qed.

Lemma sorted_in (y : string) (xs : list string) : In y (sorted xs) -> In y xs.
Proof.
  induction xs as [|x xs IH]; simpl; [auto |].
  intros H. apply insert_sorted_in in H. intuition.
Qed.

Lemma list_index_in (A : Type) (xs : list A) (i : Z) (x : A) :
  list_index xs i = Ok x -> In x xs.
Proof.
  unfold list_index.
  destruct (Z.ltb (if Z.ltb i 0 then (i + Z.of_nat (length xs))%Z else i) 0);
    [discriminate |].
  match goal with |- context [nth_error ?l ?n] => destruct (nth_error l n) eqn:E end;
    [| discriminate].
  intros [= <-]. eapply nth_error_In; eauto.
Qed.

Section DimensionalDatum.

Variable maps : datum_maps.
Hypothesis agree : maps_agree maps.

Lemma first_located_known (words : list string) (k : string) :
  first_located (datum_results maps) words = Some k ->
  In k (Dict.keys (datum_results maps)).
Proof.
  unfold first_located.
  match goal with |- context [find ?f ?d] => destruct (find f d) as [kv|] eqn:E end;
    [| discriminate].
  intros [= <-]. apply (find_in_keys _ _ E).
Qed.

Lemma first_key_known (k : string) :
  first_key (datum_results maps) = Ok k ->
  In k (Dict.keys (datum_results maps)).
Proof. apply list_index_in. Qed.

Lemma dim_method3_known (fname k : string) :
  dim_method3 fname (datum_results maps) = Ok (Some k) ->
  In k (Dict.keys (datum_results maps)).
Proof.
  unfold dim_method3.
  destruct (Py.contains "boss" fname || Py.contains "cylinder" fname).
  { destruct (first_located (datum_results maps) ["cylindrical"]) eqn:E.
    - intros [= <-]. eapply first_located_known; eauto.
    - destruct (datum_results maps) eqn:Ed; [discriminate |]. rewrite <- Ed.
      destruct (first_key (datum_results maps)) eqn:Ek; simpl; [| discriminate].
      intros [= <-]. now apply first_key_known. }
  destruct (Py.contains "plane" fname); [| discriminate].
  destruct (search false plane_number_re fname) as [m|]; simpl.
  - destruct (Py.int (group_str m 1)) as [plane_num|]; simpl; [| discriminate].
    destruct (Z.leb plane_num
                    (Z.of_nat (length (sorted (Dict.keys (datum_results maps)))))).
    + destruct (list_index (sorted (Dict.keys (datum_results maps)))
                           (plane_num - 1)) eqn:Ei; simpl; [| discriminate].
      intros [= <-]. apply list_index_in in Ei. now apply sorted_in.
    + simpl. intros [= H]. eapply first_located_known; eauto.
  - intros [= H]. eapply first_located_known; eauto.
Qed.

Lemma dim_method4_known (fname k : string) :
  dim_method4 fname (datum_letter_to_feature maps) = Some k ->
  In k (Dict.keys (datum_results maps)).
Proof.
  unfold dim_method4.
  match goal with |- context [find ?f ?d] => destruct (find f d) as [kv|] eqn:E end;
    [| discriminate].
  intros [= <-]. apply agree. apply (find_in_keys _ _ E).
Qed.

Lemma dim_method5_known (fname k : string) :
  dim_method5 fname (datum_results maps) = Ok k ->
  letter_known (Dict.keys (datum_results maps)) k.
Proof.
  unfold dim_method5, letter_known.
  destruct (datum_results maps) eqn:Ed; [intros [= <-]; now left |].
  rewrite <- Ed. intros H. right.
  repeat match type of H with
         | context [if ?b then _ else _] => destruct b eqn:?
         end;
    try (injection H as <-; now apply mem_in_keys);
    try (destruct (first_located _ _) eqn:?;
         [injection H as <-; eapply first_located_known; eauto
         | now apply first_key_known]);
    now apply first_key_known.
Qed.

Lemma find_datum_known (feature_name k : string) :
  find_datum_for_dimensional_tolerance
    feature_name (datum_results maps) (datum_letter_to_feature maps) = Ok k ->
  letter_known (Dict.keys (datum_results maps)) k.
Proof.
  unfold find_datum_for_dimensional_tolerance.
  destruct (negb (Py.truthy feature_name)); [intros [= <-]; now left |].
  rewrite datum_at_letter_never_in_lower, paren_letter_never_in_lower.
  destruct (dim_method3 (Py.lower feature_name) (datum_results maps))
    as [[k3|]|] eqn:E3; simpl; [| | discriminate].
  - intros [= <-]. right. eapply dim_method3_known; eauto.
  - destruct (dim_method4 (Py.lower feature_name) (datum_letter_to_feature maps))
      eqn:E4.
    + intros [= <-]. right. eapply dim_method4_known; eauto.
    + apply dim_method5_known.
Qed.

Lemma location_datum_known (name1 name2 k : string) :
  location_datum maps name1 name2 = Ok k ->
  letter_known (Dict.keys (datum_results maps)) k.
Proof.
  unfold location_datum.
  destruct (if Py.truthy name1 then _ else _) as [d1|] eqn:E1; simpl;
    [| discriminate].
  assert (H1 : letter_known (Dict.keys (datum_results maps)) d1).
  { destruct (Py.truthy name1); [now apply find_datum_known in E1 |].
    injection E1 as <-. now left. }
  destruct (if negb (Py.truthy d1) && Py.truthy name2 then _ else _) as [d2|] eqn:E2;
    simpl; [| discriminate].
  assert (H2 : letter_known (Dict.keys (datum_results maps)) d2).
  { destruct (negb (Py.truthy d1) && Py.truthy name2);
      [now apply find_datum_known in E2 | now injection E2 as <-]. }
  destruct (negb (Py.truthy d2)); [apply find_datum_known |].
  now intros [= <-].
Qed.

Lemma size_row_known (text : string) (line_dict : Dict.dict string)
      (tables : link_tables) (m : caps) (r : row) :
  size_row text line_dict maps tables m = Ok r ->
  letter_known (Dict.keys (datum_results maps)) (col_datum r).
Proof.
  unfold size_row.
  destruct (tolerance_columns _ _ _) as [[? ?] ?].
  destruct (find_datum_for_dimensional_tolerance _ _ _) eqn:E; simpl;
    [| discriminate].
  intros [= <-]. simpl. eapply find_datum_known; eauto.
Qed.

Lemma location_row_known (text : string) (line_dict : Dict.dict string)
      (tables : link_tables) (m : caps) (r : row) :
  location_row text line_dict maps tables m = Ok r ->
  letter_known (Dict.keys (datum_results maps)) (col_datum r).
Proof.
  unfold location_row.
  destruct (tolerance_columns _ _ _) as [[? ?] ?].
  destruct (location_datum _ _ _) eqn:E; simpl; [| discriminate].
  intros [= <-]. simpl. eapply location_datum_known; eauto.
Qed.

Lemma append_rows_all (A : Type) (f : A -> result row) (P : row -> Prop) :
  (forall x r, f x = Ok r -> P r) ->
  forall xs rows rows',
    Forall P rows -> append_rows f xs rows = Ok rows' -> Forall P rows'.
Proof.
  intros Hf xs rows rows'. unfold append_rows. apply for_each_invariant.
  intros x acc acc' Hacc H. destruct (f x) eqn:E; simpl in H; [| discriminate].
  injection H as <-. apply Forall_app. split; [assumption |].
  constructor; [eauto | constructor].
Qed.

Lemma extract_dimensional_known (text : string) (line_dict : Dict.dict string) :
  Forall (fun r => letter_known (Dict.keys (datum_results maps)) (col_datum r))
         (extract_dimensional_tolerances text line_dict maps).
Proof.
  unfold extract_dimensional_tolerances.
  destruct (dimensional_rows text line_dict maps) as [rows|] eqn:E; [| constructor].
  unfold dimensional_rows in E.
  destruct (append_rows (size_row _ _ _ _) _ []) as [sizes|] eqn:Es; simpl in E;
    [| discriminate].
  eapply append_rows_all; [| | exact E].
  - intros. eapply location_row_known; eauto.
  - eapply append_rows_all; [| | exact Es].
    + intros. eapply size_row_known; eauto.
    + constructor.
Qed.

End DimensionalDatum.

(** ** The matcher on a text of known shape *)


Lemma lit_rest_append (l s : string) : lit_rest false l (l ++ s) = Some s.
Proof.
  induction l as [|a l IH]; simpl; [reflexivity |].
  unfold char_eq. now rewrite Ascii.eqb_refl.
Qed.

Lemma rep_greedy_run (ic : bool) (A : Type) (p : cclass) (k : cont A) (c : caps)
      (x : A) (s : string) :
  stops_at ic p s = true ->
  k s c = Some x ->
  forall (w : string) (lo : nat),
    Py.all_chars (cls_ok ic p) w = true ->
    lo <= String.length w ->
    rep_greedy ic p lo (w ++ s) c k = Some x.
Proof.
  intros Hs Hk. induction w as [|a w IH]; intros lo Hw Hlo.
  - simpl in Hlo. assert (lo = 0) as -> by lia. simpl.
    destruct s as [|b s]; simpl; [assumption |].
    simpl in Hs. apply negb_true_iff in Hs. now rewrite Hs.
  - simpl in Hw. apply andb_prop in Hw. destruct Hw as [Ha Hw].
    simpl. rewrite Ha. rewrite IH; [reflexivity | assumption | simpl in Hlo; lia].
Qed.

Lemma free_of_all (cs : string) (p : ascii -> bool) (s : string) :
  (forall a, Py.contains (String a "") cs = false -> p a = true) ->
  free_of cs s = true -> Py.all_chars p s = true.
Proof.
  intros Hp. unfold free_of. induction s as [|a s IH]; simpl; [reflexivity |].
  intros H. apply andb_prop in H. destruct H as [Ha Hs].
  apply negb_true_iff in Ha. now rewrite (Hp _ Ha), IH.
Qed.

Lemma contains_char (a b : ascii) (cs : string) :
  Py.contains (String a "") (String b cs)
  = Ascii.eqb a b || Py.contains (String a "") cs.
Proof. simpl. now rewrite andb_true_r. Qed.

Lemma not_quote_of_free (cs : string) (a : ascii) :
  Py.contains "'" cs = true ->
  Py.contains (String a "") cs = false ->
  cls_ok false (none_of "'") a = true.
Proof.
  intros Hq Ha. cbn. unfold in_set. rewrite orb_false_r, andb_true_r.
  rewrite orb_false_r. apply negb_true_iff.
  destruct (Ascii.eqb_spec a "'") as [-> |]; [congruence | reflexivity].
Qed.

Lemma is_number_digits (s : string) :
  is_number s = true ->
  Py.all_chars (cls_ok false digit) s = true /\ 1 <= String.length s.
Proof.
  unfold is_number. intros H. apply andb_prop in H. destruct H as [Ht Hd]. split.
  - revert Hd. clear. induction s as [|a s IH]; simpl; [reflexivity |].
    intros H. apply andb_prop in H. destruct H as [Ha Hs].
    unfold in_set. now rewrite Ha, IH.
  - destruct s; [discriminate | simpl; lia].
Qed.

Section DatumLine.

Variables id X Y L n : string.
Hypothesis wf : well_formed id X Y L n.

Lemma datum_name_no_quote :
  Py.all_chars (cls_ok false (none_of "'")) (datum_name X Y L) = true.
Proof.
  destruct wf as [_ _ HX HY (a & -> & Ha)].
  apply andb_prop in HY. destruct HY as [_ HY].
  unfold datum_name. rewrite !all_chars_append.
  assert (Py.all_chars (cls_ok false (none_of "'")) X = true) as ->
      by (apply free_of_all with (cs := "'@");
          [intros b; now apply not_quote_of_free | assumption]).
  assert (Py.all_chars (cls_ok false (none_of "'")) Y = true) as ->
      by (apply free_of_all with (cs := "'(");
          [intros b; now apply not_quote_of_free | assumption]).
  cbn. unfold in_set. rewrite !orb_false_r, !andb_true_r.
  destruct (Ascii.eqb_spec a "'") as [-> |]; [discriminate | reflexivity].
Qed.

Lemma datum_line_match :
  re_match false datum_line_re (datum_line id X Y L n)
  = Some [(3, L); (2, datum_name X Y L); (1, id)].
Proof.
  destruct (is_number_digits _ (wf_id wf)) as [Hid Hid1].
  destruct (is_number_digits _ (wf_ref wf)) as [Hn Hn1].
  pose proof datum_name_no_quote as Hname.
  destruct (wf_letter wf) as (a & HL & Ha).
  unfold re_match.
  replace (match_at false datum_line_re (datum_line id X Y L n))
    with (Some {| groups := [(3, L); (2, datum_name X Y L); (1, id)];
                  after := "" |}); [reflexivity |].
  symmetry. unfold match_at, datum_line_re, datum_line.
  cbn [run seq plus star].
  rewrite (lit_rest_append "#").
  apply rep_greedy_run; [reflexivity | | exact Hid | exact Hid1].
  rewrite consumed_append, (lit_rest_append "=DATUM('").
  apply rep_greedy_run; [reflexivity | | exact Hname | lia].
  rewrite consumed_append, (lit_rest_append "',$,#").
  apply rep_greedy_run; [reflexivity | | exact Hn | exact Hn1].
  rewrite (lit_rest_append ",.F.,'").
  subst L. cbn. unfold in_set. rewrite Ha. reflexivity.
Qed.

End DatumLine.

Section DatumToken.

Variables id X Y L n : string.
Hypothesis wf : well_formed id X Y L n.

Lemma search_skips_prefix (s : string) :
  forall pre : string,
    free_of "'@" pre = true ->
    search_obj false at_feature_re (pre ++ s) = search_obj false at_feature_re s.
Proof.
  induction pre as [|a pre IH]; [reflexivity |].
  intros H. unfold free_of in H. cbn [Py.all_chars] in H. apply andb_prop in H.
  destruct H as [Ha Hpre]. apply negb_true_iff in Ha.
  rewrite contains_char, contains_char in Ha.
  apply orb_false_elim in Ha. destruct Ha as [_ Ha].
  apply orb_false_elim in Ha. destruct Ha as [Ha _].
  cbn [append search_obj]. unfold match_at at 1, at_feature_re.
  cbn [run seq lit_rest]. unfold char_eq. rewrite Ascii.eqb_sym, Ha.
  cbn. now apply IH.
Qed.

Lemma token_not_paren :
  Py.all_chars (cls_ok false (none_of "(")) Y = true /\ 1 <= String.length Y.
Proof.
  pose proof (wf_token wf) as H. apply andb_prop in H. destruct H as [Ht Hf].
  split.
  - apply free_of_all with (cs := "'("); [| assumption].
    intros a Ha. rewrite contains_char, contains_char in Ha.
    apply orb_false_elim in Ha. destruct Ha as [_ Ha].
    apply orb_false_elim in Ha. destruct Ha as [Ha _].
    cbn. unfold in_set. now rewrite Ha.
  - destruct Y; [discriminate | simpl; lia].
Qed.

Lemma at_feature_match (rest : string) :
  stops_at false (none_of "(") rest = true ->
  match_at false at_feature_re (String "@" (Y ++ rest))
  = Some {| groups := [(1, Y)]; after := rest |}.
Proof.
  intros Hrest. destruct token_not_paren as [HY HY1].
  unfold match_at, at_feature_re. cbn [run seq plus lit_rest].
  unfold char_eq. rewrite Ascii.eqb_refl. cbn [orb].
  apply rep_greedy_run; [exact Hrest | | exact HY | exact HY1].
  now rewrite consumed_append.
Qed.

Lemma at_feature_token :
  search false at_feature_re (datum_name X Y L) = Some [(1, Y)].
Proof.
  unfold search, datum_name.
  rewrite search_skips_prefix by apply (wf_prefix wf).
  cbn [append search_obj]. now rewrite at_feature_match.
Qed.

Lemma datum_location_of_name :
  datum_location (datum_name X Y L) L
  = geometric_feature_location (Py.lower Y) L.
Proof. unfold datum_location. now rewrite at_feature_token. Qed.

Lemma scan_well_formed_line (maps : datum_maps) :
  scan_datum_line (datum_line id X Y L n) maps
  = (location <- geometric_feature_location (Py.lower Y) L ;;
     Ok {| datum_results := Dict.set (datum_results maps) L location;
           datum_letter_to_feature :=
             Dict.set (datum_letter_to_feature maps) L (datum_name X Y L) |}).
Proof.
  unfold scan_datum_line. rewrite (datum_line_match wf). cbn [group_str group Nat.eqb].
  now rewrite datum_location_of_name.
Qed.

End DatumToken.

(** ** When the classifier raises *)

Lemma length_lower (s : string) : String.length (Py.lower s) = String.length s.
Proof.
  unfold Py.lower. induction s as [|a s IH]; simpl; [reflexivity | now rewrite IH].
Qed.

Lemma occurs_in_length (w s : string) :
  occurs_in w s -> String.length w <= String.length s.
Proof. intros (pre & post & ->). rewrite !length_append. lia. Qed.

Lemma plane_number_length (s : string) (m : caps) :
  In m (finditer false plane_number_re s) ->
  String.length (group_str m 1) <= String.length s.
Proof.
  intros H. apply finditer_sound in H. destruct H as (w & Hw & H).
  apply occurs_in_length in Hw.
  unfold plane_number_re in H. open_matches H. cbn.
  rewrite length_append in Hw. lia.
Qed.

Lemma plane_number_tier_total (fname : string) :
  String.length fname <= Py.int_max_str_digits ->
  exists answer, plane_number_tier fname = Ok answer.
Proof.
  intros Hlen. unfold plane_number_tier.
  destruct (finditer false plane_number_re fname) as [|m ms] eqn:E; [now eexists |].
  assert (Hm : String.length (group_str m 1) <= String.length fname)
    by (apply plane_number_length; rewrite E; now left).
  unfold Py.int.
  destruct (Nat.ltb_spec Py.int_max_str_digits (String.length (group_str m 1)));
    [lia |].
  cbn [bind].
  repeat match goal with |- context [if ?b then _ else _] => destruct b end;
    now eexists.
Qed.

Lemma determine_plane_position_total (feature_name letter : option string) :
  String.length (Py.str_opt feature_name) <= Py.int_max_str_digits ->
  exists location, determine_plane_position feature_name letter = Ok location.
Proof.
  intros Hlen. unfold determine_plane_position.
  destruct (negb (Py.truthy_opt feature_name)); [now eexists |].
  destruct (Py.any_in _ _); [now eexists |].
  destruct (Py.any_in _ _); [now eexists |].
  destruct (datum_letter_tier _ _); [now eexists |].
  destruct (plane_number_tier_total (Py.lower (Py.str_opt feature_name)))
    as (answer & ->); [now rewrite length_lower |].
  cbn [bind]. destruct answer; now eexists.
Qed.

Lemma geometric_feature_location_total (token letter : string) :
  String.length token <= Py.int_max_str_digits ->
  exists location, geometric_feature_location token letter = Ok location.
Proof.
  intros Hlen. unfold geometric_feature_location.
  repeat match goal with |- context [if ?b then _ else _] => destruct b end;
    try now eexists.
  now apply determine_plane_position_total.
Qed.

(** ** A text that cannot raise *)

Lemma at_feature_length (name : string) (m : caps) :
  search false at_feature_re name = Some m ->
  String.length (group_str m 1) <= String.length name.
Proof.
  intros H. apply search_sound in H. destruct H as (w & Hw & H).
  apply occurs_in_length in Hw.
  unfold at_feature_re in H. open_matches H. cbn.
  rewrite length_append in Hw. lia.
Qed.

Lemma datum_location_total (feature_name datum_letter : string) :
  String.length feature_name <= Py.int_max_str_digits ->
  exists location, datum_location feature_name datum_letter = Ok location.
Proof.
  intros Hlen. unfold datum_location.
  destruct (search false at_feature_re feature_name) as [m|] eqn:E.
  - apply geometric_feature_location_total. rewrite length_lower.
    apply at_feature_length in E. lia.
  - now apply determine_plane_position_total.
Qed.

Lemma datum_line_name_length (line : string) (m : caps) :
  re_match false datum_line_re line = Some m ->
  String.length (group_str m 2) <= String.length line.
Proof.
  intros H. apply re_match_sound in H. destruct H as (w & post & -> & H).
  unfold datum_line_re in H. open_matches H. cbn.
  rewrite !length_append. lia.
Qed.

Lemma scan_datum_line_total (line : string) (maps : datum_maps) :
  String.length line <= Py.int_max_str_digits ->
  exists maps', scan_datum_line line maps = Ok maps'.
Proof.
  intros Hlen. unfold scan_datum_line.
  destruct (re_match false datum_line_re line) as [m|] eqn:E; [| now eexists].
  apply datum_line_name_length in E.
  destruct (datum_location_total (group_str m 2) (group_str m 3)) as (location & ->);
    [lia |].
  cbn [bind]. now eexists.
Qed.

Lemma scan_datums_total (lines : list string) :
  forallb (fun line => Nat.leb (String.length line) Py.int_max_str_digits) lines
  = true ->
  forall maps, exists maps', for_each scan_datum_line lines maps = Ok maps'.
Proof.
  induction lines as [|line lines IH]; intros H maps; cbn [for_each];
    [now eexists |].
  cbn [forallb] in H. apply andb_prop in H. destruct H as [Hl Hls].
  apply Nat.leb_le in Hl.
  destruct (scan_datum_line_total line maps Hl) as (maps' & ->). cbn [bind].
  now apply IH.
Qed.

(** ** What the datum scan can raise *)

Lemma int_raises (s : string) (e : exn) : Py.int s = Raise e -> e = ValueError.
Proof.
  unfold Py.int. destruct (Nat.ltb _ _); [| discriminate]. now intros [= <-].
Qed.

Lemma plane_number_tier_raises (fname : string) (e : exn) :
  plane_number_tier fname = Raise e -> e = ValueError.
Proof.
  unfold plane_number_tier.
  destruct (finditer false plane_number_re fname) as [|m ms]; [discriminate |].
  destruct (Py.int (group_str m 1)) as [plane_num|e'] eqn:E; cbn [bind].
  - repeat match goal with |- context [if ?b then _ else _] => destruct b end;
      discriminate.
  - intros [= <-]. eapply int_raises; eauto.
Qed.

Lemma determine_plane_position_raises (feature_name letter : option string)
      (e : exn) :
  determine_plane_position feature_name letter = Raise e -> e = ValueError.
Proof.
  unfold determine_plane_position.
  destruct (negb (Py.truthy_opt feature_name)); [discriminate |].
  destruct (Py.any_in _ _); [discriminate |].
  destruct (Py.any_in _ _); [discriminate |].
  destruct (datum_letter_tier _ _); [discriminate |].
  destruct (plane_number_tier _) as [answer|e'] eqn:E; cbn [bind].
  - destruct answer; discriminate.
  - intros [= <-]. eapply plane_number_tier_raises; eauto.
Qed.

Lemma datum_location_raises (feature_name datum_letter : string) (e : exn) :
  datum_location feature_name datum_letter = Raise e -> e = ValueError.
Proof.
  unfold datum_location, geometric_feature_location.
  destruct (search false at_feature_re feature_name) as [m|];
    [| apply determine_plane_position_raises].
  repeat match goal with |- context [if ?b then _ else _] => destruct b end;
    try discriminate.
  apply determine_plane_position_raises.
Qed.

Lemma scan_datums_raises (lines : list string) (e : exn) :
  forall maps, for_each scan_datum_line lines maps = Raise e -> e = ValueError.
Proof.
  induction lines as [|line lines IH]; intros maps H; cbn [for_each] in H;
    [discriminate |].
  destruct (scan_datum_line line maps) as [maps'|e'] eqn:E; cbn [bind] in H;
    [eapply IH; eauto |].
  injection H as <-. unfold scan_datum_line in E.
  destruct (re_match false datum_line_re line) as [m|]; [| discriminate].
  destruct (datum_location (group_str m 2) (group_str m 3)) as [location|e'']
    eqn:El; cbn [bind] in E; [discriminate |].
  injection E as <-. eapply datum_location_raises; eauto.
Qed.

(** The body of the 8-column engine raises what the datum scan raises. *)
Lemma extraction_body_raises (text : string) (e : exn) :
  extraction_body text = Raise e ->
  scan_datums (Py.splitlines text) = Raise e.
Proof.
  unfold extraction_body, run_extraction.
  destruct (scan_datums (Py.splitlines text)) as [scanned|e']; cbn [bind];
    [discriminate | now intros [= <-]].
Qed.

Lemma Forall2_map_right (A B C : Type) (P : A -> C -> Prop) (f : B -> C)
      (xs : list A) (ys : list B) :
  Forall2 (fun x y => P x (f y)) xs ys -> Forall2 P xs (map f ys).
Proof. induction 1; cbn [map]; constructor; assumption. Qed.

(** * The claims *)

(** C1.  On the text made of the DATUM line of datum A on Boss1, the
    CYLINDRICITY_TOLERANCE line named Tol(A) that refers to entity 30, and a
    line of entity 30 that holds LENGTH_MEASURE(0.05) (the three lines in any
    order), [extract_tolerance_data] returns a geometric row of label
    Cylindricity, value 0.05, datum A, location cylindrical side, surface
    curved side of the cylinder and three empty limit fields, followed by
    the datum row of type Datum with value and datum A.  The type of the
    geometric row does not begin with the glyph of a cylindricity, the
    diameter sign that [main.py] stores: the literal of line 27 holds the
    three characters U+201A U+00E5 U+00C4 (seven bytes in UTF-8) in its
    place. *)
Theorem cylindricity_scenario :
  Forall (fun lines =>
            extract_tolerance_data (unlines lines) = [cylindricity_row; datum_A_row])
         cylindricity_scenarios
  /\ col_type cylindricity_row = symbol_of "Cylindricity" ++ " Cylindricity"
  /\ col_type cylindricity_row <> diameter_sign ++ " Cylindricity"
  /\ String.length (symbol_of "Cylindricity") = 7
  /\ Dict.get MainPy.gdnt_symbols "Cylindricity" = Some diameter_sign.
Proof.
  split.
  { unfold cylindricity_scenarios. cbn [flat_map app].
    repeat (apply Forall_cons; [vm_compute; reflexivity |]). apply Forall_nil. }
  split; [reflexivity |]. split; [discriminate |]. split; reflexivity.
Qed.

(** C2.  On the diameter scenario (nominal 10.0, bounds -0.1 and 0.1)
    [extract_tolerance_data] emits a Diameter row with upper limit 10.100 and
    lower limit 9.900, but its tolerance range is the prefix of lines 419 and
    499 followed by 0.100, and that prefix is not the plus-minus sign: the
    literal of the source holds the two characters U+00AC U+00B1. *)
Theorem diameter_scenario_range :
  (exists r,
      extract_tolerance_data diameter_scenario = [r; datum_A_row]
      /\ col_type r = symbol_of "Diameter" ++ " Diameter"
      /\ col_value r = "10.0"
      /\ col_tolerance r = range_prefix ++ "0.100"
      /\ col_upper_limit r = "10.100"
      /\ col_lower_limit r = "9.900")
  /\ range_prefix = "¬±"
  /\ range_prefix <> plus_minus_sign.
Proof.
  split; [| split; [reflexivity | discriminate]].
  eexists. split; [vm_compute; reflexivity |]. repeat split.
Qed.

(** C3, as amended.  After a run, each geometric row stands next to the
    match of the tolerance pattern it comes from, and its datum letter is
    empty, a key of the datum map, a capital letter that stands between
    parentheses in the name of that tolerance (method 1), or a capital
    letter that closes, between parentheses, the quoted name of a
    DATUM_FEATURE line that mentions an entity to which the line of that
    tolerance refers (method 3); neither method consults the map.  The datum
    letter of every dimensional row is empty or a key of the datum map. *)
Theorem row_datum_known_or_read (text : string) (st : run_state) :
  run_extraction text = Ok st ->
  Forall2 (fun m r =>
             letter_known_or_read
               (datum_letters st)
               (build_line_dict (Py.splitlines text)) (Py.splitlines text)
               (group_str m 1) (group_str m 3) (col_datum r))
          (finditer true tol_pattern text) (geometric_rows st)
  /\ Forall (fun r => letter_known (datum_letters st) (col_datum r))
            (dimensional_rows_of st).
Proof.
  intros H. pose proof (run_maps_agree _ H) as Hagree.
  destruct (run_extraction_inv _ H) as (scanned & _ & _ & Ht & Hd).
  unfold geometric_rows, dimensional_rows_of, datum_letters. split.
  - rewrite Ht. apply Forall2_map_right. cbn [tolerance_row col_datum].
    now apply extract_tolerances_letters.
  - rewrite Hd. now apply extract_dimensional_known.
Qed.

Lemma row_datum_known_or_read_witness :
  exists st,
    run_extraction (unlines [datum_A_line; cylindricity_line; measure_line]) = Ok st
    /\ Forall2 (fun m r =>
                  letter_known_or_read
                    (datum_letters st)
                    (build_line_dict
                       (Py.splitlines
                          (unlines [datum_A_line; cylindricity_line; measure_line])))
                    (Py.splitlines
                       (unlines [datum_A_line; cylindricity_line; measure_line]))
                    (group_str m 1) (group_str m 3) (col_datum r))
               (finditer true tol_pattern
                         (unlines [datum_A_line; cylindricity_line; measure_line]))
               (geometric_rows st)
    /\ Forall (fun r => letter_known (datum_letters st) (col_datum r))
              (dimensional_rows_of st).
Proof.
  eexists. split; [vm_compute; reflexivity |].
  apply (row_datum_known_or_read
           (unlines [datum_A_line; cylindricity_line; measure_line])).
  vm_compute. reflexivity.
Defined.

(** C3, as stated, fails: the tolerance named Tol(A) gets datum A from
    method 1 although no DATUM line defines A and the map is empty. *)
Lemma referential_integrity_fails :
  (exists st r,
      run_extraction orphan_letter_text = Ok st
      /\ In r (geometric_rows st)
      /\ col_datum r = "A"
      /\ datum_letters st = [])
  /\ ~ referential_integrity orphan_letter_text.
Proof.
  split.
  { eexists. eexists. split; [vm_compute; reflexivity |].
    split; [left; reflexivity |]. split; reflexivity. }
  intros H.
  match eval vm_compute in (run_extraction orphan_letter_text) with
  | Ok ?st => specialize (H st ltac:(vm_compute; reflexivity))
  end.
  vm_compute in H. eapply H; [left; reflexivity | discriminate].
Qed.




(** C5.  The five boundary cases of the classifier. *)
Theorem classifier_boundary_cases :
  determine_plane_position (Some "Plane1") None = Ok "bottom face"
  /\ determine_plane_position (Some "Plane2") None = Ok "top face"
  /\ determine_plane_position (Some "SomePlane") (Some "B") = Ok "cylindrical side"
  /\ determine_plane_position (Some "SomePlane") (Some "D") = Ok "top face"
  /\ determine_plane_position (Some "RandomName") None = Ok "RandomName".
Proof. repeat split; vm_compute; reflexivity. Qed.

(** C6.  The code does not do what the claim says.  Line 215 lower-cases
    the feature name before lines 219 and 224 look for a capital letter, so
    neither pattern ever matches; for the name Boss2(B), with B a known
    datum, the routine answers A, the first cylindrical datum of method 3. *)
Theorem parenthesised_letter_is_never_read :
  (forall feature_name : string,
      search false datum_at_letter_re (Py.lower feature_name) = None
      /\ search false paren_letter_re (Py.lower feature_name) = None)
  /\ find_datum_for_dimensional_tolerance
       "Boss2(B)"
       [("A", "cylindrical side"); ("B", "cylindrical side")]
       [("A", "Datum1@Boss1(A)"); ("B", "Datum2@Boss2(B)")]
     = Ok "A".
Proof.
  split; [| vm_compute; reflexivity].
  intros feature_name. split.
  - apply datum_at_letter_never_in_lower.
  - apply paren_letter_never_in_lower.
Qed.




(** C8, as amended.  When the body of [extract_tolerance_data] raises,
    the 8-column engine and [try.py] answer with the empty list, while
    [extract_tolerance_table] of [main.py], which has no handler, raises
    the same exception.  The exception is the ValueError of [int] on a
    plane number of more than 4300 digits, so the text has a line of more
    than 4300 characters. *)
Theorem exception_gives_empty_result (text : string) (e : exn) :
  extraction_body text = Raise e ->
  extract_tolerance_data text = []
  /\ TryPy.extract_tolerance_data text = []
  /\ MainPy.extract_tolerance_table text = Raise e
  /\ e = ValueError
  /\ short_lines text = false.
Proof.
  intros H. pose proof (extraction_body_raises _ H) as Hs.
  split; [unfold extract_tolerance_data; now rewrite H |].
  split; [unfold TryPy.extract_tolerance_data, TryPy.extraction_body;
          now rewrite Hs |].
  split; [unfold MainPy.extract_tolerance_table; now rewrite Hs |].
  split; [eapply scan_datums_raises; exact Hs |].
  unfold short_lines.
  destruct (forallb _ (Py.splitlines text)) eqn:E; [| reflexivity].
  destruct (scan_datums_total _ E
              {| datum_results := []; datum_letter_to_feature := [] |})
    as (maps & Hok).
  unfold scan_datums in Hs. congruence.
Qed.

Lemma exception_gives_empty_result_witness :
  extraction_body long_number_text = Raise ValueError
  /\ extract_tolerance_data long_number_text = []
  /\ TryPy.extract_tolerance_data long_number_text = []
  /\ MainPy.extract_tolerance_table long_number_text = Raise ValueError
  /\ ValueError = ValueError
  /\ short_lines long_number_text = false.
Proof.
  assert (H : extraction_body long_number_text = Raise ValueError)
    by (vm_compute; reflexivity).
  split; [exact H |].
  exact (exception_gives_empty_result long_number_text H).
Defined.

(** C8, as stated, fails: on a DATUM line whose plane number has 4301
    digits [extract_tolerance_table] of [main.py] raises ValueError, and
    nothing in the function catches it. *)
Lemma exceptions_are_caught_fails :
  MainPy.extract_tolerance_table long_number_text = Raise ValueError
  /\ ~ exceptions_are_caught.
Proof.
  assert (H : MainPy.extract_tolerance_table long_number_text = Raise ValueError)
    by (vm_compute; reflexivity).
  split; [exact H |].
  intros [_ Hmain]. destruct (Hmain long_number_text) as (rows & Hrows).
  rewrite H in Hrows. discriminate Hrows.
Qed.

(** C9, as amended.  After a run every key of the datum map is a single
    character: a capital letter A-Z, or the word character (letter, digit or
    underscore) that a match of the shape-aspect pattern captured after the
    parenthesis.  The keys of the raw-name map, which only the DATUM scan
    writes, are capital letters. *)
Theorem datum_keys_single_characters (text : string) (st : run_state) :
  run_extraction text = Ok st ->
  Forall (fun k => single Py.is_upper k \/ shape_aspect_key text k)
         (datum_letters st)
  /\ Forall (single Py.is_upper)
            (Dict.keys (datum_letter_to_feature (run_maps st))).
Proof.
  intros H. destruct (run_extraction_inv _ H) as (scanned & Hs & Hm & _).
  destruct (scan_datums_keys _ Hs) as [Hr Hf].
  unfold datum_letters. rewrite Hm. cbn [datum_results datum_letter_to_feature].
  split; [now apply scan_shape_aspects_keys | assumption].
Qed.

Lemma datum_keys_single_characters_witness :
  exists st,
    run_extraction lower_case_aspect_text = Ok st
    /\ Forall (fun k => single Py.is_upper k
                        \/ shape_aspect_key lower_case_aspect_text k)
              (datum_letters st)
    /\ Forall (single Py.is_upper)
              (Dict.keys (datum_letter_to_feature (run_maps st))).
Proof.
  eexists. split; [vm_compute; reflexivity |].
  apply (datum_keys_single_characters lower_case_aspect_text).
  vm_compute. reflexivity.
Defined.

(** C9, as stated, fails: the shape-aspect scan files the location Plane1
    under the lower-case key x. *)
Lemma keys_are_upper_letters_fails :
  (exists st,
      run_extraction lower_case_aspect_text = Ok st
      /\ datum_results (run_maps st) = [("x", "Plane1")])
  /\ ~ keys_are_upper_letters lower_case_aspect_text.
Proof.
  split; [eexists; split; vm_compute; reflexivity |].
  intros H.
  match eval vm_compute in (run_extraction lower_case_aspect_text) with
  | Ok ?st => specialize (H st ltac:(vm_compute; reflexivity))
  end.
  inversion H as [| k ks (a & Hk & Ha) _]; subst.
  vm_compute in Hk. injection Hk as <-. vm_compute in Ha. discriminate.
Qed.

(** C10.  For a feature name that is empty or absent the classifier
    answers surface, whatever the datum letter, and this is not the name
    returned unchanged. *)
Theorem empty_name_is_surface (feature_name datum_letter : option string) :
  Py.truthy_opt feature_name = false ->
  determine_plane_position feature_name datum_letter = Ok "surface"
  /\ determine_plane_position feature_name datum_letter
     <> Ok (Py.str_opt feature_name).
Proof.
  intros H. unfold determine_plane_position. rewrite H. cbn [negb].
  split; [reflexivity |].
  destruct feature_name as [[|a s]|]; [discriminate | discriminate | discriminate].
Qed.

Lemma empty_name_is_surface_witness :
  Py.truthy_opt (Some "") = false
  /\ determine_plane_position (Some "") (Some "B") = Ok "surface"
  /\ determine_plane_position (Some "") (Some "B") <> Ok (Py.str_opt (Some "")).
Proof.
  split; [reflexivity |].
  exact (empty_name_is_surface (Some "") (Some "B") eq_refl).
Defined.

(** ** The scenarios, end to end *)

(** Four straightness tolerances without hints, two datums: the letters
    are A, B, A and A again, where round-robin would end with B. *)
Example straightness_rows_do_not_cycle :
  map col_datum (extract_tolerance_data straightness_text)
  = ["A"; "B"; "A"; "A"; "A"; "B"].
Proof. vm_compute. reflexivity. Qed.

(** Two bosses, datums A and B, and a diameter on the shape aspect named
    Boss2(B): the row carries datum A. *)
Example diameter_on_boss2_gets_datum_A :
  map col_datum
      (extract_tolerance_data
         (unlines ["#10=DATUM('Datum1@Boss1(A)',$,#1,.F.,'A');";
                   "#11=DATUM('Datum2@Boss2(B)',$,#2,.F.,'B');";
                   "#49=SHAPE_ASPECT('Boss2(B)','',#5,.T.);";
                   "#50=DIMENSIONAL_SIZE(#49,'diameter');"]))
  = ["A"; "A"; "B"].
Proof. vm_compute. reflexivity. Qed.

(** The dimensional extractor has a handler of its own: with no datum at
    all, the plane number 0 indexes an empty list, the body raises
    IndexError and the extractor answers with no row. *)
Example dimensional_exception_gives_no_row :
  let text := unlines ["#49=SHAPE_ASPECT('Plane0','',#5,.T.);";
                       "#50=DIMENSIONAL_SIZE(#49,'diameter');"] in
  let maps := {| datum_results := []; datum_letter_to_feature := [] |} in
  dimensional_rows text (build_line_dict (Py.splitlines text)) maps
  = Raise IndexError
  /\ extract_tolerance_data text = [].
Proof. split; vm_compute; reflexivity. Qed.

(** ** The 5-column engine on the same scenarios *)

(** On the cylindricity scenario [main.py] shows the datum in the location
    column and has no limit columns. *)
Example main_py_cylindricity_scenario :
  MainPy.extract_tolerance_table
    (unlines [datum_A_line; cylindricity_line; measure_line])
  = Ok [{| MainPy.col_type := "⌀ Cylindricity"; MainPy.col_value := "0.05";
           MainPy.col_datum := "A"; MainPy.col_location := "at datum A";
           MainPy.col_surface := "curved side of the cylinder" |};
        {| MainPy.col_type := "Datum"; MainPy.col_value := "A";
           MainPy.col_datum := "A"; MainPy.col_location := "cylindrical side";
           MainPy.col_surface := "cylindrical side" |}].
Proof. vm_compute. reflexivity. Qed.

(** [main.py] gives a straightness tolerance without hints no datum. *)
Example main_py_straightness_has_no_datum :
  option_map (map MainPy.col_datum)
             (match MainPy.extract_tolerance_table straightness_text with
              | Ok rows => Some rows
              | Raise _ => None
              end)
  = Some [""; ""; ""; ""; "A"; "B"].
Proof. vm_compute. reflexivity. Qed.

(** [main.py] has no handler: the exception leaves the function, and its
    caller [upload_and_process] is the one that catches it. *)
Example main_py_exception_propagates :
  MainPy.extract_tolerance_table long_number_text = Raise ValueError.
Proof. vm_compute. reflexivity. Qed.

(** * Further properties *)

(** ** A text without a number sign *)

Lemma char_eq_hash (ic : bool) (b : ascii) :
  char_eq ic "#" b = true -> b = "#"%char.
Proof.
  destruct ic; destruct b as [[] [] [] [] [] [] [] []]; vm_compute;
    intros H; try discriminate H; reflexivity.
Qed.

Lemma lit_hash_matches (ic : bool) (l w : string) :
  lit_rest ic (String "#" l) w = Some "" -> exists w', w = String "#" w'.
Proof.
  destruct w as [|b w]; simpl; [discriminate |].
  destruct (char_eq ic "#" b) eqn:E; [| discriminate].
  apply char_eq_hash in E. subst b. intros _. now exists w.
Qed.

Lemma free_of_occurs (cs w t : string) :
  free_of cs t = true -> occurs_in w t -> free_of cs w = true.
Proof.
  intros H (pre & post & ->). unfold free_of in *.
  rewrite !all_chars_append in H.
  apply andb_prop in H. destruct H as [_ H].
  apply andb_prop in H. tauto.
Qed.

(** Closes a goal where [H] is a match of a pattern that holds a number
    sign, in a part [w] of a text that has none. *)
Ltac no_hash H Hfree Hw :=
  open_matches H;
  match goal with
  | X : lit_rest _ (String "#" _) _ = Some "" |- _ =>
      apply lit_hash_matches in X; destruct X as (? & ->)
  end;
  let F := fresh in
  pose proof (free_of_occurs _ Hfree Hw) as F;
  unfold free_of in F; rewrite !all_chars_append in F;
  cbn [append Py.all_chars] in F;
  repeat match goal with
         | X : _ && _ = true |- _ => apply andb_prop in X; destruct X
         end;
  match goal with
  | X : negb (Py.contains "#" "#") = true |- _ => vm_compute in X; discriminate X
  end.

Lemma finditer_nil (ic : bool) (r : regex) (s : string) :
  (forall m, ~ In m (finditer ic r s)) -> finditer ic r s = [].
Proof.
  destruct (finditer ic r s) as [|m ms]; [reflexivity |].
  intros H. exfalso. apply (H m). now left.
Qed.

Section NoNumberSign.

Variable text : string.
Hypothesis no_sign : free_of "#" text = true.

Lemma no_tolerance_match : finditer true tol_pattern text = [].
Proof.
  apply finditer_nil. intros m H. apply finditer_sound in H.
  destruct H as (w & Hw & H). unfold tol_pattern, entity_ref in H.
  no_hash H no_sign Hw.
Qed.

Lemma no_shape_aspect_match : finditer false shape_aspect_pattern text = [].
Proof.
  apply finditer_nil. intros m H. apply finditer_sound in H.
  destruct H as (w & Hw & H). unfold shape_aspect_pattern in H.
  no_hash H no_sign Hw.
Qed.

Lemma no_size_match : finditer true dimensional_size_pattern text = [].
Proof.
  apply finditer_nil. intros m H. apply finditer_sound in H.
  destruct H as (w & Hw & H). unfold dimensional_size_pattern, entity_ref in H.
  no_hash H no_sign Hw.
Qed.

Lemma no_location_match : finditer true dimensional_location_pattern text = [].
Proof.
  apply finditer_nil. intros m H. apply finditer_sound in H.
  destruct H as (w & Hw & H). unfold dimensional_location_pattern, entity_ref in H.
  no_hash H no_sign Hw.
Qed.

End NoNumberSign.

Lemma splitlines_all (p : ascii -> bool) (s : string) :
  Py.all_chars p s = true ->
  Forall (fun line => Py.all_chars p line = true) (Py.splitlines s).
Proof.
  remember (String.length s) as n eqn:Hn.
  assert (Hlen : String.length s <= n) by lia. clear Hn.
  revert s Hlen. induction n as [|n IH]; intros [|c s] Hlen H;
    try constructor; simpl in Hlen; try lia.
  cbn [Py.all_chars] in H. apply andb_prop in H. destruct H as [Hc Hs].
  cbn [Py.splitlines].
  destruct (Py.is_linebreak c).
  - constructor; [reflexivity |].
    destruct (Nat.eqb (Py.code c) 13); [| apply IH; [lia | assumption]].
    destruct s as [|d s']; [constructor |].
    destruct (Nat.eqb (Py.code d) 10); [| apply IH; [lia | assumption]].
    destruct n as [|n]; [simpl in Hlen; lia |].
    cbn [Py.all_chars] in Hs. apply andb_prop in Hs. destruct Hs as [_ Hs].
    apply IH; [simpl in *; lia | assumption].
  - assert (Hl : Forall (fun line => Py.all_chars p line = true) (Py.splitlines s))
      by (apply IH; [lia | assumption]).
    destruct (Py.splitlines s) as [|l ls].
    + constructor; [| constructor]. cbn. now rewrite Hc.
    + inversion Hl; subst. constructor; [| assumption]. cbn. now rewrite Hc.
Qed.

Lemma no_datum_line (line : string) :
  free_of "#" line = true -> re_match false datum_line_re line = None.
Proof.
  intros Hfree.
  destruct (re_match false datum_line_re line) as [m|] eqn:E; [| reflexivity].
  exfalso. apply re_match_sound in E. destruct E as (w & post & -> & H).
  unfold datum_line_re in H.
  assert (Hw : occurs_in w (w ++ post)) by apply occurs_in_head.
  no_hash H Hfree Hw.
Qed.

Lemma scan_datums_without_sign (lines : list string) (maps : datum_maps) :
  Forall (fun line => free_of "#" line = true) lines ->
  for_each scan_datum_line lines maps = Ok maps.
Proof.
  induction 1 as [|line lines Hl _ IH]; [reflexivity |].
  cbn [for_each]. unfold scan_datum_line at 1. rewrite (no_datum_line _ Hl).
  exact IH.
Qed.

(** X1.  A text that holds no number sign, the empty text among them,
    gives no row at all. *)
Theorem no_number_sign_no_row (text : string) :
  free_of "#" text = true -> extract_tolerance_data text = [].
Proof.
  intros Hfree.
  unfold extract_tolerance_data, extraction_body, run_extraction, scan_datums.
  rewrite scan_datums_without_sign by (apply splitlines_all; exact Hfree).
  cbn [bind]. unfold table_rows. cbn [run_tolerances run_dimensional run_maps
                                     datum_results datum_letter_to_feature map].
  unfold extract_tolerances, scan_shape_aspects,
    extract_dimensional_tolerances, dimensional_rows.
  rewrite (@no_tolerance_match _ Hfree), (@no_size_match _ Hfree),
    (@no_location_match _ Hfree).
  reflexivity.
Qed.

Lemma no_number_sign_no_row_witness :
  free_of "#" "ISO-10303-21; HEADER; ENDSEC;" = true
  /\ extract_tolerance_data "ISO-10303-21; HEADER; ENDSEC;" = [].
Proof.
  split; [reflexivity |].
  exact (no_number_sign_no_row "ISO-10303-21; HEADER; ENDSEC;" eq_refl).
Defined.

(** ** The rows of the geometric tolerances *)

Lemma upper_lower_char (a : ascii) :
  Py.upper_char (Py.lower_char a) = Py.upper_char a.
Proof. destruct a as [[] [] [] [] [] [] [] []]; vm_compute; reflexivity. Qed.

Lemma lower_lower_char (a : ascii) :
  Py.lower_char (Py.lower_char a) = Py.lower_char a.
Proof. destruct a as [[] [] [] [] [] [] [] []]; vm_compute; reflexivity. Qed.

Lemma lower_upper_char (a : ascii) :
  Py.lower_char (Py.upper_char a) = Py.lower_char a.
Proof. destruct a as [[] [] [] [] [] [] [] []]; vm_compute; reflexivity. Qed.

Lemma upper_lower (s : string) : Py.upper (Py.lower s) = Py.upper s.
Proof.
  unfold Py.upper, Py.lower.
  induction s as [|a s IH]; simpl; [reflexivity |].
  now rewrite upper_lower_char, IH.
Qed.

Lemma lower_lower (s : string) : Py.lower (Py.lower s) = Py.lower s.
Proof.
  unfold Py.lower.
  induction s as [|a s IH]; simpl; [reflexivity |].
  now rewrite lower_lower_char, IH.
Qed.

Lemma lower_upper (s : string) : Py.lower (Py.upper s) = Py.lower s.
Proof.
  unfold Py.upper, Py.lower.
  induction s as [|a s IH]; simpl; [reflexivity |].
  now rewrite lower_upper_char, IH.
Qed.

Lemma capitalize_lower (s : string) : Py.capitalize (Py.lower s) = Py.capitalize s.
Proof.
  destruct s as [|a s]; [reflexivity |].
  cbn [Py.capitalize Py.lower Py.map_chars].
  fold (Py.lower s). now rewrite upper_lower_char, lower_lower.
Qed.

Lemma char_eq_lower (a b : ascii) :
  char_eq true a b = true -> Py.lower_char b = Py.lower_char a.
Proof.
  unfold char_eq. intros H. apply orb_prop in H. destruct H as [H | H].
  - apply Ascii.eqb_eq in H. now subst.
  - simpl in H. apply Ascii.eqb_eq in H. now symmetry.
Qed.

(** A text that matches a literal without regard to case has the lower
    case of the literal. *)
Lemma lit_rest_lower (l w : string) :
  lit_rest true l w = Some "" -> Py.lower w = Py.lower l.
Proof.
  revert w. induction l as [|a l IH]; intros [|b w] H; simpl in H;
    try discriminate; [reflexivity |].
  destruct (char_eq true a b) eqn:E; [| discriminate].
  unfold Py.lower in *. simpl. rewrite (char_eq_lower _ _ E). f_equal. now apply IH.
Qed.

(** The label of lines 653-655 as a function of the lower case of the
    matched keyword. *)
Lemma label_by_lower (tol_type : string) :
  (if String.eqb (Py.upper tol_type) "ROUNDNESS" then "Circularity"
   else Py.capitalize tol_type)
  = (if String.eqb (Py.upper (Py.lower tol_type)) "ROUNDNESS" then "Circularity"
     else Py.capitalize (Py.lower tol_type)).
Proof. now rewrite upper_lower, capitalize_lower. Qed.

Lemma tolerance_label (text : string) (m : caps) :
  In m (finditer true tol_pattern text) ->
  In (if String.eqb (Py.upper (group_str m 2)) "ROUNDNESS" then "Circularity"
      else Py.capitalize (group_str m 2))
     tolerance_labels.
Proof.
  intros H. apply finditer_sound in H. destruct H as (w & _ & H).
  rewrite label_by_lower.
  unfold tol_pattern, entity_ref in H. open_matches H;
    cbn [group_str group Nat.eqb];
    match goal with
    | X : lit_rest true ?l ?w = Some "" |- context [Py.lower ?w] =>
        rewrite (lit_rest_lower _ _ X)
    end;
    vm_compute; tauto.
Qed.

Lemma captured_value (definition : string) (m : caps) :
  search false value_re definition = Some m ->
  Py.truthy (group_str m 1) = true
  /\ Py.all_chars is_digit_or_dot (group_str m 1) = true.
Proof.
  intros H. apply search_sound in H. destruct H as (w & _ & H).
  unfold value_re in H. open_matches H; cbn [group_str group Nat.eqb].
  all: match goal with
       | X : Py.all_chars _ ?v = true, Y : 1 <= String.length ?v |- _ =>
           split; [destruct v; [simpl in Y; lia | reflexivity] |]
       end.
  all: match goal with
       | X : Py.all_chars _ ?v = true |- Py.all_chars _ ?v = true =>
           revert X; clear; induction v as [|a v IH]; simpl; [reflexivity |];
           intros X; apply andb_prop in X; destruct X as [Xa Xv];
           rewrite (IH Xv), andb_true_r;
           unfold digit_or_dot, cls_ok, in_set in Xa; simpl in Xa;
           rewrite orb_false_r in Xa; exact Xa
       end.
Qed.

Lemma extract_tolerance_entry (maps : datum_maps) (line_dict : Dict.dict string)
      (lines : list string) (text : string) (m : caps) (acc : list tol_result) :
  In m (finditer true tol_pattern text) ->
  exists t, extract_tolerance maps line_dict lines acc m = (acc ++ [t])%list
            /\ tolerance_entry_ok t.
Proof.
  intros Hm. unfold extract_tolerance. eexists. split; [reflexivity |].
  unfold tolerance_entry_ok. cbn [tr_label tr_value tr_tolerance_value
                                   tr_upper_limit tr_lower_limit].
  split; [eapply tolerance_label; eauto |]. split; [| auto].
  destruct (search false value_re _) as [v|] eqn:E; [| now left].
  right. eapply captured_value; eauto.
Qed.

Lemma extract_tolerances_entries (text : string) (maps : datum_maps)
      (line_dict : Dict.dict string) (lines : list string) :
  length (extract_tolerances text maps line_dict lines)
  = length (finditer true tol_pattern text)
  /\ Forall tolerance_entry_ok (extract_tolerances text maps line_dict lines).
Proof.
  unfold extract_tolerances.
  assert (H : forall ms acc,
             (forall m, In m ms -> In m (finditer true tol_pattern text)) ->
             Forall tolerance_entry_ok acc ->
             length (fold_left (extract_tolerance maps line_dict lines) ms acc)
             = length acc + length ms
             /\ Forall tolerance_entry_ok
                       (fold_left (extract_tolerance maps line_dict lines) ms acc)).
  { induction ms as [|m ms IH]; intros acc Hin Hacc; simpl.
    - split; [lia | assumption].
    - destruct (extract_tolerance_entry maps line_dict lines text m acc)
        as (t & -> & Ht); [apply Hin; now left |].
      destruct (IH (acc ++ [t])%list) as [Hl Hf].
      + intros m' Hm'. apply Hin. now right.
      + apply Forall_app. split; [assumption | now constructor].
      + split; [| assumption]. rewrite Hl, length_app. simpl. lia. }
  destruct (H (finditer true tol_pattern text) []) as [Hl Hf]; auto.
Qed.

Lemma tolerance_row_ok (t : tol_result) :
  tolerance_entry_ok t -> geometric_row_ok (tolerance_row t).
Proof.
  intros (Hl & Hv & Ht & Hu & Hlo). unfold geometric_row_ok, no_limits, tolerance_row.
  cbn [col_type col_value col_location col_surface col_tolerance
       col_upper_limit col_lower_limit].
  split.
  { unfold tolerance_labels in Hl. simpl in Hl.
    destruct Hl as [<- | [<- | [<- | [<- | []]]]]; vm_compute; tauto. }
  split; [assumption |].
  split; [destruct (tr_location t); simpl; discriminate |].
  split; [| auto].
  repeat match goal with |- context [String.eqb ?a ?b] => destruct (String.eqb a b) end;
    try discriminate.
  destruct (tr_location t); simpl; discriminate.
Qed.



(** ** The three kinds of rows, as the caller tells them apart *)

Lemma starts_with_prefix (p s : string) : Py.starts_with p (p ++ s) = true.
Proof.
  induction p as [|a p IH]; simpl; [now destruct s |].
  now rewrite Ascii.eqb_refl, IH.
Qed.

Lemma contains_prefix (p s : string) : Py.contains p (p ++ s) = true.
Proof.
  destruct p as [|a p]; [now destruct s |].
  cbn [append Py.contains]. change (String a (p ++ s)) with (String a p ++ s).
  now rewrite starts_with_prefix.
Qed.

Lemma geometric_row_kind (r : row) :
  In (col_type r) geometric_types -> is_dimensional r = false /\ is_datum r = false.
Proof.
  unfold is_dimensional, is_datum. intros H.
  unfold geometric_types, tolerance_labels in H. cbn [map In] in H.
  destruct H as [<- | [<- | [<- | [<- | []]]]]; vm_compute; auto.
Qed.

Lemma size_row_kind (text : string) (line_dict : Dict.dict string)
      (maps : datum_maps) (tables : link_tables) (m : caps) (r : row) :
  size_row text line_dict maps tables m = Ok r ->
  is_dimensional r = true /\ is_datum r = false.
Proof.
  unfold size_row.
  destruct (tolerance_columns _ _ _) as [[? ?] ?].
  destruct (find_datum_for_dimensional_tolerance _ _ _); simpl; [| discriminate].
  intros [= <-]. unfold is_dimensional, is_datum. cbn [col_type].
  vm_compute. auto.
Qed.

Lemma location_row_kind (text : string) (line_dict : Dict.dict string)
      (maps : datum_maps) (tables : link_tables) (m : caps) (r : row) :
  location_row text line_dict maps tables m = Ok r ->
  is_dimensional r = true /\ is_datum r = false.
Proof.
  unfold location_row.
  destruct (tolerance_columns _ _ _) as [[? ?] ?].
  destruct (location_datum _ _ _); cbn [bind]; [| discriminate].
  intros [= <-]. unfold is_dimensional, is_datum, dimensional_marks. cbn [col_type existsb].
  split.
  - match goal with
    | |- ?a || (?b || false) = true =>
        assert (E : b = true)
          by exact (contains_prefix (nth 1 dimensional_marks "") _);
        rewrite E; now destruct a
    end.
  - reflexivity.
Qed.

Lemma dimensional_rows_kind (text : string) (line_dict : Dict.dict string)
      (maps : datum_maps) :
  Forall (fun r => is_dimensional r = true /\ is_datum r = false)
         (extract_dimensional_tolerances text line_dict maps).
Proof.
  unfold extract_dimensional_tolerances.
  destruct (dimensional_rows text line_dict maps) as [rows|] eqn:E; [| constructor].
  unfold dimensional_rows in E.
  destruct (append_rows (size_row _ _ _ _) _ []) as [sizes|] eqn:Es; simpl in E;
    [| discriminate].
  eapply append_rows_all; [| | exact E].
  - intros. eapply location_row_kind; eauto.
  - eapply append_rows_all; [| | exact Es].
    + intros. eapply size_row_kind; eauto.
    + constructor.
Qed.

Lemma datum_row_kind (datum_results : Dict.dict string) (entry : string * string) :
  is_dimensional (datum_row datum_results entry) = false
  /\ is_datum (datum_row datum_results entry) = true.
Proof. split; reflexivity. Qed.

Lemma filter_all (A : Type) (f : A -> bool) (xs : list A) :
  Forall (fun x => f x = true) xs -> filter f xs = xs.
Proof.
  induction 1 as [|x xs Hx _ IH]; simpl; [reflexivity |]. now rewrite Hx, IH.
Qed.

Lemma filter_none (A : Type) (f : A -> bool) (xs : list A) :
  Forall (fun x => f x = false) xs -> filter f xs = [].
Proof.
  induction 1 as [|x xs Hx _ IH]; simpl; [reflexivity |]. now rewrite Hx.
Qed.

(** The kinds of the rows of a run, part by part. *)
Lemma table_rows_kinds (text : string) (st : run_state) :
  run_extraction text = Ok st ->
  Forall (fun r => is_dimensional r = false /\ is_datum r = false)
         (map tolerance_row (run_tolerances st))
  /\ Forall (fun r => is_dimensional r = true /\ is_datum r = false)
            (run_dimensional st)
  /\ Forall (fun r => is_dimensional r = false /\ is_datum r = true)
            (map (datum_row (datum_results (run_maps st)))
                 (datum_letter_to_feature (run_maps st))).
Proof.
  intros H. destruct (run_extraction_inv _ H) as (_ & _ & _ & Ht & Hd).
  split; [| split].
  - rewrite Ht. apply Forall_map.
    eapply Forall_impl;
      [| apply (extract_tolerances_entries
                  text (run_maps st) (build_line_dict (Py.splitlines text))
                  (Py.splitlines text))].
    intros t Ht'. apply geometric_row_kind. now apply tolerance_row_ok.
  - rewrite Hd. apply dimensional_rows_kind.
  - apply Forall_map. apply Forall_forall. intros entry _. apply datum_row_kind.
Qed.

(** X3.  The three counts of the status line are the numbers of
    geometric tolerances, of dimensional rows and of datums of the run. *)
Theorem status_counts (text : string) (st : run_state) :
  run_extraction text = Ok st ->
  geometric_count (table_rows st) = length (run_tolerances st)
  /\ dimensional_count (table_rows st) = length (run_dimensional st)
  /\ datum_count (table_rows st) = length (datum_letter_to_feature (run_maps st)).
Proof.
  intros H. destruct (table_rows_kinds _ H) as (Hg & Hd & Hl).
  unfold geometric_count, dimensional_count, datum_count, table_rows.
  rewrite !filter_app, !length_app.
  rewrite (filter_all (fun r => negb (is_dimensional r) && negb (is_datum r)))
    by (eapply Forall_impl; [| exact Hg]; intros r [-> ->]; reflexivity).
  rewrite (filter_none (fun r => negb (is_dimensional r) && negb (is_datum r))
                       (xs := run_dimensional st))
    by (eapply Forall_impl; [| exact Hd]; intros r [-> ->]; reflexivity).
  rewrite (filter_none (fun r => negb (is_dimensional r) && negb (is_datum r))
                       (xs := map _ _))
    by (eapply Forall_impl; [| exact Hl]; intros r [-> ->]; reflexivity).
  rewrite (filter_none is_dimensional (xs := map tolerance_row _))
    by (eapply Forall_impl; [| exact Hg]; intros r [-> _]; reflexivity).
  rewrite (filter_all is_dimensional (xs := run_dimensional st))
    by (eapply Forall_impl; [| exact Hd]; intros r [-> _]; reflexivity).
  rewrite (filter_none is_dimensional (xs := map (datum_row _) _))
    by (eapply Forall_impl; [| exact Hl]; intros r [-> _]; reflexivity).
  rewrite (filter_none is_datum (xs := map tolerance_row _))
    by (eapply Forall_impl; [| exact Hg]; intros r [_ ->]; reflexivity).
  rewrite (filter_none is_datum (xs := run_dimensional st))
    by (eapply Forall_impl; [| exact Hd]; intros r [_ ->]; reflexivity).
  rewrite (filter_all is_datum (xs := map (datum_row _) _))
    by (eapply Forall_impl; [| exact Hl]; intros r [_ ->]; reflexivity).
  rewrite !length_map. simpl. lia.
Qed.

Lemma status_counts_witness :
  exists st,
    run_extraction diameter_scenario = Ok st
    /\ geometric_count (table_rows st) = length (run_tolerances st)
    /\ dimensional_count (table_rows st) = length (run_dimensional st)
    /\ datum_count (table_rows st) = length (datum_letter_to_feature (run_maps st)).
Proof.
  eexists. split; [vm_compute; reflexivity |].
  apply (status_counts diameter_scenario). vm_compute. reflexivity.
Defined.

Lemma Forall_nth_error (A : Type) (P : A -> Prop) (xs : list A) (i : nat) (x : A) :
  Forall P xs -> nth_error xs i = Some x -> P x.
Proof.
  intros H E. apply nth_error_In in E. rewrite Forall_forall in H. auto.
Qed.

(** X4.  The tag that the table view gives a row follows from its
    position alone: geometric rows come first and alternate between even
    and odd, dimensional rows follow, datum rows come last. *)
Theorem row_tag_by_position (text : string) (st : run_state) (idx : nat) (line : row) :
  run_extraction text = Ok st ->
  nth_error (table_rows st) idx = Some line ->
  row_tag idx line
  = tag_at (length (run_tolerances st)) (length (run_dimensional st)) idx.
Proof.
  intros H E. destruct (table_rows_kinds _ H) as (Hg & Hd & Hl).
  unfold table_rows in E. unfold row_tag, tag_at.
  destruct (Nat.ltb_spec idx (length (run_tolerances st))) as [Hlt | Hge].
  - rewrite nth_error_app1 in E by now rewrite length_map.
    destruct (Forall_nth_error _ Hg E) as [-> ->]. reflexivity.
  - rewrite nth_error_app2 in E by now rewrite length_map.
    rewrite length_map in E.
    destruct (Nat.ltb_spec idx (length (run_tolerances st)
                                + length (run_dimensional st))) as [Hlt | Hge'].
    + rewrite nth_error_app1 in E by lia.
      destruct (Forall_nth_error _ Hd E) as [-> ->]. reflexivity.
    + rewrite nth_error_app2 in E by lia.
      destruct (Forall_nth_error _ Hl E) as [-> ->]. reflexivity.
Qed.

Lemma row_tag_by_position_witness :
  exists st line,
    run_extraction diameter_scenario = Ok st
    /\ nth_error (table_rows st) 1 = Some line
    /\ row_tag 1 line
       = tag_at (length (run_tolerances st)) (length (run_dimensional st)) 1.
Proof.
  eexists. eexists. split; [vm_compute; reflexivity |].
  split; [vm_compute; reflexivity |].
  apply (row_tag_by_position diameter_scenario); vm_compute; reflexivity.
Defined.

(** ** The datum rows *)

Lemma NoDup_keys_set (V : Type) (d : Dict.dict V) (k : string) (v : V) :
  NoDup (Dict.keys d) -> NoDup (Dict.keys (Dict.set d k v)).
Proof.
  induction d as [|[k0 v0] d IH]; simpl; intros H.
  - constructor; [intros [] | constructor].
  - inversion H as [|? ? Hn Hd]; subst.
    destruct (String.eqb_spec k0 k) as [-> | Hne]; simpl.
    + now constructor.
    + constructor; [| now apply IH].
      intros Hin. apply keys_set in Hin. destruct Hin as [-> |]; auto.
Qed.

Lemma in_keys_get (V : Type) (d : Dict.dict V) (k : string) :
  In k (Dict.keys d) -> exists v, Dict.get d k = Some v.
Proof.
  induction d as [|[k0 v0] d IH]; simpl; [intros [] |].
  destruct (String.eqb_spec k0 k) as [-> | Hne]; [now eexists |].
  intros [H | H]; [contradiction | auto].
Qed.

Lemma scan_datums_nodup (lines : list string) (maps : datum_maps) :
  scan_datums lines = Ok maps -> NoDup (Dict.keys (datum_letter_to_feature maps)).
Proof.
  unfold scan_datums.
  apply for_each_invariant
    with (P := fun maps => NoDup (Dict.keys (datum_letter_to_feature maps))).
  - intros line acc acc' Hacc H. unfold scan_datum_line in H.
    destruct (re_match false datum_line_re line) as [m|];
      [| now injection H as <-].
    destruct (datum_location _ _); simpl in H; [| discriminate].
    injection H as <-. simpl. now apply NoDup_keys_set.
  - constructor.
Qed.

(** X5.  The datum rows of a run carry pairwise distinct letters, each a
    capital letter, and each row shows the location that the datum map
    holds for its letter: the default of line 805 is never used. *)
Theorem datum_rows_shape (text : string) (st : run_state) :
  run_extraction text = Ok st ->
  NoDup (map col_datum (datum_rows st))
  /\ Forall (datum_row_ok (datum_results (run_maps st))) (datum_rows st).
Proof.
  intros H. pose proof (run_maps_agree _ H) as Hagree.
  destruct (run_extraction_inv _ H) as (scanned & Hs & Hm & _).
  unfold datum_rows. split.
  - rewrite map_map. cbn [datum_row col_datum].
    rewrite Hm. cbn [datum_letter_to_feature].
    apply (scan_datums_nodup _ Hs).
  - apply Forall_map. apply Forall_forall. intros [letter name] Hin.
    assert (Hk : In letter (Dict.keys (datum_letter_to_feature (run_maps st))))
      by (unfold Dict.keys; apply (in_map fst _ _ Hin)).
    destruct (in_keys_get _ _ (Hagree _ Hk)) as (v & Hv).
    unfold datum_row_ok, no_limits, datum_row, Dict.get_default.
    cbn [col_type col_datum col_value col_location col_surface col_tolerance
         col_upper_limit col_lower_limit fst].
    rewrite Hv. repeat split.
    destruct (scan_datums_keys _ Hs) as [_ Hup].
    rewrite Hm in Hk. cbn [datum_letter_to_feature] in Hk.
    rewrite Forall_forall in Hup. auto.
Qed.

Lemma datum_rows_shape_witness :
  exists st,
    run_extraction diameter_scenario = Ok st
    /\ NoDup (map col_datum (datum_rows st))
    /\ Forall (datum_row_ok (datum_results (run_maps st))) (datum_rows st).
Proof.
  eexists. split; [vm_compute; reflexivity |].
  apply (datum_rows_shape diameter_scenario). vm_compute. reflexivity.
Defined.

(** ** A later DATUM line for a letter *)

Lemma for_each_app (A S : Type) (body : A -> S -> result S) (xs ys : list A) (acc : S) :
  for_each body (xs ++ ys) acc
  = (acc' <- for_each body xs acc ;; for_each body ys acc').
Proof.
  revert acc. induction xs as [|x xs IH]; intros acc; simpl; [reflexivity |].
  destruct (body x acc); simpl; [apply IH | reflexivity].
Qed.

Lemma get_set_other (V : Type) (d : Dict.dict V) (k k' : string) (v : V) :
  k' <> k -> Dict.get (Dict.set d k v) k' = Dict.get d k'.
Proof.
  intros Hne. induction d as [|[k0 v0] d IH]; simpl.
  - destruct (String.eqb_spec k k'); [congruence | reflexivity].
  - destruct (String.eqb_spec k0 k) as [-> | Hk]; simpl.
    + destruct (String.eqb_spec k k'); [congruence | reflexivity].
    + now rewrite IH.
Qed.

Lemma keys_set_present (V : Type) (d : Dict.dict V) (k : string) (v : V) :
  In k (Dict.keys d) -> Dict.keys (Dict.set d k v) = Dict.keys d.
Proof.
  induction d as [|[k0 v0] d IH]; simpl; [intros [] |].
  destruct (String.eqb_spec k0 k) as [-> | Hk]; simpl; [reflexivity |].
  intros [H | H]; [contradiction | now rewrite IH].
Qed.

Lemma keys_set_absent (V : Type) (d : Dict.dict V) (k : string) (v : V) :
  ~ In k (Dict.keys d) -> Dict.keys (Dict.set d k v) = (Dict.keys d ++ [k])%list.
Proof.
  induction d as [|[k0 v0] d IH]; simpl; [reflexivity |].
  intros H. destruct (String.eqb_spec k0 k) as [-> | Hk]; simpl.
  - exfalso. auto.
  - rewrite IH; auto.
Qed.

(** X6.  A well-formed DATUM line read after other lines files its
    location and its name under its letter, leaves every other letter as
    it was, and keeps the order of the letters when the letter was known:
    of two lines for one letter the later one decides, at the place of the
    earlier one. *)
Theorem later_datum_line_wins (id X Y L n : string) (lines : list string)
        (maps : datum_maps) :
  well_formed id X Y L n ->
  String.length Y <= Py.int_max_str_digits ->
  scan_datums lines = Ok maps ->
  exists location maps',
    geometric_feature_location (Py.lower Y) L = Ok location
    /\ scan_datums (lines ++ [datum_line id X Y L n]) = Ok maps'
    /\ Dict.get (datum_results maps') L = Some location
    /\ Dict.get (datum_letter_to_feature maps') L = Some (datum_name X Y L)
    /\ (forall k, k <> L ->
                  Dict.get (datum_results maps') k = Dict.get (datum_results maps) k)
    /\ Dict.keys (datum_results maps')
       = (if in_list L (Dict.keys (datum_results maps))
          then Dict.keys (datum_results maps)
          else Dict.keys (datum_results maps) ++ [L])%list.
Proof.
  intros wf Hlen Hscan.
  destruct (geometric_feature_location_total (Py.lower Y) L) as (location & Hloc);
    [now rewrite length_lower |].
  exists location.
  exists {| datum_results := Dict.set (datum_results maps) L location;
            datum_letter_to_feature :=
              Dict.set (datum_letter_to_feature maps) L (datum_name X Y L) |}.
  split; [assumption |]. split.
  { unfold scan_datums in *. rewrite for_each_app, Hscan. cbn [bind for_each].
    rewrite (scan_well_formed_line wf), Hloc. reflexivity. }
  cbn [datum_results datum_letter_to_feature].
  split; [apply get_set_same |]. split; [apply get_set_same |].
  split; [intros k Hk; now apply get_set_other |].
  unfold in_list.
  destruct (existsb (String.eqb L) (Dict.keys (datum_results maps))) eqn:E.
  - apply keys_set_present. apply existsb_exists in E.
    destruct E as (k & Hin & Hk). apply String.eqb_eq in Hk. now subst.
  - apply keys_set_absent. intros Hin.
    assert (existsb (String.eqb L) (Dict.keys (datum_results maps)) = true)
      by (apply existsb_exists; exists L; split; [assumption | apply String.eqb_refl]).
    congruence.
Qed.

Lemma later_datum_line_wins_witness :
  exists location maps',
    geometric_feature_location (Py.lower "Plane2") "A" = Ok location
    /\ scan_datums ([datum_A_line] ++ [datum_line "11" "Datum2" "Plane2" "A" "2"])
       = Ok maps'
    /\ Dict.get (datum_results maps') "A" = Some location
    /\ Dict.get (datum_letter_to_feature maps') "A"
       = Some (datum_name "Datum2" "Plane2" "A")
    /\ (forall k, k <> "A" ->
                  Dict.get (datum_results maps') k
                  = Dict.get [("A", "cylindrical side")] k)
    /\ Dict.keys (datum_results maps')
       = (if in_list "A" (Dict.keys [("A", "cylindrical side")])
          then Dict.keys [("A", "cylindrical side")]
          else Dict.keys [("A", "cylindrical side")] ++ ["A"])%list.
Proof.
  apply (@later_datum_line_wins "11" "Datum2" "Plane2" "A" "2" [datum_A_line]
           {| datum_results := [("A", "cylindrical side")];
              datum_letter_to_feature := [("A", "Datum1@Boss1(A)")] |}).
  - constructor; try reflexivity. exists "A"%char. split; reflexivity.
  - vm_compute. lia.
  - vm_compute. reflexivity.
Defined.

(** ** The datum of a dimensional row when a datum is known *)

Lemma digits_value_nonneg (s : string) :
  forall acc : Z, (0 <= acc)%Z -> (0 <= Py.digits_value s acc)%Z.
Proof.
  induction s as [|a s IH]; intros acc H; cbn [Py.digits_value]; [assumption |].
  apply IH. lia.
Qed.

Lemma length_insert_sorted (x : string) (xs : list string) :
  length (insert_sorted x xs) = S (length xs).
Proof.
  induction xs as [|y ys IH]; simpl; [reflexivity |].
  destruct (String.leb x y); simpl; [reflexivity | now rewrite IH].
Qed.

Lemma length_sorted (xs : list string) : length (sorted xs) = length xs.
Proof.
  induction xs as [|x xs IH]; simpl; [reflexivity |].
  now rewrite length_insert_sorted, IH.
Qed.

(** An index from [-len] up to [len - 1] is answered. *)
Lemma list_index_in_range (A : Type) (xs : list A) (i : Z) :
  (- Z.of_nat (length xs) <= i < Z.of_nat (length xs))%Z ->
  exists x, list_index xs i = Ok x.
Proof.
  intros H. unfold list_index.
  destruct (Z.ltb_spec i 0).
  - destruct (Z.ltb_spec (i + Z.of_nat (length xs)) 0); [lia |].
    destruct (nth_error xs (Z.to_nat (i + Z.of_nat (length xs)))) eqn:E;
      [now eexists |].
    apply nth_error_None in E. lia.
  - destruct (Z.ltb_spec i 0); [lia |].
    destruct (nth_error xs (Z.to_nat i)) eqn:E; [now eexists |].
    apply nth_error_None in E. lia.
Qed.

Lemma keys_nonempty (V : Type) (d : Dict.dict V) :
  d <> [] -> 1 <= length (Dict.keys d).
Proof. destruct d; [congruence | simpl; lia]. Qed.

Lemma named_or_empty (s : string) : s = "" \/ Py.truthy s = true.
Proof. destruct s; [now left | now right]. Qed.

Section KnownDatum.

Variable maps : datum_maps.
Hypothesis agree : maps_agree maps.
Hypothesis known : datum_results maps <> [].

Lemma first_key_total : exists k, first_key (datum_results maps) = Ok k.
Proof.
  unfold first_key. apply list_index_in_range.
  pose proof (keys_nonempty known). lia.
Qed.

Lemma dim_method3_total (fname : string) :
  String.length fname <= Py.int_max_str_digits ->
  exists answer, dim_method3 fname (datum_results maps) = Ok answer.
Proof.
  intros Hlen. unfold dim_method3.
  destruct first_key_total as (k1 & Hk1).
  pose proof (keys_nonempty known) as Hkeys.
  destruct (Py.contains "boss" fname || Py.contains "cylinder" fname).
  { destruct (first_located _ _); [now eexists |].
    destruct (datum_results maps) eqn:Ed; [congruence |].
    rewrite Hk1. now eexists. }
  destruct (Py.contains "plane" fname); [| now eexists].
  destruct (search false plane_number_re fname) as [m|] eqn:E; cbn [bind];
    [| now eexists].
  assert (Hm : String.length (group_str m 1) <= String.length fname).
  { apply search_sound in E. destruct E as (w & Hw & H).
    apply occurs_in_length in Hw. unfold plane_number_re in H. open_matches H.
    cbn. rewrite length_append in Hw. lia. }
  unfold Py.int.
  destruct (Nat.ltb_spec Py.int_max_str_digits (String.length (group_str m 1)));
    [lia |].
  cbn [bind].
  pose proof (@digits_value_nonneg (group_str m 1) 0%Z (Z.le_refl 0)) as Hn.
  destruct (Z.leb_spec (Py.digits_value (group_str m 1) 0)
                       (Z.of_nat (length (sorted (Dict.keys (datum_results maps))))))
    as [Hle | Hgt]; cbn [bind]; [| now eexists].
  destruct (@list_index_in_range _ (sorted (Dict.keys (datum_results maps)))
                                 (Py.digits_value (group_str m 1) 0 - 1)%Z)
    as (k & ->); [| cbn [bind]; now eexists].
  rewrite length_sorted in *. lia.
Qed.

Lemma dim_method5_key (fname k : string) :
  dim_method5 fname (datum_results maps) = Ok k ->
  In k (Dict.keys (datum_results maps)).
Proof.
  intros H. destruct (dim_method5_known maps _ H) as [-> | Hin]; [| assumption].
  unfold dim_method5 in H. pose proof known as Hknown.
  destruct (datum_results maps) eqn:Ed; [congruence |]. rewrite <- Ed in *.
  repeat match type of H with
         | context [if ?b then _ else _] => destruct b eqn:?
         end;
    try (injection H as H; rewrite <- H; now apply mem_in_keys);
    try (destruct (first_located _ _) eqn:?;
         [injection H as H; rewrite <- H; eapply first_located_known; eauto
         | now apply first_key_known]);
    now apply first_key_known.
Qed.

Lemma dim_method5_total (fname : string) :
  exists k, dim_method5 fname (datum_results maps) = Ok k.
Proof.
  unfold dim_method5.
  destruct first_key_total as (k & Hk).
  destruct (datum_results maps) eqn:Ed; [congruence |].
  repeat match goal with
         | |- context [if ?b then _ else _] => destruct b
         end;
    try (now eexists);
    destruct (first_located _ _); try (now eexists); rewrite Hk; now eexists.
Qed.

Lemma find_datum_key (feature_name k : string) :
  Py.truthy feature_name = true ->
  find_datum_for_dimensional_tolerance
    feature_name (datum_results maps) (datum_letter_to_feature maps) = Ok k ->
  In k (Dict.keys (datum_results maps)).
Proof.
  intros Hname. unfold find_datum_for_dimensional_tolerance.
  rewrite Hname. cbn [negb].
  rewrite datum_at_letter_never_in_lower, paren_letter_never_in_lower.
  destruct (dim_method3 (Py.lower feature_name) (datum_results maps))
    as [[k3|]|] eqn:E3; cbn [bind]; [| | discriminate].
  - intros [= <-]. eapply dim_method3_known; eauto.
  - destruct (dim_method4 (Py.lower feature_name) (datum_letter_to_feature maps))
      eqn:E4.
    + intros [= <-]. eapply dim_method4_known; eauto.
    + apply dim_method5_key.
Qed.

Lemma find_datum_answers (feature_name : string) :
  String.length feature_name <= Py.int_max_str_digits ->
  exists k,
    find_datum_for_dimensional_tolerance
      feature_name (datum_results maps) (datum_letter_to_feature maps) = Ok k.
Proof.
  intros Hlen. unfold find_datum_for_dimensional_tolerance.
  destruct (negb (Py.truthy feature_name)); [now eexists |].
  rewrite datum_at_letter_never_in_lower, paren_letter_never_in_lower.
  destruct (dim_method3_total (Py.lower feature_name)) as (answer & ->);
    [now rewrite length_lower |].
  cbn [bind]. destruct answer; [now eexists |].
  destruct (dim_method4 _ _); [now eexists |].
  apply dim_method5_total.
Qed.

End KnownDatum.



(** X8.  When at least one datum is known, a distance is always given a
    datum that is a key of the datum map, even between two features
    without a name: the joined name of line 475 is never empty. *)
Theorem distance_gets_datum (maps : datum_maps) (name1 name2 : string) :
  maps_agree maps ->
  datum_results maps <> [] ->
  String.length name1 + String.length name2 + 4 <= Py.int_max_str_digits ->
  exists k,
    location_datum maps name1 name2 = Ok k
    /\ In k (Dict.keys (datum_results maps)).
Proof.
  intros agree known Hlen. unfold location_datum.
  assert (Hjoin : String.length (name1 ++ " to " ++ name2) <= Py.int_max_str_digits)
    by (rewrite !length_append; simpl; lia).
  assert (Htruthy : Py.truthy (name1 ++ " to " ++ name2) = true)
    by (destruct name1; reflexivity).
  destruct (named_or_empty name1) as [-> | H1].
  - cbn [Py.truthy bind negb andb].
    destruct (Py.truthy name2) eqn:H2.
    + destruct (@find_datum_answers maps known name2) as (k2 & Hk2); [lia |].
      rewrite Hk2. cbn [bind].
      pose proof (@find_datum_key maps agree known _ _ H2 Hk2) as Hin.
      destruct (negb (Py.truthy k2)); [| now exists k2].
      destruct (@find_datum_answers maps known _ Hjoin) as (k & Hk).
      exists k. split; [assumption |].
      exact (@find_datum_key maps agree known _ _ Htruthy Hk).
    + cbn [bind Py.truthy negb].
      destruct (@find_datum_answers maps known _ Hjoin) as (k & Hk).
      exists k. split; [assumption |].
      exact (@find_datum_key maps agree known _ _ Htruthy Hk).
  - rewrite H1.
    destruct (@find_datum_answers maps known name1) as (k1 & Hk1); [lia |].
    rewrite Hk1. cbn [bind].
    pose proof (@find_datum_key maps agree known _ _ H1 Hk1) as Hin1.
    destruct (Py.truthy k1) eqn:Et; cbn [negb andb bind].
    + rewrite Et. cbn [negb]. now exists k1.
    + destruct (Py.truthy name2) eqn:H2.
      * destruct (@find_datum_answers maps known name2) as (k2 & Hk2); [lia |].
        rewrite Hk2. cbn [bind].
        pose proof (@find_datum_key maps agree known _ _ H2 Hk2) as Hin.
        destruct (negb (Py.truthy k2)); [| now exists k2].
        destruct (@find_datum_answers maps known _ Hjoin) as (k & Hk).
        exists k. split; [assumption |].
      exact (@find_datum_key maps agree known _ _ Htruthy Hk).
      * cbn [bind]. rewrite Et. cbn [negb].
        destruct (@find_datum_answers maps known _ Hjoin) as (k & Hk).
        exists k. split; [assumption |].
      exact (@find_datum_key maps agree known _ _ Htruthy Hk).
Qed.

Lemma distance_gets_datum_witness :
  exists k,
    location_datum {| datum_results := [("A", "cylindrical side")];
                      datum_letter_to_feature := [("A", "Datum1@Boss1(A)")] |}
                   "" "" = Ok k
    /\ In k (Dict.keys [("A", "cylindrical side")]).
Proof.
  apply (@distance_gets_datum
           {| datum_results := [("A", "cylindrical side")];
              datum_letter_to_feature := [("A", "Datum1@Boss1(A)")] |} "" "").
  - unfold maps_agree. simpl. intros k H. exact H.
  - discriminate.
  - unfold Py.int_max_str_digits. simpl. lia.
Defined.

(** ** The answers of the classifier *)

Lemma datum_letter_tier_words (fname : string) (datum_letter : option string)
      (loc : string) :
  datum_letter_tier fname datum_letter = Some loc -> In loc position_words.
Proof.
  unfold datum_letter_tier, position_words.
  repeat match goal with
         | |- context [if ?b then _ else _] => destruct b
         end;
    intros [= <-]; simpl; tauto.
Qed.

Lemma plane_number_tier_words (fname : string) (loc : string) :
  plane_number_tier fname = Ok (Some loc) -> In loc position_words.
Proof.
  unfold plane_number_tier, position_words.
  destruct (finditer false plane_number_re fname) as [|m ms]; [discriminate |].
  destruct (Py.int (group_str m 1)) as [plane_num|]; cbn [bind]; [| discriminate].
  repeat match goal with
         | |- context [if ?b then _ else _] => destruct b
         end;
    intros [= <-]; simpl; tauto.
Qed.

(** X9.  An answer of the classifier is one of five fixed phrases, or
    the feature name itself; the name is given back only when it does not
    hold the word plane in any case. *)
Theorem classifier_answers (feature_name datum_letter : option string)
        (loc : string) :
  determine_plane_position feature_name datum_letter = Ok loc ->
  In loc position_words
  \/ (loc = Py.str_opt feature_name
      /\ Py.contains "plane" (Py.lower (Py.str_opt feature_name)) = false).
Proof.
  unfold determine_plane_position.
  destruct (negb (Py.truthy_opt feature_name)); [intros [= <-]; left; simpl; tauto |].
  destruct (Py.any_in _ _); [intros [= <-]; left; simpl; tauto |].
  destruct (Py.any_in _ _); [intros [= <-]; left; simpl; tauto |].
  destruct (datum_letter_tier _ _) as [l|] eqn:E1.
  { intros [= <-]. left. eapply datum_letter_tier_words; eauto. }
  destruct (plane_number_tier _) as [[l|]|] eqn:E2; cbn [bind]; [| | discriminate].
  { intros [= <-]. left. eapply plane_number_tier_words; eauto. }
  unfold plane_keyword_tier.
  destruct (Py.contains "plane" _) eqn:Ep.
  - repeat match goal with
           | |- context [if ?b then _ else _] => destruct b
           end;
      intros [= <-]; left; simpl; tauto.
  - intros [= <-]. right. auto.
Qed.

Lemma classifier_answers_witness :
  determine_plane_position (Some "Groove7") (Some "K") = Ok "Groove7"
  /\ (In "Groove7" position_words
      \/ ("Groove7" = Py.str_opt (Some "Groove7")
          /\ Py.contains "plane" (Py.lower (Py.str_opt (Some "Groove7"))) = false)).
Proof.
  assert (H : determine_plane_position (Some "Groove7") (Some "K") = Ok "Groove7")
    by (vm_compute; reflexivity).
  split; [exact H |].
  exact (classifier_answers (Some "Groove7") (Some "K") H).
Defined.

(** ** The letter written in the name of a tolerance *)

Lemma single_truthy (p : ascii -> bool) (s : string) : single p s -> Py.truthy s = true.
Proof. now intros (a & -> & _). Qed.

(** X10.  When the name of a geometric tolerance holds a capital letter
    between parentheses and the datum map has a non-empty location for the
    first such letter, the six methods answer with that letter and that
    location, whatever the label, the lines and the number of rows. *)
Theorem written_letter_wins (maps : datum_maps) (line_dict : Dict.dict string)
        (lines : list string) (tol_id tol_name label : string) (count : nat)
        (m : caps) (loc : string) :
  search false paren_letter_re tol_name = Some m ->
  Dict.get (datum_results maps) (group_str m 1) = Some loc ->
  Py.truthy loc = true ->
  resolve_datum maps line_dict lines tol_id tol_name label count
  = (group_str m 1, loc).
Proof.
  intros Hm Hget Hloc.
  pose proof (single_truthy (paren_letter_upper _ Hm)) as Hletter.
  unfold resolve_datum, method1. rewrite Hm.
  unfold Dict.get_default. rewrite Hget.
  unfold method2. cbn [fst snd]. rewrite Hletter. cbn [negb].
  unfold method3. cbn [fst snd]. rewrite Hletter. cbn [negb].
  unfold method4. cbn [fst snd]. rewrite Hloc. cbn [negb].
  unfold method5. cbn [fst snd]. rewrite Hletter. cbn [negb andb].
  unfold method6. cbn [fst snd]. rewrite Hloc. reflexivity.
Qed.

Lemma written_letter_wins_witness :
  resolve_datum {| datum_results := [("A", "top face"); ("B", "cylindrical side")];
                   datum_letter_to_feature := [] |}
                [] [] "#20" "Boss1 (B)" "Flatness" 0
  = (group_str [(1, "B")] 1, "cylindrical side").
Proof.
  apply (@written_letter_wins
           {| datum_results := [("A", "top face"); ("B", "cylindrical side")];
              datum_letter_to_feature := [] |}
           [] [] "#20" "Boss1 (B)" "Flatness" 0 [(1, "B")] "cylindrical side");
    reflexivity.
Defined.

(** ** The format helper *)

Lemma drop_blanks_head (c : ascii) (s : string) :
  F64.is_blank c = false ->
  F64.drop_blanks (String c s) = String c (F64.drop_blanks s).
Proof.
  intros H. cbn [F64.drop_blanks].
  destruct (F64.drop_blanks s); [now rewrite H | reflexivity].
Qed.

(** A text that begins with the prefix of a tolerance range is not a
    number. *)
Lemma prefixed_is_no_number (value : string) :
  F64.of_string (range_prefix ++ value) = Raise ValueError.
Proof.
  unfold F64.of_string, F64.trim, range_prefix.
  cbn [append F64.skip_blanks].
  replace (F64.is_blank "194") with false by reflexivity.
  rewrite drop_blanks_head by reflexivity.
  reflexivity.
Qed.

(** X11.  Formatting a tolerance value twice is formatting it once: a
    value that already carries the prefix is left as it is. *)
Theorem format_tolerance_value_idempotent (value : string) :
  format_tolerance_value (format_tolerance_value value)
  = format_tolerance_value value.
Proof.
  remember (format_tolerance_value value) as r eqn:Hr.
  unfold format_tolerance_value in Hr.
  destruct (String.eqb value "N/A" || negb (Py.truthy value)) eqn:E.
  - subst r. reflexivity.
  - destruct (F64.of_string value) eqn:Ev; subst r.
    + unfold format_tolerance_value. rewrite prefixed_is_no_number.
      reflexivity.
    + unfold format_tolerance_value. now rewrite E, Ev.
Qed.

(** ** The limits helper *)

(** The text of a float holds a full stop or the letter e, unless the
    float is not a number or is infinite. *)
Lemma repr_plain (x : F64.float) :
  Py.all_chars plain_char (F64.repr x) = true ->
  In (F64.repr x) ["nan"; "inf"; "-inf"].
Proof.
  destruct x as [s | s | | s m e].
  - destruct s; discriminate.
  - destruct s; intros _; cbn; tauto.
  - intros _. cbn. tauto.
  - intros Hp. exfalso. unfold F64.repr in Hp.
    destruct (F64.fraction m e) as [num den].
    destruct (F64.shortest_digits 17 1 m e (F64.decimal_exponent num den))
      as [ds decpt].
    rewrite all_chars_append in Hp. apply andb_prop in Hp. destruct Hp as [_ Hp].
    repeat match type of Hp with
           | context [if ?b then _ else _] => destruct b
           end;
      repeat (rewrite all_chars_append in Hp; cbn [Py.all_chars] in Hp);
      repeat match type of Hp with
             | context [plain_char ?c] =>
                 let v := eval vm_compute in (plain_char c) in
                 change (plain_char c) with v in Hp
             end;
      cbn [andb] in Hp;
      rewrite ?andb_false_r in Hp; discriminate Hp.
Qed.

Lemma repr_is_not_na (x : F64.float) : F64.repr x <> "N/A".
Proof.
  intros H. assert (Hp : Py.all_chars plain_char (F64.repr x) = true)
    by (rewrite H; reflexivity).
  apply repr_plain in Hp. rewrite H in Hp. simpl in Hp.
  destruct Hp as [Hp | [Hp | [Hp | []]]]; discriminate Hp.
Qed.

Lemma repr_nonempty (x : F64.float) : F64.repr x <> "".
Proof.
  intros H. assert (Hp : Py.all_chars plain_char (F64.repr x) = true)
    by (rewrite H; reflexivity).
  apply repr_plain in Hp. rewrite H in Hp. simpl in Hp.
  destruct Hp as [Hp | [Hp | [Hp | []]]]; discriminate Hp.
Qed.

(** X12.  The limits are reported as not available exactly when one of
    the two conversions to a number fails; no number, and no tolerance
    type, gives that answer. *)
Theorem limits_not_available (tolerance_type tolerance_value : string)
        (nominal_value : option string) :
  calculate_tolerance_limits tolerance_type tolerance_value nominal_value
  = ("N/A", "N/A")
  <-> exists e, limit_operands tolerance_value nominal_value = Raise e.
Proof.
  unfold calculate_tolerance_limits.
  destruct (limit_operands tolerance_value nominal_value) as [[tol_val nominal]|e].
  - split; [| intros (e & He); discriminate].
    repeat match goal with
           | |- context [if ?b then _ else _] => destruct b
           end;
      intros H; try discriminate H;
      injection H as H _; now apply repr_is_not_na in H.
  - split; [intros _; now exists e | reflexivity].
Qed.

(** ** The surface mappers *)

(** X13.  The two surface mappers differ in two answers only: where one
    says cylindrical side the other says curved side of the cylinder, and
    where one gives a name that holds the word face back, the other says
    planar face. *)
Theorem surface_mappers_agree (label : string) (feature_name : option string) :
  get_likely_location label feature_name = get_surface_type feature_name None
  \/ (get_surface_type feature_name None = Ok "cylindrical side"
      /\ get_likely_location label feature_name = Ok "curved side of the cylinder")
  \/ (get_surface_type feature_name None = Ok (Py.str_opt feature_name)
      /\ get_likely_location label feature_name = Ok "planar face"
      /\ Py.contains "face" (Py.lower (Py.str_opt feature_name)) = true).
Proof.
  unfold get_likely_location, get_surface_type.
  destruct (negb (Py.truthy_opt feature_name)); [now left |].
  destruct (Py.contains "torus" _); [now left |].
  destruct (String.eqb _ "torus"); [now left |].
  destruct (Py.contains "plane" _); [now left |].
  destruct (Py.contains "cone" _ || Py.contains "conical" _); [now left |].
  destruct (Py.contains "boss1" _ || Py.contains "cylindrical" _
            || Py.contains "side" _); [right; left; auto |].
  destruct (Py.contains "face" _) eqn:E; [right; right; auto | now left].
Qed.

(** X14.  Cleaning a feature name twice is cleaning it once: the answer
    is one of the six feature types, or the name as it was given. *)
Theorem clean_feature_name_idempotent (feature_name : option string) :
  (In (clean_feature_name feature_name) feature_types
   \/ clean_feature_name feature_name = ""
   \/ clean_feature_name feature_name = Py.str_opt feature_name)
  /\ clean_feature_name (Some (clean_feature_name feature_name))
     = clean_feature_name feature_name.
Proof.
  remember (clean_feature_name feature_name) as r eqn:Hr.
  unfold clean_feature_name in Hr.
  destruct (negb (Py.truthy_opt feature_name)) eqn:Et.
  { subst r. split; [auto | reflexivity]. }
  destruct (find _ feature_types) as [ftype|] eqn:Ef.
  - subst r. apply find_some in Ef. destruct Ef as [Hin _].
    split; [now left |].
    unfold feature_types in Hin. simpl in Hin.
    destruct Hin as [<- | [<- | [<- | [<- | [<- | [<- | []]]]]]];
      vm_compute; reflexivity.
  - subst r. split; [auto |].
    destruct feature_name as [name|]; [| discriminate].
    cbn [Py.str_opt] in *. unfold clean_feature_name.
    cbn [Py.truthy_opt] in *. rewrite Et. cbn [Py.str_opt]. now rewrite Ef.
Qed.

(** ** The dimensional rows *)

Lemma append_nonempty_r (a b : string) : b <> "" -> a ++ b <> "".
Proof. destruct a; [auto | discriminate]. Qed.

Lemma format_3f_nonempty (x : F64.float) : F64.format_3f x <> "".
Proof.
  destruct x as [s | s | | s m e]; cbn [F64.format_3f];
    try (destruct s; discriminate); try discriminate.
  destruct (F64.fraction m e) as [num den].
  apply append_nonempty_r, append_nonempty_r. discriminate.
Qed.

Lemma value_text_shape (value : option F64.float) :
  value_text value <> ""
  /\ (has_value value = true -> value_text value <> "N/A").
Proof.
  unfold value_text, has_value. destruct value as [x|]; [| split; discriminate].
  destruct (F64.truthy x); [| split; discriminate].
  split; [apply repr_nonempty | intros _; apply repr_is_not_na].
Qed.

Lemma tolerance_columns_shape (tables : link_tables) (dim_id : string)
      (value : option F64.float) (tolerance_range upper_limit lower_limit : string) :
  tolerance_columns tables dim_id value = (tolerance_range, upper_limit, lower_limit) ->
  (tolerance_range = "" /\ upper_limit = "" /\ lower_limit = "")
  \/ ((exists t, t <> "" /\ tolerance_range = range_prefix ++ t)
      /\ ((upper_limit = "" /\ lower_limit = "")
          \/ (has_value value = true /\ upper_limit <> "" /\ lower_limit <> ""))).
Proof.
  unfold tolerance_columns.
  destruct (Dict.get (dimension_to_tolerance tables) dim_id) as [[tol_val_id pm]|];
    [| intros [= <- <- <-]; now left].
  destruct (Dict.get (tolerance_values tables) tol_val_id) as [data|];
    [| intros [= <- <- <-]; now left].
  assert (Hr : exists t, t <> ""
                         /\ range_prefix ++ F64.format_3f (F64.div (td_range data) F64.two)
                            = range_prefix ++ t)
    by (eexists; split; [apply format_3f_nonempty | reflexivity]).
  destruct value as [nom_val|];
    [| intros [= <- <- <-]; right; split; [exact Hr | now left]].
  destruct (F64.truthy nom_val) eqn:Et;
    [| intros [= <- <- <-]; right; split; [exact Hr | now left]].
  intros [= <- <- <-]. right.
  split; [exact Hr |]. right. cbn [has_value]. rewrite Et.
  repeat split; apply format_3f_nonempty.
Qed.

Lemma measured_columns (tables : link_tables) (dim_id : string)
      (value : option F64.float) (r : row) :
  col_value r = value_text value ->
  tolerance_columns tables dim_id value
  = (col_tolerance r, col_upper_limit r, col_lower_limit r) ->
  measured_ok r.
Proof.
  intros Hv Hc. pose proof (tolerance_columns_shape _ _ _ Hc) as H.
  unfold measured_ok, no_limits. rewrite Hv.
  destruct (value_text_shape value) as [Hne Hna].
  split; [assumption |].
  destruct H as [H | [Hr [H | (Hh & Hu & Hl)]]]; [now left | right; auto |].
  right. split; [assumption |]. right. auto.
Qed.

Lemma size_row_shape (text : string) (line_dict : Dict.dict string)
      (maps : datum_maps) (tables : link_tables) (m : caps) (r : row) :
  size_row text line_dict maps tables m = Ok r ->
  size_row_ok r /\ measured_ok r.
Proof.
  unfold size_row.
  destruct (tolerance_columns _ _ _) as [[tolerance_range upper] lower] eqn:Ec.
  destruct (find_datum_for_dimensional_tolerance _ _ _); cbn [bind]; [| discriminate].
  intros [= <-]. split.
  - unfold size_row_ok. cbn [col_type col_location col_surface].
    split; [reflexivity |]. split; [| reflexivity].
    destruct (Py.contains "boss" _); simpl; auto.
  - eapply measured_columns; [reflexivity |].
    cbn [col_tolerance col_upper_limit col_lower_limit]. exact Ec.
Qed.

Lemma title_nonempty (s : string) : Py.truthy s = true -> Py.title s <> "".
Proof. destruct s; [discriminate | discriminate]. Qed.

Lemma location_row_shape (text : string) (line_dict : Dict.dict string)
      (maps : datum_maps) (tables : link_tables) (m : caps) (r : row) :
  location_row text line_dict maps tables m = Ok r ->
  distance_row_ok r /\ measured_ok r.
Proof.
  unfold location_row.
  destruct (tolerance_columns _ _ _) as [[tolerance_range upper] lower] eqn:Ec.
  destruct (location_datum _ _ _); cbn [bind]; [| discriminate].
  intros [= <-]. split.
  - unfold distance_row_ok. cbn [col_type col_location col_surface]. split.
    + eexists. split; [| reflexivity].
      destruct (Py.truthy (group_str m 2)) eqn:Et;
        [now apply title_nonempty | discriminate].
    + match goal with
      | |- context [if ?b then "between planes" else _] => destruct b
      end; simpl; auto.
  - eapply measured_columns; [reflexivity |].
    cbn [col_tolerance col_upper_limit col_lower_limit]. exact Ec.
Qed.

(** What [append_rows] adds: one row for each element, after the rows
    that were there. *)
Lemma append_rows_split (A : Type) (f : A -> result row) (P : row -> Prop) :
  (forall x r, f x = Ok r -> P r) ->
  forall xs rows rows',
    append_rows f xs rows = Ok rows' ->
    exists added,
      rows' = (rows ++ added)%list /\ length added = length xs /\ Forall P added.
Proof.
  intros Hf. unfold append_rows.
  induction xs as [|x xs IH]; intros rows rows' H; cbn [for_each] in H.
  - injection H as <-. exists []. rewrite app_nil_r. auto.
  - destruct (f x) as [r|] eqn:E; cbn [bind] in H; [| discriminate].
    destruct (IH _ _ H) as (added & -> & Hl & Hp).
    exists (r :: added). rewrite <- app_assoc. simpl.
    split; [reflexivity |]. split; [now rewrite Hl |].
    constructor; eauto.
Qed.

(** X15.  The dimensional rows of a run are the diameter rows followed
    by the distance rows: one row for each match of the two patterns, or
    no row at all when the extractor raised.  A diameter row and a
    distance row have fixed types, locations and surfaces; limits are
    shown only next to a tolerance range and a nominal value. *)
Theorem dimensional_rows_shape (text : string) (st : run_state) :
  run_extraction text = Ok st ->
  exists sizes distances,
    run_dimensional st = (sizes ++ distances)%list
    /\ Forall (fun r => size_row_ok r /\ measured_ok r) sizes
    /\ Forall (fun r => distance_row_ok r /\ measured_ok r) distances
    /\ ((sizes = [] /\ distances = [])
        \/ (length sizes = length (finditer true dimensional_size_pattern text)
            /\ length distances
               = length (finditer true dimensional_location_pattern text))).
Proof.
  intros H. destruct (run_extraction_inv _ H) as (_ & _ & _ & _ & Hd).
  rewrite Hd. unfold extract_dimensional_tolerances.
  destruct (dimensional_rows _ _ _) as [rows|] eqn:E;
    [| exists [], []; repeat split; auto].
  unfold dimensional_rows in E.
  destruct (append_rows (size_row _ _ _ _) _ []) as [sizes|] eqn:Es; cbn [bind] in E;
    [| discriminate].
  destruct (@append_rows_split _ _ (fun r => size_row_ok r /\ measured_ok r)
                               (@size_row_shape _ _ _ _) _ _ _ Es)
    as (added & -> & Hl & Hp).
  destruct (@append_rows_split _ _ (fun r => distance_row_ok r /\ measured_ok r)
                               (@location_row_shape _ _ _ _) _ _ _ E)
    as (added' & -> & Hl' & Hp').
  exists added, added'. cbn [app].
  split; [reflexivity |]. split; [assumption |]. split; [assumption |].
  right. split; assumption.
Qed.

Lemma dimensional_rows_shape_witness :
  exists st,
    run_extraction diameter_scenario = Ok st
    /\ exists sizes distances,
      run_dimensional st = (sizes ++ distances)%list
      /\ Forall (fun r => size_row_ok r /\ measured_ok r) sizes
      /\ Forall (fun r => distance_row_ok r /\ measured_ok r) distances
      /\ ((sizes = [] /\ distances = [])
          \/ (length sizes
              = length (finditer true dimensional_size_pattern diameter_scenario)
              /\ length distances
                 = length (finditer true dimensional_location_pattern
                                    diameter_scenario))).
Proof.
  eexists. split; [vm_compute; reflexivity |].
  apply (dimensional_rows_shape diameter_scenario). vm_compute. reflexivity.
Defined.

(** ** The two engines *)

Lemma extract_tolerances_values (text : string) (maps : datum_maps)
      (line_dict : Dict.dict string) (lines : list string) (dr : Dict.dict string) :
  map tr_value (extract_tolerances text maps line_dict lines)
  = map MainPy.col_value
        (map (MainPy.extract_tolerance dr line_dict) (finditer true tol_pattern text)).
Proof.
  unfold extract_tolerances.
  assert (H : forall ms acc,
             map tr_value (fold_left (extract_tolerance maps line_dict lines) ms acc)
             = (map tr_value acc
                ++ map MainPy.col_value
                       (map (MainPy.extract_tolerance dr line_dict) ms))%list).
  { induction ms as [|m ms IH]; intros acc; cbn [fold_left map];
      [now rewrite app_nil_r |].
    rewrite IH. unfold extract_tolerance. rewrite map_app, <- app_assoc.
    reflexivity. }
  apply (H _ []).
Qed.

(** X16.  [main.py] raises exactly when the body of the 8-column engine
    raises.  When neither does, the table of [main.py] has the geometric
    rows and the datum rows of the other in the same order, with the same
    values, and its datum rows are the first five columns of the other's. *)
Theorem engines_agree (text : string) :
  match extraction_body text, MainPy.extract_tolerance_table text with
  | Raise e, Raise e' => e = e'
  | Ok _, Ok rows =>
      exists st,
        run_extraction text = Ok st
        /\ length rows = length (geometric_rows st) + length (datum_rows st)
        /\ map MainPy.col_value rows
           = map col_value (geometric_rows st ++ datum_rows st)
        /\ skipn (length (geometric_rows st)) rows
           = map five_columns (datum_rows st)
  | _, _ => False
  end.
Proof.
  unfold extraction_body, MainPy.extract_tolerance_table.
  destruct (run_extraction text) as [st|e] eqn:E; cbn [bind].
  - destruct (run_extraction_inv _ E) as (scanned & Hs & Hm & Ht & _).
    rewrite Hs. cbn [bind]. exists st. split; [reflexivity |].
    unfold geometric_rows, datum_rows.
    destruct st as [maps tols dims]. cbn [run_maps run_tolerances] in *.
    subst maps. cbn [datum_results datum_letter_to_feature].
    assert (Hv : map col_value (map tolerance_row tols)
                 = map MainPy.col_value
                       (map (MainPy.extract_tolerance
                               (scan_shape_aspects text (datum_results scanned))
                               (build_line_dict (Py.splitlines text)))
                            (finditer true tol_pattern text))).
    { rewrite map_map. cbn [tolerance_row col_value]. rewrite Ht.
      apply extract_tolerances_values. }
    assert (Hl : length (map tolerance_row tols)
                 = length (map (MainPy.extract_tolerance
                                  (scan_shape_aspects text (datum_results scanned))
                                  (build_line_dict (Py.splitlines text)))
                               (finditer true tol_pattern text))).
    { apply (f_equal (@length string)) in Hv. now rewrite !length_map in *. }
    split; [rewrite !length_app, Hl, !length_map; reflexivity |].
    split.
    + rewrite !map_app, Hv. f_equal. rewrite !map_map. reflexivity.
    + rewrite Hl, skipn_app, skipn_all, Nat.sub_diag. cbn [skipn app].
      rewrite map_map. reflexivity.
  - unfold run_extraction in E.
    destruct (scan_datums (Py.splitlines text)) as [scanned|e']; cbn [bind] in *;
      [discriminate | congruence].
Qed.

(** ** Short lines *)

(** X17.  A text in which no line has more than 4300 characters never
    raises: the run ends, and the table is the one of its state. *)
Theorem short_lines_never_raise (text : string) :
  short_lines text = true ->
  exists st,
    run_extraction text = Ok st /\ extract_tolerance_data text = table_rows st.
Proof.
  intros H. unfold extract_tolerance_data, extraction_body, run_extraction, scan_datums.
  destruct (scan_datums_total _ H
              {| datum_results := []; datum_letter_to_feature := [] |})
    as (scanned & ->).
  cbn [bind]. eexists. split; reflexivity.
Qed.

Lemma short_lines_never_raise_witness :
  short_lines diameter_scenario = true
  /\ exists st,
      run_extraction diameter_scenario = Ok st
      /\ extract_tolerance_data diameter_scenario = table_rows st.
Proof.
  assert (H : short_lines diameter_scenario = true) by (vm_compute; reflexivity).
  split; [exact H |]. exact (short_lines_never_raise diameter_scenario H).
Defined.

(** ** The entity index *)

Lemma entity_id_shape (line : string) (m : caps) :
  re_match false entity_id_re line = Some m ->
  exists digits rest,
    group_str m 1 = "#" ++ digits /\ is_number digits = true
    /\ line = group_str m 1 ++ rest.
Proof.
  intros H. apply re_match_sound in H. destruct H as (w & post & -> & H).
  unfold entity_id_re, entity_ref in H. open_matches H.
  match goal with
  | X : lit_rest false "#" ?w = Some "" |- _ => apply lit_rest_exact in X; subst w
  end.
  match goal with
  | X : Py.all_chars (cls_ok false digit) ?d = true |- _ =>
      exists d; eexists; split; [reflexivity |]; split;
      [now apply digits_of_class |]
  end.
  cbn [group_str group Nat.eqb]. rewrite !append_assoc. reflexivity.
Qed.

(** X18.  Every entry of the entity index comes from a line of the
    text: the key is a number sign followed by digits, the line begins
    with the key, and the value is the line without the white space at
    its ends. *)
Theorem entity_index_entries (lines : list string) (key value : string) :
  Dict.get (build_line_dict lines) key = Some value ->
  exists line digits rest,
    In line lines
    /\ key = "#" ++ digits /\ is_number digits = true
    /\ line = key ++ rest
    /\ value = Py.strip line.
Proof.
  unfold build_line_dict. revert key value.
  apply fold_left_invariant_in
    with (P := fun d =>
                 forall key value,
                   Dict.get d key = Some value ->
                   exists line digits rest,
                     In line lines
                     /\ key = "#" ++ digits /\ is_number digits = true
                     /\ line = key ++ rest
                     /\ value = Py.strip line).
  - intros d line Hin Hd key value. unfold index_line.
    destruct (re_match false entity_id_re line) as [m|] eqn:E; [| apply Hd].
    destruct (String.eqb_spec key (group_str m 1)) as [-> | Hne].
    + rewrite get_set_same. intros [= <-].
      destruct (entity_id_shape _ E) as (digits & rest & Hk & Hn & Hl).
      exists line, digits, rest. auto.
    + rewrite get_set_other by assumption. apply Hd.
  - intros key value H. discriminate H.
Qed.

Lemma entity_index_entries_witness :
  exists line digits rest,
    In line [" #7 = A;"; "#12 = B ;  "; "#12=C;"]
    /\ "#12" = "#" ++ digits /\ is_number digits = true
    /\ line = "#12" ++ rest
    /\ "#12=C;" = Py.strip line.
Proof.
  apply (entity_index_entries [" #7 = A;"; "#12 = B ;  "; "#12=C;"]).
  vm_compute. reflexivity.
Defined.

(** ** A plane number when no datum is known *)

Lemma contains_occurs (p x s : string) :
  occurs_in (p ++ x) s -> Py.contains p s = true.
Proof.
  intros (pre & post & ->). induction pre as [|a pre IH].
  - cbn [append]. rewrite append_assoc. apply contains_prefix.
  - cbn [append Py.contains]. rewrite IH. apply orb_true_r.
Qed.

Lemma plane_number_holds_plane (s : string) (m : caps) :
  search false plane_number_re s = Some m -> Py.contains "plane" s = true.
Proof.
  intros H. apply search_sound in H. destruct H as (w & Hw & H).
  unfold plane_number_re in H. open_matches H.
  match goal with
  | X : lit_rest false "plane" ?w = Some "" |- _ => apply lit_rest_exact in X; subst w
  end.
  eapply contains_occurs; eauto.
Qed.

(** X19.  With no datum known, a feature that is a numbered plane (and
    neither a boss nor a cylinder) gets no datum, except that the plane
    number 0 indexes the empty list of letters and raises IndexError. *)
Theorem plane_number_without_datum (feature_name : string) (m : caps) :
  Py.contains "boss" (Py.lower feature_name)
  || Py.contains "cylinder" (Py.lower feature_name) = false ->
  search false plane_number_re (Py.lower feature_name) = Some m ->
  String.length feature_name <= Py.int_max_str_digits ->
  find_datum_for_dimensional_tolerance feature_name [] []
  = if Z.eqb (Py.digits_value (group_str m 1) 0) 0 then Raise IndexError
    else Ok "".
Proof.
  intros Hboss Hm Hlen.
  assert (Hname : Py.truthy feature_name = true)
    by (destruct feature_name; [discriminate Hm | reflexivity]).
  assert (Hdigits : String.length (group_str m 1) <= Py.int_max_str_digits).
  { pose proof Hm as H. apply search_sound in H. destruct H as (w & Hw & H).
    apply occurs_in_length in Hw. rewrite length_lower in Hw.
    unfold plane_number_re in H. open_matches H. cbn.
    rewrite length_append in Hw. lia. }
  unfold find_datum_for_dimensional_tolerance. rewrite Hname. cbn [negb].
  rewrite datum_at_letter_never_in_lower, paren_letter_never_in_lower.
  unfold dim_method3. rewrite Hboss, (plane_number_holds_plane _ Hm), Hm.
  unfold Py.int.
  destruct (Nat.ltb_spec Py.int_max_str_digits (String.length (group_str m 1)));
    [lia |].
  cbn [bind Dict.keys map sorted fold_right length Z.of_nat].
  pose proof (@digits_value_nonneg (group_str m 1) 0%Z (Z.le_refl 0)) as Hn.
  destruct (Z.eqb_spec (Py.digits_value (group_str m 1) 0) 0) as [-> | Hne].
  - reflexivity.
  - destruct (Z.leb_spec (Py.digits_value (group_str m 1) 0) 0); [lia |].
    reflexivity.
Qed.

Lemma plane_number_without_datum_witness :
  find_datum_for_dimensional_tolerance "Plane00" [] []
  = if Z.eqb (Py.digits_value (group_str [(1, "00")] 1) 0) 0 then Raise IndexError
    else Ok "".
Proof.
  apply (@plane_number_without_datum "Plane00" [(1, "00")]).
  - reflexivity.
  - reflexivity.
  - unfold Py.int_max_str_digits. simpl. lia.
Defined.

(** ** The engine of [try.py] *)

Lemma try_py_tolerance_row (t : tol_result) :
  tolerance_entry_ok t -> TryPy.tolerance_row t = at_datum (tolerance_row t).
Proof.
  intros (Hl & _). destruct t as [label value datum location tv ul ll].
  cbn [tr_label] in Hl. unfold tolerance_labels in Hl. cbn [In] in Hl.
  unfold TryPy.tolerance_row, at_datum, tolerance_row.
  cbn [tr_label tr_value tr_datum tr_location col_type col_value col_datum
       col_location col_surface].
  destruct Hl as [<- | [<- | [<- | [<- | []]]]]; reflexivity.
Qed.

(** The body of [try.py] in terms of a run of the 8-column engine. *)
Lemma try_py_body (text : string) :
  TryPy.extraction_body text
  = (st <- run_extraction text ;;
     Ok (map at_datum (geometric_rows st) ++ map five_columns (datum_rows st))%list).
Proof.
  unfold TryPy.extraction_body, run_extraction.
  destruct (scan_datums (Py.splitlines text)) as [scanned|e]; cbn [bind];
    [| reflexivity].
  unfold geometric_rows, datum_rows.
  cbn [run_maps run_tolerances datum_results datum_letter_to_feature].
  f_equal. f_equal.
  - rewrite map_map. apply map_ext_in. intros t Hin.
    apply try_py_tolerance_row.
    destruct (extract_tolerances_entries
                text
                {| datum_results := scan_shape_aspects text (datum_results scanned);
                   datum_letter_to_feature := datum_letter_to_feature scanned |}
                (build_line_dict (Py.splitlines text)) (Py.splitlines text))
      as [_ Hf].
    rewrite Forall_forall in Hf. auto.
  - rewrite map_map. reflexivity.
Qed.

(** X20.  The table of [try.py] is the table of the 8-column engine
    without its dimensional rows and cut to five columns, where the
    location of a geometric row with a datum reads "at datum" and the
    letter; it is empty when the other engine raises. *)
Theorem try_py_rows (text : string) :
  TryPy.extract_tolerance_data text
  = match run_extraction text with
    | Ok st =>
        (map at_datum (geometric_rows st) ++ map five_columns (datum_rows st))%list
    | Raise _ => []
    end.
Proof.
  unfold TryPy.extract_tolerance_data. rewrite try_py_body.
  destruct (run_extraction text) as [st|e]; reflexivity.
Qed.

(** X21.  In the table view of [try.py] the tag of a row follows from
    its position: the geometric rows alternate between even and odd, the
    datum rows that follow are tagged as datums. *)
Theorem try_py_row_tag (text : string) (st : run_state) (idx : nat)
        (line : MainPy.row) :
  run_extraction text = Ok st ->
  nth_error (TryPy.extract_tolerance_data text) idx = Some line ->
  TryPy.row_tag idx line = tag_at (length (run_tolerances st)) 0 idx.
Proof.
  intros H E. unfold TryPy.extract_tolerance_data in E.
  rewrite try_py_body, H in E. cbn [bind] in E.
  destruct (table_rows_kinds _ H) as (Hg & _ & _).
  unfold TryPy.row_tag, tag_at. rewrite Nat.add_0_r.
  unfold geometric_rows in E.
  destruct (Nat.ltb_spec idx (length (run_tolerances st))) as [Hlt | Hge].
  - rewrite nth_error_app1 in E by now rewrite !length_map.
    rewrite nth_error_map in E.
    destruct (nth_error (map tolerance_row (run_tolerances st)) idx) as [r|] eqn:Er;
      [| discriminate].
    injection E as <-. destruct (Forall_nth_error _ Hg Er) as [_ Hd].
    unfold is_datum in Hd. cbn [at_datum MainPy.col_type]. now rewrite Hd.
  - rewrite nth_error_app2 in E by now rewrite !length_map.
    unfold datum_rows in E. rewrite !nth_error_map in E.
    destruct (nth_error (datum_letter_to_feature (run_maps st)) _); [| discriminate].
    injection E as <-. reflexivity.
Qed.

Lemma try_py_row_tag_witness :
  exists st line,
    run_extraction straightness_text = Ok st
    /\ nth_error (TryPy.extract_tolerance_data straightness_text) 4 = Some line
    /\ TryPy.row_tag 4 line = tag_at (length (run_tolerances st)) 0 4.
Proof.
  eexists. eexists. split; [vm_compute; reflexivity |].
  split; [vm_compute; reflexivity |].
  apply (try_py_row_tag straightness_text); vm_compute; reflexivity.
Defined.

(** ** What the shape-aspect scan leaves alone *)

Lemma keys_set_tail (V : Type) (d : Dict.dict V) (k : string) (v : V) :
  exists tail,
    Dict.keys (Dict.set d k v) = (Dict.keys d ++ tail)%list
    /\ (tail = [] \/ tail = [k]).
Proof.
  destruct (in_dec string_dec k (Dict.keys d)) as [Hin | Hout].
  - exists []. rewrite app_nil_r. split; [now apply keys_set_present | now left].
  - exists [k]. split; [now apply keys_set_absent | now right].
Qed.

(** X22.  The shape-aspect scan keeps the letters of the datum map in
    their order and adds new keys behind them, each the character that a
    match of the pattern captured; the location of a key that no match
    captured is left as it was. *)
Theorem shape_aspect_scan_frame (text : string) (d : Dict.dict string) :
  (exists added,
      Dict.keys (scan_shape_aspects text d) = (Dict.keys d ++ added)%list
      /\ Forall (shape_aspect_key text) added)
  /\ forall k,
      (forall m, In m (finditer false shape_aspect_pattern text) ->
                 group_str m 2 <> k) ->
      Dict.get (scan_shape_aspects text d) k = Dict.get d k.
Proof.
  unfold scan_shape_aspects.
  apply fold_left_invariant_in
    with (P := fun d' =>
                 (exists added,
                     Dict.keys d' = (Dict.keys d ++ added)%list
                     /\ Forall (shape_aspect_key text) added)
                 /\ forall k,
                     (forall m, In m (finditer false shape_aspect_pattern text) ->
                                group_str m 2 <> k) ->
                     Dict.get d' k = Dict.get d k).
  - intros acc m Hin [(added & Hk & Ha) Hget]. unfold scan_shape_aspect.
    destruct (Py.truthy_opt (group m 2)) eqn:E; [| split; [now exists added | assumption]].
    split.
    + destruct (keys_set_tail acc (group_str m 2)
                              (shape_location (Py.lower (group_str m 1))))
        as (tail & -> & Ht).
      exists (added ++ tail)%list. rewrite Hk, app_assoc. split; [reflexivity |].
      apply Forall_app. split; [assumption |].
      destruct Ht as [-> | ->]; constructor; [| constructor].
      split; [eapply shape_aspect_letter; eauto |].
      exists m. split; [assumption |]. unfold group_str.
      destruct (group m 2); [reflexivity | discriminate].
    + intros k Hno. rewrite get_set_other; [now apply Hget |].
      intros ->. now apply (Hno m).
  - split; [exists []; now rewrite app_nil_r | auto].
Qed.

Lemma shape_aspect_scan_frame_witness :
  Dict.get (scan_shape_aspects lower_case_aspect_text [("A", "top face")]) "A"
  = Dict.get [("A", "top face")] "A".
Proof.
  apply (proj2 (shape_aspect_scan_frame lower_case_aspect_text [("A", "top face")])).
  intros m Hin. vm_compute in Hin. destruct Hin as [<- | []].
  vm_compute. discriminate.
Defined.

(** ** Labels that always get a location *)

Lemma contains_face_truthy (s : string) :
  Py.contains "face" s = true -> Py.truthy s = true.
Proof. destruct s; [discriminate | reflexivity]. Qed.

Lemma method6_location (datum_results : Dict.dict string) (label : string)
      (current_count : nat) (r : resolution) :
  In (Py.lower label) ["cylindricity"; "circularity"; "flatness"] ->
  Py.truthy (snd (method6 datum_results label current_count r)) = true.
Proof.
  intros Hl. unfold method6.
  destruct (Py.truthy (snd r)) eqn:E; cbn [negb]; [assumption |].
  cbn [In] in Hl. destruct Hl as [<- | [<- | [<- | []]]].
  - cbn [in_list existsb String.eqb Ascii.eqb Bool.eqb orb andb].
    destruct (find _ datum_results) as [[d_letter ?]|]; reflexivity.
  - cbn [in_list existsb String.eqb Ascii.eqb Bool.eqb orb andb].
    destruct (find _ datum_results) as [[d_letter ?]|]; reflexivity.
  - cbn [in_list existsb String.eqb Ascii.eqb Bool.eqb orb andb].
    destruct (find _ datum_results) as [[d_letter d_location]|] eqn:Ef;
      [| reflexivity].
    apply find_some in Ef. destruct Ef as [_ Ef]. cbn [snd] in *.
    now apply contains_face_truthy.
Qed.

Lemma extract_tolerance_located (maps : datum_maps) (line_dict : Dict.dict string)
      (lines : list string) (m : caps) (acc : list tol_result) :
  exists t, extract_tolerance maps line_dict lines acc m = (acc ++ [t])%list
            /\ located_when_labelled t.
Proof.
  unfold extract_tolerance. eexists. split; [reflexivity |].
  unfold located_when_labelled, located_labels. cbn [tr_label tr_location].
  remember (if String.eqb (Py.upper (group_str m 2)) "ROUNDNESS" then "Circularity"
            else Py.capitalize (group_str m 2)) as label eqn:El.
  clear El. intros Hl. unfold resolve_datum.
  match goal with
  | |- snd (method6 ?dr ?label ?n ?r) <> "" =>
      pose proof (@method6_location dr label n r) as H;
      destruct (snd (method6 dr label n r)); [| discriminate]
  end.
  exfalso. cbn [In] in Hl.
  destruct Hl as [<- | [<- | [<- | []]]];
    discriminate H; vm_compute; tauto.
Qed.

(** X23.  After a run, a geometric tolerance labelled Cylindricity,
    Circularity or Flatness always has a location: the last method
    supplies one when the others found none.  So the default "surface" of
    the table is never shown for an entry of these three labels. *)
Theorem three_labels_always_located (text : string) (st : run_state) :
  run_extraction text = Ok st ->
  Forall located_when_labelled (run_tolerances st).
Proof.
  intros H. destruct (run_extraction_inv _ H) as (_ & _ & _ & Ht & _).
  rewrite Ht. unfold extract_tolerances.
  apply fold_left_invariant with (P := Forall located_when_labelled);
    [| constructor].
  intros acc m Hacc.
  destruct (extract_tolerance_located
              (run_maps st) (build_line_dict (Py.splitlines text))
              (Py.splitlines text) m acc) as (t & -> & Hp).
  apply Forall_app. split; [assumption | now constructor].
Qed.

Lemma three_labels_always_located_witness :
  exists st,
    run_extraction "#21=FLATNESS_TOLERANCE('f1','',#30);" = Ok st
    /\ Forall located_when_labelled (run_tolerances st).
Proof.
  eexists. split; [vm_compute; reflexivity |].
  apply (three_labels_always_located "#21=FLATNESS_TOLERANCE('f1','',#30);").
  vm_compute. reflexivity.
Defined.

(** ** The letter case of a datum letter *)

Lemma truthy_lower (s : string) : Py.truthy (Py.lower s) = Py.truthy s.
Proof. destruct s; reflexivity. Qed.

(** X24.  The classifier does not see the letter case of the datum
    letter: a letter and its lower-case form get the same answer. *)
Theorem datum_letter_case_is_ignored (feature_name : option string) (letter : string) :
  determine_plane_position feature_name (Some (Py.lower letter))
  = determine_plane_position feature_name (Some letter).
Proof.
  unfold determine_plane_position, datum_letter_tier.
  cbn [Py.truthy_opt Py.str_opt]. now rewrite truthy_lower, upper_lower.
Qed.
